(** * Knowledge-graph memory server: the graph manager of [src/index.ts]

    A shallow embedding of [KnowledgeGraphManager] and of the part of the
    property-graph engine its statements rely on, followed by the properties
    of its operations.

    - [Text]: the string functions the manager and its statements use.
    - [Kuzu]: the database (three node tables, four relationship tables),
      the reading of a string literal spliced into the text of a statement,
      and the meaning of every statement the manager sends, as functions on
      the database.
    - the connection monad [M]: state passing over a connection, with the
      errors a JavaScript [await] can throw.
    - the operations of the manager, one definition per method.
    - the theorems. *)

From Stdlib Require Import List String Ascii Bool Arith Lia Permutation.
Import ListNotations.
Open Scope string_scope.
Open Scope list_scope.

(** ** Strings *)

Module Text.

(** Strings are sequences of bytes.  [String.prototype.toLowerCase] and the
    engine's [LOWER] are embedded for ASCII text: the letters [A]..[Z] are
    folded and every other byte is kept (so are the bytes of a letter outside
    ASCII, where JavaScript and the engine fold such a letter too). *)
Definition lower_char (c : ascii) : ascii :=
  let n := nat_of_ascii c in
  if ((65 <=? n) && (n <=? 90))%nat then ascii_of_nat (n + 32) else c.

Fixpoint toLowerCase (s : string) : string :=
  match s with
  | EmptyString => EmptyString
  | String c s' => String (lower_char c) (toLowerCase s')
  end.

(** [needle] occurs in [hay] as a substring. *)
Fixpoint occurs (hay needle : string) : bool :=
  String.prefix needle hay
  || match hay with
     | EmptyString => false
     | String _ hay' => occurs hay' needle
     end.

(** The engine's [hay CONTAINS needle]: a non-empty [needle] that occurs in
    [hay].  On the empty needle the engine answers false. *)
Definition contains (hay needle : string) : bool :=
  match needle with
  | EmptyString => false
  | String _ _ => occurs hay needle
  end.

Definition quote : ascii := ascii_of_nat 39.
Definition backslash : ascii := ascii_of_nat 92.

(** [s.replace(/'/g, ..)] with a backslash and a quote as the replacement:
    a backslash is put before every quote, and nothing else is touched. *)
Fixpoint replace_quotes (s : string) : string :=
  match s with
  | EmptyString => EmptyString
  | String c s' =>
      if Ascii.eqb c quote then String backslash (String quote (replace_quotes s'))
      else String c (replace_quotes s')
  end.

(** No backslash occurs in [s]. *)
Fixpoint plain (s : string) : bool :=
  match s with
  | EmptyString => true
  | String c s' => negb (Ascii.eqb c backslash) && plain s'
  end.

End Text.

(** ** The interfaces of [index.ts] *)

Record Entity := {
  name : string;
  entityType : string;
  observations : list string;
  tags : option (list string)        (* tags?: string[] *)
}.

Record Relation := {
  from : string;
  to : string;
  relationType : string
}.

Module Tag.
Record t := {
  name : string;
  category : option string;        (* category?: string *)
  description : option string      (* description?: string *)
}.
End Tag.

Module KnowledgeGraph.
Record t := {
  entities : list Entity;
  relations : list Relation;
  tags : option (list Tag.t)       (* tags?: Tag[] *)
}.
End KnowledgeGraph.

(** ** The storage engine

    The schema is the one [initialize] declares.  A relationship row holds the
    primary keys of the two nodes it joins; relationship tables are bags (the
    engine does not merge parallel edges), node tables are kept in insertion
    order.

    A statement is modelled by what it means on the database.  A prepared
    statement gets its parameters as values.  A statement sent as text gets
    them as string literals, each the text the manager spliced in between
    two quotes: [spliced] gives such a statement the value the parser reads
    from the literal, and no meaning when the literal does not parse.

    The tables are lists, and a query lists its rows in table order.  The
    engine promises no row order for a statement without [ORDER BY], and no
    order of the values of a [COLLECT]: the properties below compare what
    the queries return up to order. *)

Module Kuzu.

Record EntityNode := { e_name : string; e_entityType : string }.
Record ObservationNode := { o_id : nat; o_content : string }.
Record TagNode := { t_name : string; t_category : string; t_description : string }.

Record Database := {
  nodes_Entity : list EntityNode;                        (* PRIMARY KEY(name) *)
  nodes_Observation : list ObservationNode;              (* PRIMARY KEY(id)   *)
  nodes_Tag : list TagNode;                              (* PRIMARY KEY(name) *)
  rels_HAS_OBSERVATION : list (string * nat);            (* Entity -> Observation *)
  rels_RELATED_TO : list Relation;                       (* Entity -> Entity, relationType *)
  rels_ENTITY_TAGGED_WITH : list (string * string);      (* Entity -> Tag *)
  rels_OBSERVATION_TAGGED_WITH : list (nat * string);    (* Observation -> Tag *)
  serial : nat                                           (* next value of Observation.id *)
}.

Definition empty : Database :=
  {| nodes_Entity := []; nodes_Observation := []; nodes_Tag := [];
     rels_HAS_OBSERVATION := []; rels_RELATED_TO := [];
     rels_ENTITY_TAGGED_WITH := []; rels_OBSERVATION_TAGGED_WITH := [];
     serial := 0 |}.

(** Updating one table. *)
Definition on_Entity (f : list EntityNode -> list EntityNode) (d : Database) :=
  {| nodes_Entity := f (nodes_Entity d);
     nodes_Observation := nodes_Observation d;
     nodes_Tag := nodes_Tag d;
     rels_HAS_OBSERVATION := rels_HAS_OBSERVATION d;
     rels_RELATED_TO := rels_RELATED_TO d;
     rels_ENTITY_TAGGED_WITH := rels_ENTITY_TAGGED_WITH d;
     rels_OBSERVATION_TAGGED_WITH := rels_OBSERVATION_TAGGED_WITH d;
     serial := serial d |}.

Definition on_Observation (f : list ObservationNode -> list ObservationNode) (d : Database) :=
  {| nodes_Entity := nodes_Entity d;
     nodes_Observation := f (nodes_Observation d);
     nodes_Tag := nodes_Tag d;
     rels_HAS_OBSERVATION := rels_HAS_OBSERVATION d;
     rels_RELATED_TO := rels_RELATED_TO d;
     rels_ENTITY_TAGGED_WITH := rels_ENTITY_TAGGED_WITH d;
     rels_OBSERVATION_TAGGED_WITH := rels_OBSERVATION_TAGGED_WITH d;
     serial := serial d |}.

Definition on_Tag (f : list TagNode -> list TagNode) (d : Database) :=
  {| nodes_Entity := nodes_Entity d;
     nodes_Observation := nodes_Observation d;
     nodes_Tag := f (nodes_Tag d);
     rels_HAS_OBSERVATION := rels_HAS_OBSERVATION d;
     rels_RELATED_TO := rels_RELATED_TO d;
     rels_ENTITY_TAGGED_WITH := rels_ENTITY_TAGGED_WITH d;
     rels_OBSERVATION_TAGGED_WITH := rels_OBSERVATION_TAGGED_WITH d;
     serial := serial d |}.

Definition on_HAS_OBSERVATION (f : list (string * nat) -> list (string * nat)) (d : Database) :=
  {| nodes_Entity := nodes_Entity d;
     nodes_Observation := nodes_Observation d;
     nodes_Tag := nodes_Tag d;
     rels_HAS_OBSERVATION := f (rels_HAS_OBSERVATION d);
     rels_RELATED_TO := rels_RELATED_TO d;
     rels_ENTITY_TAGGED_WITH := rels_ENTITY_TAGGED_WITH d;
     rels_OBSERVATION_TAGGED_WITH := rels_OBSERVATION_TAGGED_WITH d;
     serial := serial d |}.

Definition on_RELATED_TO (f : list Relation -> list Relation) (d : Database) :=
  {| nodes_Entity := nodes_Entity d;
     nodes_Observation := nodes_Observation d;
     nodes_Tag := nodes_Tag d;
     rels_HAS_OBSERVATION := rels_HAS_OBSERVATION d;
     rels_RELATED_TO := f (rels_RELATED_TO d);
     rels_ENTITY_TAGGED_WITH := rels_ENTITY_TAGGED_WITH d;
     rels_OBSERVATION_TAGGED_WITH := rels_OBSERVATION_TAGGED_WITH d;
     serial := serial d |}.

Definition on_ENTITY_TAGGED_WITH
  (f : list (string * string) -> list (string * string)) (d : Database) :=
  {| nodes_Entity := nodes_Entity d;
     nodes_Observation := nodes_Observation d;
     nodes_Tag := nodes_Tag d;
     rels_HAS_OBSERVATION := rels_HAS_OBSERVATION d;
     rels_RELATED_TO := rels_RELATED_TO d;
     rels_ENTITY_TAGGED_WITH := f (rels_ENTITY_TAGGED_WITH d);
     rels_OBSERVATION_TAGGED_WITH := rels_OBSERVATION_TAGGED_WITH d;
     serial := serial d |}.

Definition on_OBSERVATION_TAGGED_WITH
  (f : list (nat * string) -> list (nat * string)) (d : Database) :=
  {| nodes_Entity := nodes_Entity d;
     nodes_Observation := nodes_Observation d;
     nodes_Tag := nodes_Tag d;
     rels_HAS_OBSERVATION := rels_HAS_OBSERVATION d;
     rels_RELATED_TO := rels_RELATED_TO d;
     rels_ENTITY_TAGGED_WITH := rels_ENTITY_TAGGED_WITH d;
     rels_OBSERVATION_TAGGED_WITH := f (rels_OBSERVATION_TAGGED_WITH d);
     serial := serial d |}.

Definition next_serial (d : Database) :=
  {| nodes_Entity := nodes_Entity d;
     nodes_Observation := nodes_Observation d;
     nodes_Tag := nodes_Tag d;
     rels_HAS_OBSERVATION := rels_HAS_OBSERVATION d;
     rels_RELATED_TO := rels_RELATED_TO d;
     rels_ENTITY_TAGGED_WITH := rels_ENTITY_TAGGED_WITH d;
     rels_OBSERVATION_TAGGED_WITH := rels_OBSERVATION_TAGGED_WITH d;
     serial := S (serial d) |}.

(** A statement either fails ([None]: the engine raises and the statement
    has no effect) or returns a value and the database it leaves. *)
Definition statement (A : Type) := Database -> option (A * Database).

Definition reading {A} (f : Database -> A) : statement A :=
  fun d => Some (f d, d).

Definition writing (f : Database -> Database) : statement unit :=
  fun d => Some (tt, f d).

(** *** String literals

    The text between the two quotes of a literal, as the parser reads it: a
    backslash introduces an escape sequence, and a quote that no backslash
    precedes ends the literal.  For the text the manager splices in, a quote
    inside it that ends the literal early leaves text after the literal,
    and a backslash at its end takes the closing quote, so that the literal
    ends further on in the statement (or nowhere): in both cases the model
    takes the statement not to parse.  (A value written on purpose to close
    the literal and go on with statement text of its own is outside the
    model, as are the escapes for code points, a backslash with [u] and
    hexadecimal digits.) *)

Definition escape (c : ascii) : option ascii :=
  let n := nat_of_ascii c in
  if ((n =? 92) || (n =? 39) || (n =? 34))%nat then Some c
  else if ((n =? 98) || (n =? 66))%nat then Some (ascii_of_nat 8)
  else if ((n =? 102) || (n =? 70))%nat then Some (ascii_of_nat 12)
  else if ((n =? 110) || (n =? 78))%nat then Some (ascii_of_nat 10)
  else if ((n =? 114) || (n =? 82))%nat then Some (ascii_of_nat 13)
  else if ((n =? 116) || (n =? 84))%nat then Some (ascii_of_nat 9)
  else None.

Fixpoint literal (text : string) : option string :=
  match text with
  | EmptyString => Some EmptyString
  | String c rest =>
      if Ascii.eqb c Text.backslash then
        match rest with
        | EmptyString => None
        | String e rest' =>
            match escape e, literal rest' with
            | Some x, Some v => Some (String x v)
            | _, _ => None
            end
        end
      else if Ascii.eqb c Text.quote then None
      else match literal rest with
           | Some v => Some (String c v)
           | None => None
           end
  end.

(** The literals of a list [['..', '..', ..]]. *)
Fixpoint literals (texts : list string) : option (list string) :=
  match texts with
  | [] => Some []
  | text :: texts' =>
      match literal text, literals texts' with
      | Some v, Some vs => Some (v :: vs)
      | _, _ => None
      end
  end.

(** A statement whose text holds the literal ['text'] where [q] has a
    value: it does not parse when the literal does not. *)
Definition spliced {A} (text : string) (q : string -> statement A) : statement A :=
  fun d => match literal text with
           | Some v => q v d
           | None => None
           end.

Definition spliced_list {A} (texts : list string) (q : list string -> statement A)
  : statement A :=
  fun d => match literals texts with
           | Some vs => q vs d
           | None => None
           end.

(** *** Patterns

    A relationship row is matched through the keys it holds: the engine
    keeps relationship rows only between nodes that exist (rows are created
    from matched nodes and leave with them, see [detach_delete_Entity]). *)

(** [(e:Entity {name: n})] *)
Definition match_Entity (d : Database) (n : string) : list EntityNode :=
  filter (fun e => e_name e =? n) (nodes_Entity d).

(** [(t:Tag {name: n})] *)
Definition match_Tag (d : Database) (n : string) : list TagNode :=
  filter (fun t => t_name t =? n) (nodes_Tag d).

(** [(o:Observation {content: c})] *)
Definition match_Observation (d : Database) (c : string) : list ObservationNode :=
  filter (fun o => o_content o =? c) (nodes_Observation d).

Definition Observation_by_id (d : Database) (i : nat) : list ObservationNode :=
  filter (fun o => o_id o =? i)%nat (nodes_Observation d).

(** [(e:Entity {name: n})-[:HAS_OBSERVATION]->(o:Observation)]: one row per
    relationship row leaving [n], in the order of the relationship table. *)
Definition linked_Observations (d : Database) (n : string) : list ObservationNode :=
  flat_map (fun l => if fst l =? n then Observation_by_id d (snd l) else [])
           (rels_HAS_OBSERVATION d).

(** [(e:Entity {name: n})-[:HAS_OBSERVATION]->(o:Observation {content: c})] *)
Definition match_owned (d : Database) (n c : string) : list ObservationNode :=
  filter (fun o => o_content o =? c) (linked_Observations d n).

Definition same_Relation (r r' : Relation) : bool :=
  (from r =? from r') && (to r =? to r') && (relationType r =? relationType r').

(** [(e1:Entity {name: f})-[r:RELATED_TO {relationType: k}]->(e2:Entity {name: t})] *)
Definition match_RELATED_TO (d : Database) (r : Relation) : list Relation :=
  filter (same_Relation r) (rels_RELATED_TO d).

(** [(e:Entity {name: n})-[:ENTITY_TAGGED_WITH]->(t:Tag {name: tn})] *)
Definition match_ENTITY_TAGGED_WITH (d : Database) (n tn : string) : list (string * string) :=
  filter (fun l => (fst l =? n) && (snd l =? tn)) (rels_ENTITY_TAGGED_WITH d).

(** [(o)-[:OBSERVATION_TAGGED_WITH]->(t:Tag {name: tn})] for a given [o]. *)
Definition match_OBSERVATION_TAGGED_WITH (d : Database) (o : ObservationNode) (tn : string)
  : list (nat * string) :=
  filter (fun l => (fst l =? o_id o)%nat && (snd l =? tn)) (rels_OBSERVATION_TAGGED_WITH d).

(** *** Statements of [createEntities] *)

(** [MATCH (e:Entity {name: $name}) RETURN e.name], as [getNumTuples()]. *)
Definition count_Entity (n : string) : statement nat :=
  reading (fun d => List.length (match_Entity d n)).

(** [CREATE (e:Entity {name: $name, entityType: $entityType})]; a second
    node with the same primary key is refused. *)
Definition create_Entity (n ty : string) : statement unit :=
  fun d =>
    match match_Entity d n with
    | [] => Some (tt, on_Entity (fun l => l ++ [ {| e_name := n; e_entityType := ty |} ]) d)
    | _ :: _ => None
    end.

(** [CREATE (o:Observation {content: $content})]; [id] is SERIAL. *)
Definition create_Observation (c : string) : statement unit :=
  writing (fun d =>
    next_serial (on_Observation (fun l => l ++ [ {| o_id := serial d; o_content := c |} ]) d)).

(** [MATCH (e:Entity {name: $entityName}), (o:Observation {content: $content})
     CREATE (e)-[:HAS_OBSERVATION]->(o)]: one relationship per matched pair,
    whichever entity the observation was created for. *)
Definition link_HAS_OBSERVATION (n c : string) : statement unit :=
  writing (fun d =>
    on_HAS_OBSERVATION (fun l => l ++
      flat_map (fun e => map (fun o => (e_name e, o_id o)) (match_Observation d c))
               (match_Entity d n)) d).

(** [MATCH (t:Tag {name: $name}) RETURN t.name], as [getNumTuples()]. *)
Definition count_Tag (n : string) : statement nat :=
  reading (fun d => List.length (match_Tag d n)).

(** [CREATE (t:Tag {name: .., category: .., description: ..})] *)
Definition create_Tag (n cat descr : string) : statement unit :=
  fun d =>
    match match_Tag d n with
    | [] => Some (tt, on_Tag (fun l => l ++
              [ {| t_name := n; t_category := cat; t_description := descr |} ]) d)
    | _ :: _ => None
    end.

(** [MATCH (e:Entity {name: $entityName}), (t:Tag {name: $tagName})
     CREATE (e)-[:ENTITY_TAGGED_WITH]->(t)] *)
Definition link_ENTITY_TAGGED_WITH (n tn : string) : statement unit :=
  writing (fun d =>
    on_ENTITY_TAGGED_WITH (fun l => l ++
      flat_map (fun e => map (fun t => (e_name e, t_name t)) (match_Tag d tn))
               (match_Entity d n)) d).

(** *** Statements of [createRelations] *)

(** [MATCH (e1:Entity {name: $from})-[r:RELATED_TO {relationType: $relationType}]->
           (e2:Entity {name: $to}) RETURN r], as [getNumTuples()]. *)
Definition count_RELATED_TO (r : Relation) : statement nat :=
  reading (fun d => List.length (match_RELATED_TO d r)).

(** [MATCH (e1:Entity {name: $from}), (e2:Entity {name: $to})
     CREATE (e1)-[:RELATED_TO {relationType: $relationType}]->(e2)]: nothing
    is created when either pattern matches no node. *)
Definition create_RELATED_TO (r : Relation) : statement unit :=
  writing (fun d =>
    on_RELATED_TO (fun l => l ++
      flat_map (fun e1 => map (fun e2 =>
                  {| from := e_name e1; to := e_name e2; relationType := relationType r |})
                  (match_Entity d (to r)))
               (match_Entity d (from r))) d).

(** *** Statements of [addObservations] *)

(** [MATCH (e:Entity {name: ..})-[:HAS_OBSERVATION]->(o:Observation {content: ..})
     RETURN o], as [getNumTuples()]. *)
Definition count_owned (n c : string) : statement nat :=
  reading (fun d => List.length (match_owned d n c)).

(** [MATCH (e:Entity {name: ..}), (o:Observation {content: ..})
     WHERE NOT (e)-[:HAS_OBSERVATION]->(o)
     CREATE (e)-[:HAS_OBSERVATION]->(o)] *)
Definition link_HAS_OBSERVATION_unless_linked (n c : string) : statement unit :=
  writing (fun d =>
    on_HAS_OBSERVATION (fun l => l ++
      flat_map (fun e => map (fun o => (e_name e, o_id o))
                  (filter (fun o => negb (existsb (fun k => (fst k =? e_name e)
                                                           && (snd k =? o_id o)%nat) l))
                          (match_Observation d c)))
               (match_Entity d n)) d).

(** *** Statements of the delete path *)

(** Removing the nodes called [n] together with every relationship row that
    touches them. *)
Definition detach_Entity (n : string) (d : Database) : Database :=
  on_Entity (filter (fun e => negb (e_name e =? n)))
    (on_HAS_OBSERVATION (filter (fun l => negb (fst l =? n)))
      (on_RELATED_TO (filter (fun r => negb (from r =? n) && negb (to r =? n)))
        (on_ENTITY_TAGGED_WITH (filter (fun l => negb (fst l =? n))) d))).

(** [MATCH (e:Entity {name: ..}) DETACH DELETE e]: nothing happens when the
    pattern matches no node. *)
Definition detach_delete_Entity (n : string) : statement unit :=
  writing (fun d =>
    match match_Entity d n with
    | [] => d
    | _ :: _ => detach_Entity n d
    end).

Definition has_owner (d : Database) (o : ObservationNode) : bool :=
  existsb (fun l => (snd l =? o_id o)%nat) (rels_HAS_OBSERVATION d).

Definition has_tag_link (d : Database) (o : ObservationNode) : bool :=
  existsb (fun l => (fst l =? o_id o)%nat) (rels_OBSERVATION_TAGGED_WITH d).

(** [MATCH (o:Observation) WHERE NOT (o)<-[:HAS_OBSERVATION]-() DELETE o].
    A plain [DELETE] of a node that still has relationships (here: an
    [OBSERVATION_TAGGED_WITH] row) is refused by the engine, and the
    statement then deletes nothing. *)
Definition delete_orphan_Observations : statement unit :=
  fun d =>
    let orphans := filter (fun o => negb (has_owner d o)) (nodes_Observation d) in
    if existsb (has_tag_link d) orphans then None
    else Some (tt, on_Observation (filter (has_owner d)) d).

(** [MATCH (e:Entity {name: ..})-[:HAS_OBSERVATION]->(o:Observation {content: ..})
     DETACH DELETE o] *)
Definition detach_delete_owned (n c : string) : statement unit :=
  writing (fun d =>
    let gone := map o_id (match_owned d n c) in
    let is_gone := fun i => existsb (Nat.eqb i) gone in
    on_Observation (filter (fun o => negb (is_gone (o_id o))))
      (on_HAS_OBSERVATION (filter (fun l => negb (is_gone (snd l))))
        (on_OBSERVATION_TAGGED_WITH (filter (fun l => negb (is_gone (fst l)))) d))).

(** [MATCH (e1:Entity {name: ..})-[r:RELATED_TO {relationType: ..}]->(e2:Entity {name: ..})
     DELETE r] *)
Definition delete_RELATED_TO (r : Relation) : statement unit :=
  writing (on_RELATED_TO (filter (fun r' => negb (same_Relation r r')))).

(** [MATCH (e:Entity {name: ..})-[r:ENTITY_TAGGED_WITH]->(t:Tag {name: ..})
     DELETE r RETURN t.name AS removedTag], as [getNumTuples()]. *)
Definition delete_ENTITY_TAGGED_WITH (n tn : string) : statement nat :=
  fun d => Some (List.length (match_ENTITY_TAGGED_WITH d n tn),
                 on_ENTITY_TAGGED_WITH
                   (filter (fun l => negb ((fst l =? n) && (snd l =? tn)))) d).

(** *** Statements of the tag operations *)

(** [MATCH (e:Entity {name: ..})-[:ENTITY_TAGGED_WITH]->(t:Tag {name: ..}) RETURN e],
    as [getNumTuples()]. *)
Definition count_ENTITY_TAGGED_WITH (n tn : string) : statement nat :=
  reading (fun d => List.length (match_ENTITY_TAGGED_WITH d n tn)).

(** [MATCH (e:Entity {name: ..})-[:HAS_OBSERVATION]->(o:Observation {content: ..})
           -[:OBSERVATION_TAGGED_WITH]->(t:Tag {name: ..}) RETURN o],
    as [getNumTuples()]. *)
Definition count_tagged_owned (n c tn : string) : statement nat :=
  reading (fun d =>
    List.length (flat_map (fun o => match_OBSERVATION_TAGGED_WITH d o tn) (match_owned d n c))).

(** [MATCH (e:Entity {name: ..})-[:HAS_OBSERVATION]->(o:Observation {content: ..}),
           (t:Tag {name: ..})
     CREATE (o)-[:OBSERVATION_TAGGED_WITH]->(t)] *)
Definition link_OBSERVATION_TAGGED_WITH (n c tn : string) : statement unit :=
  writing (fun d =>
    on_OBSERVATION_TAGGED_WITH (fun l => l ++
      flat_map (fun o => map (fun t => (o_id o, t_name t)) (match_Tag d tn))
               (match_owned d n c)) d).

(** *** Statements of the queries *)

(** [COLLECT(DISTINCT x)]: the values in the order of their first
    occurrence. *)
Fixpoint distinct (l : list string) : list string :=
  match l with
  | [] => []
  | x :: l' => x :: filter (fun y => negb (y =? x)) (distinct l')
  end.

Definition linked_Tags (d : Database) (n : string) : list string :=
  map snd (filter (fun l => fst l =? n) (rels_ENTITY_TAGGED_WITH d)).

(** [COLLECT(..)] of the values [l]: null when there is none. *)
Definition COLLECT (l : list string) : option (list string) :=
  match l with
  | [] => None
  | _ :: _ => Some l
  end.

(** A row [{name, entityType, observations, tags}] of an entity query; a
    column that is null, or that the statement does not return, is [None]. *)
Record EntityRow := {
  row_name : string;
  row_entityType : string;
  row_observations : option (list string);
  row_tags : option (list string)
}.

(** [MATCH (e:Entity)
     OPTIONAL MATCH (e)-[:HAS_OBSERVATION]->(o:Observation)
     OPTIONAL MATCH (e)-[:ENTITY_TAGGED_WITH]->(et:Tag)
     RETURN e.name AS name, e.entityType AS entityType,
            COLLECT(DISTINCT o.content) AS observations,
            COLLECT(DISTINCT et.name) AS tags] *)
Definition all_Entity_rows : statement (list EntityRow) :=
  reading (fun d =>
    map (fun e => {| row_name := e_name e;
                     row_entityType := e_entityType e;
                     row_observations :=
                       COLLECT (distinct (map o_content (linked_Observations d (e_name e))));
                     row_tags := COLLECT (distinct (linked_Tags d (e_name e))) |})
        (nodes_Entity d)).

(** [MATCH (e1:Entity)-[r:RELATED_TO]->(e2:Entity)
     RETURN e1.name AS from, e2.name AS to, r.relationType AS relationType] *)
Definition all_RELATED_TO_rows : statement (list Relation) :=
  reading rels_RELATED_TO.

(** [ORDER BY t.name] *)
Fixpoint insert_by_name (t : TagNode) (l : list TagNode) : list TagNode :=
  match l with
  | [] => [t]
  | u :: l' => if String.leb (t_name t) (t_name u) then t :: l
               else u :: insert_by_name t l'
  end.

Definition order_by_name (l : list TagNode) : list TagNode :=
  fold_right insert_by_name [] l.

(** [MATCH (t:Tag)
     RETURN t.name AS name, t.category AS category, t.description AS description
     ORDER BY t.name] *)
Definition all_Tag_rows : statement (list TagNode) :=
  reading (fun d => order_by_name (nodes_Tag d)).

(** The statement of [searchNodes]:

    [MATCH (e:Entity)
     OPTIONAL MATCH (e)-[:HAS_OBSERVATION]->(o:Observation)
     WHERE LOWER(e.name) CONTAINS q OR LOWER(e.entityType) CONTAINS q
        OR LOWER(o.content) CONTAINS q
     WITH e, COLLECT(DISTINCT o.content) AS observations
     RETURN DISTINCT e.name AS name, e.entityType AS entityType, observations]

    In Cypher a [WHERE] belongs to the clause it follows.  After
    [OPTIONAL MATCH] it restricts which observations the optional pattern
    binds to [o]; a row of the preceding [MATCH (e:Entity)] for which no
    observation passes is kept, with [o] null, and [COLLECT] skips nulls.
    So there is one row per entity node, and the condition selects the
    observations that are collected for it.  ([name] is the primary key, so
    [RETURN DISTINCT] has no two rows to merge.) *)
Definition search_condition (q : string) (e : EntityNode) (o : ObservationNode) : bool :=
  Text.contains (Text.toLowerCase (e_name e)) q
  || Text.contains (Text.toLowerCase (e_entityType e)) q
  || Text.contains (Text.toLowerCase (o_content o)) q.

Definition search_Entity_rows (q : string) : statement (list EntityRow) :=
  reading (fun d =>
    map (fun e => {| row_name := e_name e;
                     row_entityType := e_entityType e;
                     row_observations :=
                       COLLECT (distinct (map o_content
                                            (filter (search_condition q e)
                                                    (linked_Observations d (e_name e)))));
                     row_tags := None |})
        (nodes_Entity d)).

Definition name_in (names : list string) (n : string) : bool :=
  existsb (String.eqb n) names.

(** [MATCH (e1:Entity)-[r:RELATED_TO]->(e2:Entity)
     WHERE e1.name IN [names] AND e2.name IN [names]
     RETURN e1.name AS from, e2.name AS to, r.relationType AS relationType] *)
Definition induced_RELATED_TO_rows (names : list string) : statement (list Relation) :=
  reading (fun d =>
    filter (fun r => name_in names (from r) && name_in names (to r)) (rels_RELATED_TO d)).

(** *** Statements of [openNodes], [getEntitiesByTag] and [getTagUsage] *)

(** [MATCH (e:Entity)
     WHERE e.name IN [names]
     OPTIONAL MATCH (e)-[:HAS_OBSERVATION]->(o:Observation)
     RETURN e.name AS name, e.entityType AS entityType,
            COLLECT(o.content) AS observations]: no [DISTINCT] here, a content
    is collected once per relationship row; for an entity without
    observation the column is null. *)
Definition named_Entity_rows (names : list string) : statement (list EntityRow) :=
  reading (fun d =>
    map (fun e => {| row_name := e_name e;
                     row_entityType := e_entityType e;
                     row_observations :=
                       COLLECT (map o_content (linked_Observations d (e_name e)));
                     row_tags := None |})
        (filter (fun e => name_in names (e_name e)) (nodes_Entity d))).

(** [(e)-[:ENTITY_TAGGED_WITH]->(t:Tag {name: tn})] for the entity called
    [n]: the tag nodes bound to [t], one per relationship row. *)
Definition tags_bound (d : Database) (n tn : string) : list TagNode :=
  flat_map (fun _ => match_Tag d tn) (match_ENTITY_TAGGED_WITH d n tn).

(** [MATCH (e:Entity)-[:ENTITY_TAGGED_WITH]->(t:Tag {name: tn})
     OPTIONAL MATCH (e)-[:HAS_OBSERVATION]->(o:Observation)
     RETURN e.name AS name, e.entityType AS entityType,
            COLLECT(DISTINCT o.content) AS observations,
            COLLECT(DISTINCT t.name) AS entityTags]: one row per entity the
    first pattern matches; [t] ranges over the tag of the pattern only. *)
Definition tagged_Entity_rows (tn : string) : statement (list EntityRow) :=
  reading (fun d =>
    flat_map (fun e =>
                match tags_bound d (e_name e) tn with
                | [] => []
                | (_ :: _) as ts =>
                    [ {| row_name := e_name e;
                         row_entityType := e_entityType e;
                         row_observations :=
                           COLLECT (distinct (map o_content
                                                  (linked_Observations d (e_name e))));
                         row_tags := COLLECT (distinct (map t_name ts)) |} ]
                end)
             (nodes_Entity d)).

(** A row [{tag, entityCount, observationCount}]. *)
Record UsageRow := {
  row_tag : string;
  row_entityCount : nat;
  row_observationCount : nat
}.

(** [ORDER BY entityCount + observationCount DESC] *)
Fixpoint insert_by_total (u : UsageRow) (l : list UsageRow) : list UsageRow :=
  match l with
  | [] => [u]
  | v :: l' =>
      if (row_entityCount v + row_observationCount v
          <=? row_entityCount u + row_observationCount u)%nat
      then u :: l
      else v :: insert_by_total u l'
  end.

Definition order_by_total (l : list UsageRow) : list UsageRow :=
  fold_right insert_by_total [] l.

(** [MATCH (t:Tag)
     OPTIONAL MATCH (e:Entity)-[:ENTITY_TAGGED_WITH]->(t)
     OPTIONAL MATCH (o:Observation)-[:OBSERVATION_TAGGED_WITH]->(t)
     RETURN t.name AS tag,
            COUNT(DISTINCT e) AS entityCount,
            COUNT(DISTINCT o) AS observationCount
     ORDER BY entityCount + observationCount DESC] *)
Definition usage_rows : statement (list UsageRow) :=
  reading (fun d =>
    order_by_total
      (map (fun t =>
              {| row_tag := t_name t;
                 row_entityCount :=
                   List.length
                     (distinct (map fst (filter (fun l => snd l =? t_name t)
                                                (rels_ENTITY_TAGGED_WITH d))));
                 row_observationCount :=
                   List.length
                     (nodup Nat.eq_dec
                        (map fst (filter (fun l => snd l =? t_name t)
                                         (rels_OBSERVATION_TAGGED_WITH d)))) |})
           (nodes_Tag d))).

End Kuzu.

(** ** The connection

    Every [await this.conn.query(..)] (or [prepare] followed by [execute]) is
    one round trip to the engine, and any round trip may throw.  A connection
    carries the database and, for the round trips still to come, whether the
    engine fails on them for a reason of its own (I/O, memory, ...): [pending]
    is read from its head and an exhausted list means no further failure.
    [raised] counts the errors the engine has thrown on this connection. *)

Inductive error :=
| StorageFault                      (* an error thrown by the engine *)
| NotFound (entityName : string)    (* Error(`Entity with name ${..} not found`) *)
| TypeError.                        (* a method called on null *)

Record Connection := {
  db : Kuzu.Database;
  pending : list bool;
  raised : nat
}.

Definition M (A : Type) : Type := Connection -> (error + A) * Connection.

Definition ret {A} (a : A) : M A := fun c => (inr a, c).

Definition bind {A B} (m : M A) (k : A -> M B) : M B :=
  fun c => match m c with
           | (inr a, c') => k a c'
           | (inl e, c') => (inl e, c')
           end.

Definition throw {A} (e : error) : M A := fun c => (inl e, c).

(** [try { m } catch (error) { h error }] *)
Definition try_catch {A} (m : M A) (h : error -> M A) : M A :=
  fun c => match m c with
           | (inr a, c') => (inr a, c')
           | (inl e, c') => h e c'
           end.

Definition query {A} (q : Kuzu.statement A) : M A :=
  fun c =>
    let rest := tl (pending c) in
    let failed := (inl StorageFault,
                   {| db := db c; pending := rest; raised := S (raised c) |}) in
    if hd false (pending c) then failed
    else match q (db c) with
         | Some (a, d) => (inr a, {| db := d; pending := rest; raised := raised c |})
         | None => failed
         end.

Declare Scope conn_scope.
Delimit Scope conn_scope with conn.
Notation "x <- m ;; k" := (bind m (fun x => k))
  (at level 61, m at next level, right associativity) : conn_scope.
Notation "m ;; k" := (bind m (fun _ => k))
  (at level 61, right associativity) : conn_scope.
Open Scope conn_scope.

(** [for (const x of xs) { .. }], the variables the body assigns being passed
    from one iteration to the next. *)
Fixpoint for_of {A St} (xs : list A) (body : St -> A -> M St) (s : St) : M St :=
  match xs with
  | [] => ret s
  | x :: xs' => s' <- body s x ;; for_of xs' body s'
  end.

Definition for_each {A} (xs : list A) (body : A -> M unit) : M unit :=
  for_of xs (fun _ x => body x) tt.

(** A connection on which the engine fails for no reason of its own. *)
Definition connect (d : Kuzu.Database) : Connection :=
  {| db := d; pending := []; raised := 0 |}.

(** ** The graph manager *)

(** [{ entityName: string; contents: string[] }] *)
Module Addition.
Record t := { entityName : string; contents : list string }.
End Addition.

(** [{ entityName: string; addedObservations: string[] }] *)
Module Added.
Record t := { entityName : string; addedObservations : list string }.
End Added.

(** [{ entityName: string; observations: string[] }] *)
Module Deletion.
Record t := { entityName : string; observations : list string }.
End Deletion.

Definition createEntities (entities : list Entity) : M (list Entity) :=
  for_of entities (fun newEntities entity =>
    try_catch
      (n <- query (Kuzu.count_Entity (name entity)) ;;
       if (n =? 0)%nat then
         query (Kuzu.create_Entity (name entity) (entityType entity)) ;;
         for_each (observations entity) (fun observation =>
           query (Kuzu.create_Observation observation) ;;
           query (Kuzu.link_HAS_OBSERVATION (name entity) observation)) ;;
         match tags entity with
         | Some ((_ :: _) as tagNames) =>
             for_each tagNames (fun tagName =>
               k <- query (Kuzu.count_Tag tagName) ;;
               (if (k =? 0)%nat then query (Kuzu.create_Tag tagName "" "") else ret tt) ;;
               query (Kuzu.link_ENTITY_TAGGED_WITH (name entity) tagName))
         | _ => ret tt
         end ;;
         ret (newEntities ++
              [ {| name := name entity;
                   entityType := entityType entity;
                   observations := observations entity;
                   tags := Some (match tags entity with Some l => l | None => [] end) |} ])
       else ret newEntities)
      (fun error => throw error))
    [].

Definition createRelations (relations : list Relation) : M (list Relation) :=
  for_of relations (fun newRelations relation =>
    try_catch
      (n <- query (Kuzu.count_RELATED_TO relation) ;;
       if (n =? 0)%nat then
         query (Kuzu.create_RELATED_TO relation) ;;
         ret (newRelations ++
              [ {| from := from relation;
                   to := to relation;
                   relationType := relationType relation |} ])
       else ret newRelations)
      (fun error => throw error))
    [].

(** The loop over [obs.contents] of [addObservations], with its own
    [try]/[catch] around each content. *)
Definition addObservations_contents (escapedEntityName : string) (contents : list string)
  : M (list string) :=
  for_of contents (fun addedObservations content =>
    try_catch
      (let escapedContent := Text.replace_quotes content in
       k <- query (Kuzu.spliced escapedEntityName (fun entityName =>
                   Kuzu.spliced escapedContent (Kuzu.count_owned entityName))) ;;
       if (k =? 0)%nat then
         query (Kuzu.spliced escapedContent Kuzu.create_Observation) ;;
         query (Kuzu.spliced escapedEntityName (fun entityName =>
                Kuzu.spliced escapedContent
                  (Kuzu.link_HAS_OBSERVATION_unless_linked entityName))) ;;
         ret (addedObservations ++ [content])
       else ret addedObservations)
      (fun _ => ret addedObservations))
    [].

(** One turn of the loop over [observations] of [addObservations]. *)
Definition addObservations_entry (results : list Added.t) (obs : Addition.t)
  : M (list Added.t) :=
  try_catch
    (let escapedEntityName := Text.replace_quotes (Addition.entityName obs) in
     n <- query (Kuzu.spliced escapedEntityName Kuzu.count_Entity) ;;
     (if (n =? 0)%nat then throw (NotFound (Addition.entityName obs)) else ret tt) ;;
     addedObservations <-
       addObservations_contents escapedEntityName (Addition.contents obs) ;;
     ret (results ++
          [ {| Added.entityName := Addition.entityName obs;
               Added.addedObservations := addedObservations |} ]))
    (fun error => throw error).

Definition addObservations (observations : list Addition.t) : M (list Added.t) :=
  for_of observations addObservations_entry [].

Definition deleteEntities (entityNames : list string) : M unit :=
  for_each entityNames (fun entityName =>
    try_catch
      (let escapedName := Text.replace_quotes entityName in
       query (Kuzu.spliced escapedName Kuzu.detach_delete_Entity) ;;
       query Kuzu.delete_orphan_Observations)
      (fun _ => ret tt)).

Definition deleteObservations (deletions : list Deletion.t) : M unit :=
  for_each deletions (fun deletion =>
    for_each (Deletion.observations deletion) (fun observation =>
      try_catch
        (let escapedEntityName := Text.replace_quotes (Deletion.entityName deletion) in
         let escapedObservation := Text.replace_quotes observation in
         query (Kuzu.spliced escapedEntityName (fun entityName =>
                Kuzu.spliced escapedObservation (Kuzu.detach_delete_owned entityName))))
        (fun _ => ret tt))).

Definition deleteRelations (relations : list Relation) : M unit :=
  for_each relations (fun relation =>
    try_catch
      (let escapedFrom := Text.replace_quotes (from relation) in
       let escapedTo := Text.replace_quotes (to relation) in
       let escapedType := Text.replace_quotes (relationType relation) in
       query (Kuzu.spliced escapedFrom (fun from_ =>
              Kuzu.spliced escapedType (fun type_ =>
              Kuzu.spliced escapedTo (fun to_ =>
                Kuzu.delete_RELATED_TO
                  {| from := from_; to := to_; relationType := type_ |})))))
      (fun _ => ret tt)).

Definition getAllTags : M (list Tag.t) :=
  rows <- query Kuzu.all_Tag_rows ;;
  ret (map (fun row =>
         {| Tag.name := Kuzu.t_name row;
            Tag.category :=
              if Kuzu.t_category row =? "" then None else Some (Kuzu.t_category row);
            Tag.description :=
              if Kuzu.t_description row =? "" then None else Some (Kuzu.t_description row) |})
       rows).

(** [(column as string[])?.filter(..) || []], the filter dropping nulls, of
    which a collected list has none. *)
Definition or_empty (column : option (list string)) : list string :=
  match column with
  | Some values => values
  | None => []
  end.

(** [raw ? raw.filter((x) => x !== null && x !== '') : []] *)
Definition non_empty (raw : option (list string)) : list string :=
  match raw with
  | Some values => filter (fun x => negb (x =? "")) values
  | None => []
  end.

Definition readGraph : M KnowledgeGraph.t :=
  try_catch
    (rows <- query Kuzu.all_Entity_rows ;;
     let entities :=
       map (fun row => {| name := Kuzu.row_name row;
                          entityType := Kuzu.row_entityType row;
                          observations := or_empty (Kuzu.row_observations row);
                          tags := Some (or_empty (Kuzu.row_tags row)) |}) rows in
     relationRows <- query Kuzu.all_RELATED_TO_rows ;;
     let relations :=
       map (fun row => {| from := from row; to := to row;
                          relationType := relationType row |}) relationRows in
     tags <- getAllTags ;;
     ret {| KnowledgeGraph.entities := entities;
            KnowledgeGraph.relations := relations;
            KnowledgeGraph.tags := Some tags |})
    (fun error => throw error).

(** [new Set<string>()] filled by [add], read back by [Array.from]. *)
Definition Set_add (s : list string) (x : string) : list string :=
  if Kuzu.name_in s x then s else s ++ [x].

Definition searchNodes (query_ : string) : M KnowledgeGraph.t :=
  try_catch
    (let lowerQuery := Text.toLowerCase query_ in
     let escapedQuery := Text.replace_quotes lowerQuery in
     rows <- query (Kuzu.spliced escapedQuery Kuzu.search_Entity_rows) ;;
     let entities :=
       map (fun row => {| name := Kuzu.row_name row;
                          entityType := Kuzu.row_entityType row;
                          observations := non_empty (Kuzu.row_observations row);
                          tags := None |}) rows in
     let entityNames := fold_left Set_add (map Kuzu.row_name rows) [] in
     relations <-
       (if (0 <? List.length entityNames)%nat then
          let escapedNames := map Text.replace_quotes entityNames in
          relationRows <-
            query (Kuzu.spliced_list escapedNames Kuzu.induced_RELATED_TO_rows) ;;
          ret (map (fun row => {| from := from row; to := to row;
                                  relationType := relationType row |}) relationRows)
        else ret []) ;;
     ret {| KnowledgeGraph.entities := entities;
            KnowledgeGraph.relations := relations;
            KnowledgeGraph.tags := None |})
    (fun error => throw error).

Definition tagEntity (entityName : string) (tagNames : list string) : M (list string) :=
  try_catch
    (let escapedEntityName := Text.replace_quotes entityName in
     n <- query (Kuzu.spliced escapedEntityName Kuzu.count_Entity) ;;
     (if (n =? 0)%nat then throw (NotFound entityName) else ret tt) ;;
     for_of tagNames (fun addedTags tagName =>
       try_catch
         (let escapedTagName := Text.replace_quotes tagName in
          k <- query (Kuzu.spliced escapedTagName Kuzu.count_Tag) ;;
          (if (k =? 0)%nat
           then query (Kuzu.spliced escapedTagName (fun name => Kuzu.create_Tag name "" ""))
           else ret tt) ;;
          j <- query (Kuzu.spliced escapedEntityName (fun entity =>
                      Kuzu.spliced escapedTagName
                        (Kuzu.count_ENTITY_TAGGED_WITH entity))) ;;
          if (j =? 0)%nat then
            query (Kuzu.spliced escapedEntityName (fun entity =>
                   Kuzu.spliced escapedTagName
                     (Kuzu.link_ENTITY_TAGGED_WITH entity))) ;;
            ret (addedTags ++ [tagName])
          else ret addedTags)
         (fun _ => ret addedTags))
       [])
    (fun error => throw error).

(** One turn of the loop over [tagNames] of [tagObservation]. *)
Definition tagObservation_tag (escapedEntityName escapedContent : string)
  (addedTags : list string) (tagName : string) : M (list string) :=
  try_catch
    (let escapedTagName := Text.replace_quotes tagName in
     k <- query (Kuzu.spliced escapedTagName Kuzu.count_Tag) ;;
     (if (k =? 0)%nat
      then query (Kuzu.spliced escapedTagName (fun name => Kuzu.create_Tag name "" ""))
      else ret tt) ;;
     j <- query (Kuzu.spliced escapedEntityName (fun entity =>
                 Kuzu.spliced escapedContent (fun content =>
                 Kuzu.spliced escapedTagName
                   (Kuzu.count_tagged_owned entity content)))) ;;
     if (j =? 0)%nat then
       query (Kuzu.spliced escapedEntityName (fun entity =>
              Kuzu.spliced escapedContent (fun content =>
              Kuzu.spliced escapedTagName
                (Kuzu.link_OBSERVATION_TAGGED_WITH entity content)))) ;;
       ret (addedTags ++ [tagName])
     else ret addedTags)
    (fun _ => ret addedTags).

Definition tagObservation (entityName observationContent : string) (tagNames : list string)
  : M (list string) :=
  try_catch
    (let escapedEntityName := Text.replace_quotes entityName in
     let escapedContent := Text.replace_quotes observationContent in
     for_of tagNames (tagObservation_tag escapedEntityName escapedContent) [])
    (fun error => throw error).

Definition removeTagsFromEntity (entityName : string) (tagNames : list string)
  : M (list string) :=
  let escapedEntityName := Text.replace_quotes entityName in
  for_of tagNames (fun removedTags tagName =>
    try_catch
      (let escapedTagName := Text.replace_quotes tagName in
       k <- query (Kuzu.spliced escapedEntityName (fun entity =>
                   Kuzu.spliced escapedTagName
                     (Kuzu.delete_ENTITY_TAGGED_WITH entity))) ;;
       if (0 <? k)%nat then ret (removedTags ++ [tagName]) else ret removedTags)
      (fun _ => ret removedTags))
    [].

(** [{ tag: string; entityCount: number; observationCount: number }] *)
Module Usage.
Record t := { tag : string; entityCount : nat; observationCount : nat }.
End Usage.

(** In [openNodes] the observations of a row are filtered without the guard
    for a null column that the other queries have: [.filter] is called on
    null and throws. *)
Definition openNodes (names : list string) : M KnowledgeGraph.t :=
  try_catch
    (let escapedNames := map Text.replace_quotes names in
     rows <- query (Kuzu.spliced_list escapedNames Kuzu.named_Entity_rows) ;;
     entities <-
       for_of rows (fun entities row =>
         match Kuzu.row_observations row with
         | Some values =>
             ret (entities ++ [ {| name := Kuzu.row_name row;
                                   entityType := Kuzu.row_entityType row;
                                   observations := values;
                                   tags := None |} ])
         | None => throw TypeError
         end) [] ;;
     relationRows <-
       query (Kuzu.spliced_list escapedNames Kuzu.induced_RELATED_TO_rows) ;;
     let relations :=
       map (fun row => {| from := from row; to := to row;
                          relationType := relationType row |}) relationRows in
     ret {| KnowledgeGraph.entities := entities;
            KnowledgeGraph.relations := relations;
            KnowledgeGraph.tags := None |})
    (fun error => throw error).

Definition createTags (tags : list Tag.t) : M (list Tag.t) :=
  for_of tags (fun newTags tag =>
    try_catch
      (let escapedName := Text.replace_quotes (Tag.name tag) in
       n <- query (Kuzu.spliced escapedName Kuzu.count_Tag) ;;
       if (n =? 0)%nat then
         let escapedCategory :=
           Text.replace_quotes (match Tag.category tag with Some c => c | None => "" end) in
         let escapedDescription :=
           Text.replace_quotes (match Tag.description tag with Some c => c | None => "" end) in
         query (Kuzu.spliced escapedName (fun name_ =>
                Kuzu.spliced escapedCategory (fun category_ =>
                Kuzu.spliced escapedDescription (fun description_ =>
                  Kuzu.create_Tag name_ category_ description_)))) ;;
         ret (newTags ++
              [ {| Tag.name := Tag.name tag;
                   Tag.category := Tag.category tag;
                   Tag.description := Tag.description tag |} ])
       else ret newTags)
      (fun error => throw error))
    [].

Definition getEntitiesByTag (tagName : string) : M KnowledgeGraph.t :=
  try_catch
    (let escapedTagName := Text.replace_quotes tagName in
     rows <- query (Kuzu.spliced escapedTagName Kuzu.tagged_Entity_rows) ;;
     let entities :=
       map (fun row => {| name := Kuzu.row_name row;
                          entityType := Kuzu.row_entityType row;
                          observations := non_empty (Kuzu.row_observations row);
                          tags := Some (non_empty (Kuzu.row_tags row)) |})
           rows in
     let entityNames := map name entities in
     relations <-
       (if (0 <? List.length entityNames)%nat then
          let escapedNames := map Text.replace_quotes entityNames in
          relationRows <-
            query (Kuzu.spliced_list escapedNames Kuzu.induced_RELATED_TO_rows) ;;
          ret (map (fun row => {| from := from row; to := to row;
                                  relationType := relationType row |}) relationRows)
        else ret []) ;;
     ret {| KnowledgeGraph.entities := entities;
            KnowledgeGraph.relations := relations;
            KnowledgeGraph.tags := None |})
    (fun error => throw error).

Definition getTagUsage : M (list Usage.t) :=
  rows <- query Kuzu.usage_rows ;;
  ret (map (fun row => {| Usage.tag := Kuzu.row_tag row;
                          Usage.entityCount := Kuzu.row_entityCount row;
                          Usage.observationCount := Kuzu.row_observationCount row |})
           rows).

(** ** The operations on values

    What the operations that send their statements as text come to when the
    parser reads, from every literal, the value the literal was built from:
    the same code with the values passed to the statements as they are
    (lemmas [.._on_plain_text] below).  This is the case of every text
    without a backslash. *)

Module Plain.

Definition addObservations_contents (entityName : string) (contents : list string)
  : M (list string) :=
  for_of contents (fun addedObservations content =>
    try_catch
      (k <- query (Kuzu.count_owned entityName content) ;;
       if (k =? 0)%nat then
         query (Kuzu.create_Observation content) ;;
         query (Kuzu.link_HAS_OBSERVATION_unless_linked entityName content) ;;
         ret (addedObservations ++ [content])
       else ret addedObservations)
      (fun _ => ret addedObservations))
    [].

Definition addObservations_entry (results : list Added.t) (obs : Addition.t)
  : M (list Added.t) :=
  try_catch
    (n <- query (Kuzu.count_Entity (Addition.entityName obs)) ;;
     (if (n =? 0)%nat then throw (NotFound (Addition.entityName obs)) else ret tt) ;;
     addedObservations <-
       addObservations_contents (Addition.entityName obs) (Addition.contents obs) ;;
     ret (results ++
          [ {| Added.entityName := Addition.entityName obs;
               Added.addedObservations := addedObservations |} ]))
    (fun error => throw error).

Definition addObservations (observations : list Addition.t) : M (list Added.t) :=
  for_of observations addObservations_entry [].

Definition deleteEntities (entityNames : list string) : M unit :=
  for_each entityNames (fun entityName =>
    try_catch
      (query (Kuzu.detach_delete_Entity entityName) ;;
       query Kuzu.delete_orphan_Observations)
      (fun _ => ret tt)).

Definition deleteObservations (deletions : list Deletion.t) : M unit :=
  for_each deletions (fun deletion =>
    for_each (Deletion.observations deletion) (fun observation =>
      try_catch
        (query (Kuzu.detach_delete_owned (Deletion.entityName deletion) observation))
        (fun _ => ret tt))).

Definition deleteRelations (relations : list Relation) : M unit :=
  for_each relations (fun relation =>
    try_catch
      (query (Kuzu.delete_RELATED_TO relation))
      (fun _ => ret tt)).

Definition tagEntity (entityName : string) (tagNames : list string) : M (list string) :=
  try_catch
    (n <- query (Kuzu.count_Entity entityName) ;;
     (if (n =? 0)%nat then throw (NotFound entityName) else ret tt) ;;
     for_of tagNames (fun addedTags tagName =>
       try_catch
         (k <- query (Kuzu.count_Tag tagName) ;;
          (if (k =? 0)%nat then query (Kuzu.create_Tag tagName "" "") else ret tt) ;;
          j <- query (Kuzu.count_ENTITY_TAGGED_WITH entityName tagName) ;;
          if (j =? 0)%nat then
            query (Kuzu.link_ENTITY_TAGGED_WITH entityName tagName) ;;
            ret (addedTags ++ [tagName])
          else ret addedTags)
         (fun _ => ret addedTags))
       [])
    (fun error => throw error).

Definition tagObservation_tag (entityName observationContent : string)
  (addedTags : list string) (tagName : string) : M (list string) :=
  try_catch
    (k <- query (Kuzu.count_Tag tagName) ;;
     (if (k =? 0)%nat then query (Kuzu.create_Tag tagName "" "") else ret tt) ;;
     j <- query (Kuzu.count_tagged_owned entityName observationContent tagName) ;;
     if (j =? 0)%nat then
       query (Kuzu.link_OBSERVATION_TAGGED_WITH entityName observationContent tagName) ;;
       ret (addedTags ++ [tagName])
     else ret addedTags)
    (fun _ => ret addedTags).

Definition tagObservation (entityName observationContent : string) (tagNames : list string)
  : M (list string) :=
  try_catch
    (for_of tagNames (tagObservation_tag entityName observationContent) [])
    (fun error => throw error).

Definition removeTagsFromEntity (entityName : string) (tagNames : list string)
  : M (list string) :=
  for_of tagNames (fun removedTags tagName =>
    try_catch
      (k <- query (Kuzu.delete_ENTITY_TAGGED_WITH entityName tagName) ;;
       if (0 <? k)%nat then ret (removedTags ++ [tagName]) else ret removedTags)
      (fun _ => ret removedTags))
    [].

Definition createTags (tags : list Tag.t) : M (list Tag.t) :=
  for_of tags (fun newTags tag =>
    try_catch
      (n <- query (Kuzu.count_Tag (Tag.name tag)) ;;
       if (n =? 0)%nat then
         query (Kuzu.create_Tag (Tag.name tag)
                  (match Tag.category tag with Some c => c | None => "" end)
                  (match Tag.description tag with Some c => c | None => "" end)) ;;
         ret (newTags ++
              [ {| Tag.name := Tag.name tag;
                   Tag.category := Tag.category tag;
                   Tag.description := Tag.description tag |} ])
       else ret newTags)
      (fun error => throw error))
    [].

End Plain.

(** ** Vocabulary of the properties *)

(** *** Runs *)

(** The connection [quiet d r] holds database [d] and no pending engine
    failure. *)
Definition quiet (d : Kuzu.Database) (r : nat) : Connection :=
  {| db := d; pending := []; raised := r |}.

(** An error raised by one round trip of [m] surfaces: when [m] returns a
    value, the engine threw nothing while it ran. *)
Definition propagates {A} (m : M A) : Prop :=
  forall c a c', m c = (inr a, c') -> raised c' = raised c.

(** Once a batch has stopped on an error, the items after it are not
    looked at. *)
Definition aborts_rest {I A} (op : list I -> M A) : Prop :=
  forall l1 l2 c e c', op l1 c = (inl e, c') -> op (l1 ++ l2) c = (inl e, c').

(** [m] returns a value on every connection, whatever the engine throws. *)
Definition never_raises {A} (m : M A) : Prop :=
  forall c, exists a c', m c = (inr a, c').

(** [m] returns normally on every connection without pending failures, and
    takes its database [d] to one related to it by [R]. *)
Definition quietly {A} (R : Kuzu.Database -> Kuzu.Database -> Prop) (m : M A) : Prop :=
  forall d r, exists a d', m (quiet d r) = (inr a, quiet d' r) /\ R d d'.

(** Statement [q] takes a database with property [P] to one with [P]. *)
Definition preserved {A} (P : Kuzu.Database -> Prop) (q : Kuzu.statement A) : Prop :=
  forall d a d', P d -> q d = Some (a, d') -> P d'.

(** Running [m] takes a connection whose database has property [P] to one
    whose database has it, whether [m] returns or raises. *)
Definition keeps {A} (P : Kuzu.Database -> Prop) (m : M A) : Prop :=
  forall c, P (db c) -> P (db (snd (m c))).

(** *** Databases *)

Definition entity_named (d : Kuzu.Database) (n : string) : Prop :=
  In n (map Kuzu.e_name (Kuzu.nodes_Entity d)).

Definition observation_numbered (d : Kuzu.Database) (i : nat) : Prop :=
  In i (map Kuzu.o_id (Kuzu.nodes_Observation d)).

Definition tag_named (d : Kuzu.Database) (n : string) : Prop :=
  In n (map Kuzu.t_name (Kuzu.nodes_Tag d)).

(** What the engine guarantees of every database: primary keys are unique,
    SERIAL ids lie below the counter, and a relationship row joins two nodes
    that exist. *)
Record integrity (d : Kuzu.Database) : Prop := {
  key_Entity : NoDup (map Kuzu.e_name (Kuzu.nodes_Entity d));
  key_Observation : NoDup (map Kuzu.o_id (Kuzu.nodes_Observation d));
  key_Tag : NoDup (map Kuzu.t_name (Kuzu.nodes_Tag d));
  below_serial : forall i, observation_numbered d i -> i < Kuzu.serial d;
  ends_HAS_OBSERVATION : forall l, In l (Kuzu.rels_HAS_OBSERVATION d) ->
    entity_named d (fst l) /\ observation_numbered d (snd l);
  ends_RELATED_TO : forall r, In r (Kuzu.rels_RELATED_TO d) ->
    entity_named d (from r) /\ entity_named d (to r);
  ends_ENTITY_TAGGED_WITH : forall l, In l (Kuzu.rels_ENTITY_TAGGED_WITH d) ->
    entity_named d (fst l) /\ tag_named d (snd l);
  ends_OBSERVATION_TAGGED_WITH : forall l, In l (Kuzu.rels_OBSERVATION_TAGGED_WITH d) ->
    observation_numbered d (fst l) /\ tag_named d (snd l)
}.

Definition same_entities (d d' : Kuzu.Database) : Prop :=
  Kuzu.nodes_Entity d' = Kuzu.nodes_Entity d.




(** The database the orphan sweep of [deleteEntities] leaves when the engine
    accepts it. *)
Definition swept (d : Kuzu.Database) : Kuzu.Database :=
  Kuzu.on_Observation (filter (Kuzu.has_owner d)) d.

(** *** Queries *)

(** [q] is a case-insensitive substring of the name, of the type, or of the
    content of an observation of the entity node [e]. *)
Definition matches (d : Kuzu.Database) (q : string) (e : Kuzu.EntityNode) : Prop :=
  Text.occurs (Text.toLowerCase (Kuzu.e_name e)) (Text.toLowerCase q) = true
  \/ Text.occurs (Text.toLowerCase (Kuzu.e_entityType e)) (Text.toLowerCase q) = true
  \/ exists o, In o (Kuzu.linked_Observations d (Kuzu.e_name e))
               /\ Text.occurs (Text.toLowerCase (Kuzu.o_content o)) (Text.toLowerCase q)
                  = true.

(** The entity [searchNodes] builds from the row of entity node [e]. *)
Definition found (d : Kuzu.Database) (q : string) (e : Kuzu.EntityNode) : Entity :=
  {| name := Kuzu.e_name e;
     entityType := Kuzu.e_entityType e;
     observations :=
       filter (fun obs => negb (obs =? ""))
         (Kuzu.distinct
            (map Kuzu.o_content
               (filter (Kuzu.search_condition (Text.toLowerCase q) e)
                       (Kuzu.linked_Observations d (Kuzu.e_name e)))));
     tags := None |}.

(** The relations of [d] whose two endpoints are among [names]. *)
Definition induced (d : Kuzu.Database) (names : list string) : list Relation :=
  filter (fun r => Kuzu.name_in names (from r) && Kuzu.name_in names (to r))
         (Kuzu.rels_RELATED_TO d).

(** The graph [readGraph] builds from the rows of database [d]. *)
Definition read (d : Kuzu.Database) : KnowledgeGraph.t :=
  {| KnowledgeGraph.entities :=
       map (fun e =>
              {| name := Kuzu.e_name e;
                 entityType := Kuzu.e_entityType e;
                 observations :=
                   Kuzu.distinct (map Kuzu.o_content
                                      (Kuzu.linked_Observations d (Kuzu.e_name e)));
                 tags := Some (Kuzu.distinct (Kuzu.linked_Tags d (Kuzu.e_name e))) |})
           (Kuzu.nodes_Entity d);
     KnowledgeGraph.relations := Kuzu.rels_RELATED_TO d;
     KnowledgeGraph.tags :=
       Some (map (fun row =>
                    {| Tag.name := Kuzu.t_name row;
                       Tag.category :=
                         if Kuzu.t_category row =? "" then None
                         else Some (Kuzu.t_category row);
                       Tag.description :=
                         if Kuzu.t_description row =? "" then None
                         else Some (Kuzu.t_description row) |})
                 (Kuzu.order_by_name (Kuzu.nodes_Tag d))) |}.

(** ** Sample data *)

Module Sample.




(** The entity of the README. *)
Definition John_Smith : Entity :=
  {| name := "John_Smith"; entityType := "person";
     observations := ["Speaks fluent Spanish"]; tags := Some [] |}.

Definition Anthropic : Entity :=
  {| name := "Anthropic"; entityType := "organization"; observations := [];
     tags := None |}.

Definition works_at : Relation :=
  {| from := "John_Smith"; to := "Anthropic"; relationType := "works_at" |}.

(** The database [createEntities [John_Smith]] leaves when run on the empty
    one. *)
Definition John_alone : Kuzu.Database :=
  {| Kuzu.nodes_Entity := [ {| Kuzu.e_name := "John_Smith"; Kuzu.e_entityType := "person" |} ];
     Kuzu.nodes_Observation :=
       [ {| Kuzu.o_id := 0; Kuzu.o_content := "Speaks fluent Spanish" |} ];
     Kuzu.nodes_Tag := [];
     Kuzu.rels_HAS_OBSERVATION := [ ("John_Smith", 0) ];
     Kuzu.rels_RELATED_TO := [];
     Kuzu.rels_ENTITY_TAGGED_WITH := [];
     Kuzu.rels_OBSERVATION_TAGGED_WITH := [];
     Kuzu.serial := 1 |}.

(** John_Smith works at Anthropic. *)
Definition John_at_Anthropic : Kuzu.Database :=
  {| Kuzu.nodes_Entity :=
       [ {| Kuzu.e_name := "John_Smith"; Kuzu.e_entityType := "person" |};
         {| Kuzu.e_name := "Anthropic"; Kuzu.e_entityType := "organization" |} ];
     Kuzu.nodes_Observation :=
       [ {| Kuzu.o_id := 0; Kuzu.o_content := "Speaks fluent Spanish" |} ];
     Kuzu.nodes_Tag := [];
     Kuzu.rels_HAS_OBSERVATION := [ ("John_Smith", 0) ];
     Kuzu.rels_RELATED_TO := [ works_at ];
     Kuzu.rels_ENTITY_TAGGED_WITH := [];
     Kuzu.rels_OBSERVATION_TAGGED_WITH := [];
     Kuzu.serial := 1 |}.

(** John_Smith, tagged "vip". *)
Definition John_tagged : Kuzu.Database :=
  {| Kuzu.nodes_Entity := [ {| Kuzu.e_name := "John_Smith"; Kuzu.e_entityType := "person" |} ];
     Kuzu.nodes_Observation :=
       [ {| Kuzu.o_id := 0; Kuzu.o_content := "Speaks fluent Spanish" |} ];
     Kuzu.nodes_Tag :=
       [ {| Kuzu.t_name := "vip"; Kuzu.t_category := ""; Kuzu.t_description := "" |} ];
     Kuzu.rels_HAS_OBSERVATION := [ ("John_Smith", 0) ];
     Kuzu.rels_RELATED_TO := [];
     Kuzu.rels_ENTITY_TAGGED_WITH := [ ("John_Smith", "vip") ];
     Kuzu.rels_OBSERVATION_TAGGED_WITH := [];
     Kuzu.serial := 1 |}.

(** A name that ends with a backslash, and the database
    [createEntities] leaves for an entity of that name. *)
Definition trailing : string := String "a" (String Text.backslash EmptyString).

Definition only_trailing : Kuzu.Database :=
  Kuzu.on_Entity (fun _ => [ {| Kuzu.e_name := trailing; Kuzu.e_entityType := "thing" |} ])
                 Kuzu.empty.

End Sample.

(** *** Vocabulary of the further properties *)



(** The database a statement leaves ([d] itself when the engine refuses
    the statement). *)
Definition after {A} (q : Kuzu.statement A) (d : Kuzu.Database) : Kuzu.Database :=
  match q d with
  | Some (_, d') => d'
  | None => d
  end.

(** [d'] has the entities of [d], and no observation and no ownership link
    that [d] has not. *)
Definition shrinks (d d' : Kuzu.Database) : Prop :=
  Kuzu.nodes_Entity d' = Kuzu.nodes_Entity d
  /\ incl (Kuzu.nodes_Observation d') (Kuzu.nodes_Observation d)
  /\ incl (Kuzu.rels_HAS_OBSERVATION d') (Kuzu.rels_HAS_OBSERVATION d).

(** [d'] has the entities of [d], and every tag and every entity-to-tag link
    of [d]. *)
Definition widens (d d' : Kuzu.Database) : Prop :=
  Kuzu.nodes_Entity d' = Kuzu.nodes_Entity d
  /\ incl (Kuzu.nodes_Tag d) (Kuzu.nodes_Tag d')
  /\ incl (Kuzu.rels_ENTITY_TAGGED_WITH d) (Kuzu.rels_ENTITY_TAGGED_WITH d').

(** The node [createTags] writes for a tag: an absent category or
    description is written as the empty string. *)
Definition stored_as (tag : Tag.t) : Kuzu.TagNode :=
  {| Kuzu.t_name := Tag.name tag;
     Kuzu.t_category := match Tag.category tag with Some c => c | None => "" end;
     Kuzu.t_description := match Tag.description tag with Some c => c | None => "" end |}.

(** An optional text with the empty string taken as absent. *)
Definition nonblank (text : option string) : option string :=
  match text with
  | Some c => if c =? "" then None else Some c
  | None => None
  end.

(** Graph [kg] is a part of the graph stored in [d]: its entities are
    stored entities, its relations are stored relations, and both endpoints
    of each of its relations are among its entities. *)
Definition part_of (d : Kuzu.Database) (kg : KnowledgeGraph.t) : Prop :=
  (forall e, In e (KnowledgeGraph.entities kg) -> entity_named d (name e))
  /\ (forall rel, In rel (KnowledgeGraph.relations kg) ->
        In rel (Kuzu.rels_RELATED_TO d)
        /\ In (from rel) (map name (KnowledgeGraph.entities kg))
        /\ In (to rel) (map name (KnowledgeGraph.entities kg))).

(** The links from an observation of content [c] owned by the entity called
    [n] to a tag called [t]. *)
Definition tagged_owned (d : Kuzu.Database) (n c t : string) : list (nat * string) :=
  flat_map (fun o => Kuzu.match_OBSERVATION_TAGGED_WITH d o t) (Kuzu.match_owned d n c).

(** [d'] has the observations and the ownership links of [d], and every tag
    and every observation-to-tag link of [d]. *)
Definition labels_more (d d' : Kuzu.Database) : Prop :=
  Kuzu.nodes_Observation d' = Kuzu.nodes_Observation d
  /\ Kuzu.rels_HAS_OBSERVATION d' = Kuzu.rels_HAS_OBSERVATION d
  /\ incl (Kuzu.nodes_Tag d) (Kuzu.nodes_Tag d')
  /\ incl (Kuzu.rels_OBSERVATION_TAGGED_WITH d) (Kuzu.rels_OBSERVATION_TAGGED_WITH d').

(** Entity node [e] owns an observation. *)
Definition observed (d : Kuzu.Database) (e : Kuzu.EntityNode) : bool :=
  match Kuzu.linked_Observations d (Kuzu.e_name e) with
  | [] => false
  | _ :: _ => true
  end.

(** The entity [openNodes] builds from the row of entity node [e] (contents
    in table order). *)
Definition opened (d : Kuzu.Database) (e : Kuzu.EntityNode) : Entity :=
  {| name := Kuzu.e_name e;
     entityType := Kuzu.e_entityType e;
     observations := map Kuzu.o_content (Kuzu.linked_Observations d (Kuzu.e_name e));
     tags := None |}.

(** Entity node [e] is linked to a tag called [tagName]. *)
Definition tagged (d : Kuzu.Database) (tagName : string) (e : Kuzu.EntityNode) : bool :=
  match Kuzu.tags_bound d (Kuzu.e_name e) tagName with
  | [] => false
  | _ :: _ => true
  end.




(** *** Text without a backslash

    The values the manager splices into the text of a statement are read
    back as they are when they hold no backslash ([literal_plain]). *)

Definition plain_Relation (r : Relation) : bool :=
  Text.plain (from r) && Text.plain (to r) && Text.plain (relationType r).

Definition plain_Tag (tag : Tag.t) : bool :=
  Text.plain (Tag.name tag)
  && Text.plain (match Tag.category tag with Some c => c | None => "" end)
  && Text.plain (match Tag.description tag with Some c => c | None => "" end).

Definition plain_Addition (obs : Addition.t) : bool :=
  Text.plain (Addition.entityName obs) && forallb Text.plain (Addition.contents obs).


(** No entity of [d] has a backslash in its name. *)
Definition plain_names (d : Kuzu.Database) : bool :=
  forallb (fun e => Text.plain (Kuzu.e_name e)) (Kuzu.nodes_Entity d).

(** ** Lemmas on the connection monad *)

(** ** String literals *)

Lemma literal_plain s :
  Text.plain s = true -> Kuzu.literal (Text.replace_quotes s) = Some s.
Proof.
  induction s as [| c s IH]; intros H; [reflexivity |].
  cbn [Text.plain] in H. apply andb_true_iff in H as [Hc Hs].
  apply negb_true_iff in Hc. specialize (IH Hs).
  cbn [Text.replace_quotes]. destruct (Ascii.eqb c Text.quote) eqn:Hq.
  - apply Ascii.eqb_eq in Hq. subst c.
    cbn [Kuzu.literal]. rewrite Ascii.eqb_refl, IH. reflexivity.
  - cbn [Kuzu.literal]. rewrite Hc, Hq, IH. reflexivity.
Qed.

Lemma literals_plain names :
  forallb Text.plain names = true ->
  Kuzu.literals (map Text.replace_quotes names) = Some names.
Proof.
  induction names as [| n names IH]; intros H; [reflexivity |].
  cbn [forallb] in H. apply andb_true_iff in H as [Hn Hs].
  cbn [map Kuzu.literals]. rewrite (literal_plain n Hn), (IH Hs). reflexivity.
Qed.

(** On text without a backslash a statement sent as text means what the
    prepared statement means. *)
Lemma spliced_plain {A} s (q : string -> Kuzu.statement A) :
  Text.plain s = true -> Kuzu.spliced (Text.replace_quotes s) q = q s.
Proof. intros H. unfold Kuzu.spliced. rewrite (literal_plain s H). reflexivity. Qed.

Lemma spliced_list_plain {A} names (q : list string -> Kuzu.statement A) :
  forallb Text.plain names = true ->
  Kuzu.spliced_list (map Text.replace_quotes names) q = q names.
Proof.
  intros H. unfold Kuzu.spliced_list. rewrite (literals_plain names H). reflexivity.
Qed.

Lemma lower_char_backslash c :
  Ascii.eqb (Text.lower_char c) Text.backslash = Ascii.eqb c Text.backslash.
Proof. destruct c as [[] [] [] [] [] [] [] []]; reflexivity. Qed.

Lemma plain_toLowerCase s : Text.plain (Text.toLowerCase s) = Text.plain s.
Proof.
  induction s as [| c s IH]; [reflexivity |].
  cbn [Text.toLowerCase Text.plain]. rewrite lower_char_backslash, IH. reflexivity.
Qed.

Lemma plain_In (names : list string) n :
  forallb Text.plain names = true -> In n names -> Text.plain n = true.
Proof. intros H Hn. rewrite forallb_forall in H. apply H, Hn. Qed.


Section Runs.

Context {A B : Type}.

Lemma bind_inr (m : M A) (k : A -> M B) c a c' :
  m c = (inr a, c') -> bind m k c = k a c'.
Proof. unfold bind; intros ->; reflexivity. Qed.

Lemma bind_inl (m : M A) (k : A -> M B) c e c' :
  m c = (inl e, c') -> bind m k c = (inl e, c').
Proof. unfold bind; intros ->; reflexivity. Qed.

Lemma bind_inv_inr (m : M A) (k : A -> M B) c b c2 :
  bind m k c = (inr b, c2) ->
  exists a c1, m c = (inr a, c1) /\ k a c1 = (inr b, c2).
Proof.
  unfold bind; destruct (m c) as [[e | a] c1]; intros H; [discriminate | eauto].
Qed.

Lemma rethrow_id (m : M A) c : try_catch m (fun error => throw error) c = m c.
Proof. unfold try_catch, throw; destruct (m c) as [[e | a] c1]; reflexivity. Qed.

Lemma query_quiet (q : Kuzu.statement A) d r :
  query q (quiet d r)
  = match q d with
    | Some (a, d') => (inr a, quiet d' r)
    | None => (inl StorageFault, quiet d (S r))
    end.
Proof. reflexivity. Qed.

Lemma query_inv_inr (q : Kuzu.statement A) c a c' :
  query q c = (inr a, c') ->
  hd false (pending c) = false /\ q (db c) = Some (a, db c')
  /\ pending c' = tl (pending c) /\ raised c' = raised c.
Proof.
  unfold query; destruct (hd false (pending c)); [discriminate |].
  destruct (q (db c)) as [[a' d'] |]; [| discriminate].
  intros H; inversion H; subst; simpl; auto.
Qed.

End Runs.

Section Loops.

Context {I St : Type}.
Variable body : St -> I -> M St.

Lemma for_of_app (l1 l2 : list I) (s : St) c :
  for_of (l1 ++ l2) body s c = bind (for_of l1 body s) (for_of l2 body) c.
Proof.
  revert s c; induction l1 as [| x l1 IH]; intros s c; simpl.
  - reflexivity.
  - unfold bind; destruct (body s x c) as [[e | s'] c1].
    + reflexivity.
    + rewrite IH; reflexivity.
Qed.

Lemma for_of_aborts (l1 l2 : list I) (s : St) c e c' :
  for_of l1 body s c = (inl e, c') -> for_of (l1 ++ l2) body s c = (inl e, c').
Proof. intros H; rewrite for_of_app; apply bind_inl, H. Qed.

Lemma for_of_propagates :
  (forall s x, propagates (body s x)) -> forall l s, propagates (for_of l body s).
Proof.
  intros Hb l; induction l as [| x l IH]; intros s c a c' H; simpl in H.
  - inversion H; reflexivity.
  - apply bind_inv_inr in H as (s1 & c1 & H1 & H2).
    apply Hb in H1. apply IH in H2. congruence.
Qed.

Lemma for_of_never_raises :
  (forall s x, never_raises (body s x)) -> forall l s, never_raises (for_of l body s).
Proof.
  intros Hb l; induction l as [| x l IH]; intros s c; simpl.
  - eexists _, _; reflexivity.
  - destruct (Hb s x c) as (s1 & c1 & H1).
    rewrite (bind_inr _ _ _ _ _ H1). apply IH.
Qed.

End Loops.

Lemma for_each_cons {I} (x : I) (xs : list I) (body : I -> M unit) c :
  for_each (x :: xs) body c = bind (body x) (fun _ => for_each xs body) c.
Proof.
  unfold for_each; simpl; unfold bind.
  destruct (body x c) as [[e | []] c1]; reflexivity.
Qed.

Lemma for_each_never_raises {I} (body : I -> M unit) :
  (forall x, never_raises (body x)) -> forall l, never_raises (for_each l body).
Proof. intros Hb l; apply for_of_never_raises; intros _ x; apply Hb. Qed.

Lemma catch_all_never_raises {A} (m : M A) (a : A) :
  never_raises (try_catch m (fun _ => ret a)).
Proof.
  intros c; unfold try_catch, ret.
  destruct (m c) as [[e | a'] c1]; eexists _, _; reflexivity.
Qed.

(** ** The operations on text without a backslash

    Given values without a backslash, an operation that sends its
    statements as text runs as the operation of [Plain] on the values. *)

Lemma for_of_ext {I St} (body body' : St -> I -> M St) (l : list I) :
  (forall x, In x l -> forall s c, body s x c = body' s x c) ->
  forall s c, for_of l body s c = for_of l body' s c.
Proof.
  induction l as [| x l IH]; intros H s c; [reflexivity |].
  cbn [for_of]. unfold bind. rewrite (H x (or_introl eq_refl)).
  destruct (body' s x c) as [[e | s'] c1]; [reflexivity |].
  apply IH. intros y Hy. apply H. right. exact Hy.
Qed.

Lemma for_each_ext {I} (body body' : I -> M unit) (l : list I) :
  (forall x, In x l -> forall c, body x c = body' x c) ->
  forall c, for_each l body c = for_each l body' c.
Proof. intros H c. apply for_of_ext. intros x Hx _ c'. apply H, Hx. Qed.

Lemma try_catch_ext {A} (m m' : M A) (h : error -> M A) c :
  m c = m' c -> try_catch m h c = try_catch m' h c.
Proof. unfold try_catch. intros ->. reflexivity. Qed.

Lemma bind_ext {A B} (m : M A) (k k' : A -> M B) c :
  (forall a c', k a c' = k' a c') -> bind m k c = bind m k' c.
Proof. intros H. unfold bind. destruct (m c) as [[e | a] c1]; [reflexivity | apply H]. Qed.

Ltac unsplice :=
  cbv zeta;
  repeat (rewrite spliced_plain by assumption; cbv beta).

Lemma addObservations_contents_on_plain_text n contents :
  Text.plain n = true ->
  forallb Text.plain contents = true ->
  forall c,
    addObservations_contents (Text.replace_quotes n) contents c
    = Plain.addObservations_contents n contents c.
Proof.
  intros Hn Hcs. unfold addObservations_contents, Plain.addObservations_contents.
  apply for_of_ext. intros content Hc s c.
  pose proof (plain_In _ _ Hcs Hc). unsplice. reflexivity.
Qed.

Lemma addObservations_entry_on_plain_text results obs :
  plain_Addition obs = true ->
  forall c, addObservations_entry results obs c = Plain.addObservations_entry results obs c.
Proof.
  intros H c. apply andb_true_iff in H as [Hn Hcs].
  unfold addObservations_entry, Plain.addObservations_entry. unsplice.
  apply try_catch_ext, bind_ext. intros n c1. apply bind_ext. intros _ c2.
  unfold bind. rewrite (addObservations_contents_on_plain_text _ _ Hn Hcs). reflexivity.
Qed.

Lemma addObservations_on_plain_text observations :
  forallb plain_Addition observations = true ->
  forall c, addObservations observations c = Plain.addObservations observations c.
Proof.
  intros H. unfold addObservations, Plain.addObservations. apply for_of_ext.
  intros obs Hobs s c. apply addObservations_entry_on_plain_text.
  rewrite forallb_forall in H. apply H, Hobs.
Qed.

Lemma deleteEntities_on_plain_text entityNames :
  forallb Text.plain entityNames = true ->
  forall c, deleteEntities entityNames c = Plain.deleteEntities entityNames c.
Proof.
  intros H. unfold deleteEntities, Plain.deleteEntities. apply for_each_ext.
  intros n Hn c. pose proof (plain_In _ _ H Hn). unsplice. reflexivity.
Qed.


Lemma deleteRelations_on_plain_text relations :
  forallb plain_Relation relations = true ->
  forall c, deleteRelations relations c = Plain.deleteRelations relations c.
Proof.
  intros H. unfold deleteRelations, Plain.deleteRelations. apply for_each_ext.
  intros rel Hrel c. rewrite forallb_forall in H. specialize (H _ Hrel).
  unfold plain_Relation in H. apply andb_true_iff in H as [H Ht].
  apply andb_true_iff in H as [Hf Hto]. unsplice. destruct rel; reflexivity.
Qed.

Lemma tagEntity_on_plain_text entityName tagNames :
  Text.plain entityName = true ->
  forallb Text.plain tagNames = true ->
  forall c, tagEntity entityName tagNames c = Plain.tagEntity entityName tagNames c.
Proof.
  intros Hn Hts c. unfold tagEntity, Plain.tagEntity. cbv zeta.
  rewrite (spliced_plain entityName Kuzu.count_Entity Hn).
  apply try_catch_ext, bind_ext. intros n c1. apply bind_ext. intros _ c2.
  apply for_of_ext. intros t Ht s c3. pose proof (plain_In _ _ Hts Ht).
  unsplice. reflexivity.
Qed.

Lemma tagObservation_on_plain_text entityName observationContent tagNames :
  Text.plain entityName = true ->
  Text.plain observationContent = true ->
  forallb Text.plain tagNames = true ->
  forall c,
    tagObservation entityName observationContent tagNames c
    = Plain.tagObservation entityName observationContent tagNames c.
Proof.
  intros Hn Hc Hts c. unfold tagObservation, Plain.tagObservation. cbv zeta.
  apply try_catch_ext, for_of_ext. intros t Ht s c1. pose proof (plain_In _ _ Hts Ht).
  unfold tagObservation_tag, Plain.tagObservation_tag. unsplice. reflexivity.
Qed.

Lemma removeTagsFromEntity_on_plain_text entityName tagNames :
  Text.plain entityName = true ->
  forallb Text.plain tagNames = true ->
  forall c,
    removeTagsFromEntity entityName tagNames c
    = Plain.removeTagsFromEntity entityName tagNames c.
Proof.
  intros Hn Hts. unfold removeTagsFromEntity, Plain.removeTagsFromEntity. cbv zeta.
  apply for_of_ext. intros t Ht s c. pose proof (plain_In _ _ Hts Ht).
  unsplice. reflexivity.
Qed.

Lemma createTags_on_plain_text tags :
  forallb plain_Tag tags = true ->
  forall c, createTags tags c = Plain.createTags tags c.
Proof.
  intros H. unfold createTags, Plain.createTags. apply for_of_ext.
  intros tag Htag s c. rewrite forallb_forall in H. specialize (H _ Htag).
  unfold plain_Tag in H. apply andb_true_iff in H as [H Hd].
  apply andb_true_iff in H as [Hn Hc]. unsplice. reflexivity.
Qed.

(** With a backslash the text spliced in is not read back as the value.
    An entity can have such a name, since [createEntities] passes it as a
    parameter; [deleteEntities] then sends a statement that does not parse,
    absorbs the error, and the entity stays.  Likewise a tag of such a name
    is neither created nor reported. *)
Example deleteEntities_trailing_backslash :
  createEntities [ {| name := Sample.trailing; entityType := "thing";
                      observations := []; tags := None |} ]
                 (connect Kuzu.empty)
  = (inr [ {| name := Sample.trailing; entityType := "thing";
              observations := []; tags := Some [] |} ],
     connect Sample.only_trailing)
  /\ deleteEntities [Sample.trailing] (connect Sample.only_trailing)
     = (inr tt, {| db := Sample.only_trailing; pending := []; raised := 1 |}).
Proof. split; reflexivity. Qed.

Example tagObservation_trailing_backslash :
  tagObservation "A" "x" [Sample.trailing] (connect Kuzu.empty)
  = (inr [], {| db := Kuzu.empty; pending := []; raised := 1 |}).
Proof. reflexivity. Qed.

(** ** Errors that surface, errors that are caught *)

Lemma propagates_ret {A} (a : A) : propagates (ret a).
Proof. intros c a' c' H; inversion H; reflexivity. Qed.

Lemma propagates_throw {A} (e : error) : propagates (@throw A e).
Proof. intros c a' c' H; inversion H. Qed.

Lemma propagates_query {A} (q : Kuzu.statement A) : propagates (query q).
Proof. intros c a c' H; apply query_inv_inr in H; tauto. Qed.

Lemma propagates_bind {A B} (m : M A) (k : A -> M B) :
  propagates m -> (forall a, propagates (k a)) -> propagates (bind m k).
Proof.
  intros Hm Hk c b c2 H.
  apply bind_inv_inr in H as (a & c1 & H1 & H2).
  apply Hm in H1. apply Hk in H2. congruence.
Qed.

Lemma propagates_rethrow {A} (m : M A) :
  propagates m -> propagates (try_catch m (fun error => throw error)).
Proof. intros Hm c a c' H; rewrite rethrow_id in H; eapply Hm, H. Qed.





















Lemma deleteEntities_never_raises names : never_raises (deleteEntities names).
Proof. apply for_each_never_raises; intros x; apply catch_all_never_raises. Qed.

Lemma deleteObservations_never_raises ds : never_raises (deleteObservations ds).
Proof.
  apply for_each_never_raises; intros x.
  apply for_each_never_raises; intros y; apply catch_all_never_raises.
Qed.

Lemma deleteRelations_never_raises rs : never_raises (deleteRelations rs).
Proof. apply for_each_never_raises; intros x; apply catch_all_never_raises. Qed.

Lemma removeTagsFromEntity_never_raises n ts : never_raises (removeTagsFromEntity n ts).
Proof. apply for_of_never_raises; intros s x; apply catch_all_never_raises. Qed.

Lemma deleteEntities_sweep_fault x rest d p r :
  Text.plain x = true ->
  deleteEntities (x :: rest) {| db := d; pending := false :: true :: p; raised := r |}
  = deleteEntities rest
      {| db := match Kuzu.match_Entity d x with
               | [] => d
               | _ :: _ => Kuzu.detach_Entity x d
               end;
         pending := p; raised := S r |}.
Proof.
  intros Hx. unfold deleteEntities. rewrite for_each_cons. cbv zeta.
  rewrite (spliced_plain x _ Hx). reflexivity.
Qed.

(** C7. [deleteEntities], [deleteObservations], [deleteRelations] and
    [removeTagsFromEntity] return normally on every connection, whatever the
    engine throws; and when the engine throws on a round trip of one item,
    the call goes on with the items that follow it, on the database as that
    round trip found it (for [deleteEntities], whose items take two round
    trips: without the entity when the second one fails, for a name that
    the parser reads back as it is). *)
Theorem delete_path_catches_and_continues :
  (forall names, never_raises (deleteEntities names))
  /\ (forall deletions, never_raises (deleteObservations deletions))
  /\ (forall relations, never_raises (deleteRelations relations))
  /\ (forall entityName tagNames, never_raises (removeTagsFromEntity entityName tagNames))
  /\ (forall x rest d p r,
        deleteEntities (x :: rest) {| db := d; pending := true :: p; raised := r |}
        = deleteEntities rest {| db := d; pending := p; raised := S r |})
  /\ (forall x rest d p r,
        Text.plain x = true ->
        deleteEntities (x :: rest) {| db := d; pending := false :: true :: p; raised := r |}
        = deleteEntities rest
            {| db := match Kuzu.match_Entity d x with
                     | [] => d
                     | _ :: _ => Kuzu.detach_Entity x d
                     end;
               pending := p; raised := S r |})
  /\ (forall n o os rest d p r,
        deleteObservations
          ({| Deletion.entityName := n; Deletion.observations := o :: os |} :: rest)
          {| db := d; pending := true :: p; raised := r |}
        = deleteObservations
            ({| Deletion.entityName := n; Deletion.observations := os |} :: rest)
            {| db := d; pending := p; raised := S r |})
  /\ (forall x rest d p r,
        deleteRelations (x :: rest) {| db := d; pending := true :: p; raised := r |}
        = deleteRelations rest {| db := d; pending := p; raised := S r |})
  /\ (forall n t ts d p r,
        removeTagsFromEntity n (t :: ts) {| db := d; pending := true :: p; raised := r |}
        = removeTagsFromEntity n ts {| db := d; pending := p; raised := S r |}).
Proof.
  repeat match goal with |- _ /\ _ => split end; try (intros; reflexivity).
  - apply deleteEntities_never_raises.
  - apply deleteObservations_never_raises.
  - apply deleteRelations_never_raises.
  - apply removeTagsFromEntity_never_raises.
  - apply deleteEntities_sweep_fault.
Qed.

Lemma delete_path_catches_and_continues_witness :
  deleteEntities ["Anthropic"; "John_Smith"]
    {| db := Sample.John_at_Anthropic; pending := [false; true]; raised := 0 |}
  = deleteEntities ["John_Smith"]
      {| db := Kuzu.detach_Entity "Anthropic" Sample.John_at_Anthropic;
         pending := []; raised := 1 |}.
Proof.
  destruct delete_path_catches_and_continues as (_ & _ & _ & _ & _ & H & _).
  apply (H "Anthropic" ["John_Smith"] Sample.John_at_Anthropic [] 0). reflexivity.
Defined.




(** ** Runs on a connection without engine failures

    On [quiet d r] a run is followed statement by statement: [step] unfolds
    the statements of the manager to [reading] and [writing] and rewrites
    with the equations below. *)

Create HintDb statements.
#[local] Hint Unfold Kuzu.count_Entity Kuzu.count_Tag Kuzu.count_RELATED_TO Kuzu.count_owned
  Kuzu.count_ENTITY_TAGGED_WITH Kuzu.count_tagged_owned
  Kuzu.create_Observation Kuzu.link_HAS_OBSERVATION Kuzu.link_ENTITY_TAGGED_WITH
  Kuzu.create_RELATED_TO Kuzu.link_HAS_OBSERVATION_unless_linked
  Kuzu.link_OBSERVATION_TAGGED_WITH Kuzu.detach_delete_Entity
  Kuzu.detach_delete_owned Kuzu.delete_RELATED_TO
  Kuzu.all_Entity_rows Kuzu.all_RELATED_TO_rows Kuzu.all_Tag_rows
  Kuzu.search_Entity_rows Kuzu.induced_RELATED_TO_rows : statements.

Section Steps.

Context {A B : Type}.
Variables (k : A -> M B) (d : Kuzu.Database) (r : nat).

Lemma step_ret a c : bind (ret a) k c = k a c.
Proof. reflexivity. Qed.

Lemma step_reading (f : Kuzu.Database -> A) :
  bind (query (Kuzu.reading f)) k (quiet d r) = k (f d) (quiet d r).
Proof. reflexivity. Qed.

End Steps.

Section UnitSteps.

Context {B : Type}.
Variables (k : unit -> M B) (d : Kuzu.Database) (r : nat).

Lemma step_writing (f : Kuzu.Database -> Kuzu.Database) :
  bind (query (Kuzu.writing f)) k (quiet d r) = k tt (quiet (f d) r).
Proof. reflexivity. Qed.

Lemma step_create_Tag n cat descr :
  Kuzu.match_Tag d n = [] ->
  bind (query (Kuzu.create_Tag n cat descr)) k (quiet d r)
  = k tt (quiet (Kuzu.on_Tag (fun l => l ++
            [ {| Kuzu.t_name := n; Kuzu.t_category := cat; Kuzu.t_description := descr |} ]) d) r).
Proof.
  intros H. unfold bind. rewrite query_quiet. unfold Kuzu.create_Tag. rewrite H. reflexivity.
Qed.

Lemma step_create_Entity n ty :
  Kuzu.match_Entity d n = [] ->
  bind (query (Kuzu.create_Entity n ty)) k (quiet d r)
  = k tt (quiet (Kuzu.on_Entity (fun l => l ++
            [ {| Kuzu.e_name := n; Kuzu.e_entityType := ty |} ]) d) r).
Proof.
  intros H. unfold bind. rewrite query_quiet. unfold Kuzu.create_Entity. rewrite H. reflexivity.
Qed.

End UnitSteps.

Lemma step_assoc {A B C} (m : M A) (k1 : A -> M B) (k2 : B -> M C) c :
  bind (bind m k1) k2 c = bind m (fun a => bind (k1 a) k2) c.
Proof. unfold bind; destruct (m c) as [[e | a] c1]; reflexivity. Qed.

Ltac step :=
  autounfold with statements;
  repeat first [ rewrite step_assoc | rewrite step_reading | rewrite step_writing
               | rewrite step_ret ].

(** Statements that match nothing leave the database as it is. *)
Lemma flat_map_nil_r {X Y} (l : list X) : flat_map (fun _ : X => @nil Y) l = [].
Proof. induction l; simpl; auto. Qed.

Lemma on_OBSERVATION_TAGGED_WITH_nil d :
  Kuzu.on_OBSERVATION_TAGGED_WITH (fun l => l ++ []) d = d.
Proof.
  destruct d; unfold Kuzu.on_OBSERVATION_TAGGED_WITH; simpl.
  rewrite app_nil_r; reflexivity.
Qed.

Lemma on_RELATED_TO_nil d : Kuzu.on_RELATED_TO (fun l => l ++ []) d = d.
Proof. destruct d; unfold Kuzu.on_RELATED_TO; simpl; rewrite app_nil_r; reflexivity. Qed.

(** Runs that go through, and what they keep of the database. *)
Section Quietly.

Variable R : Kuzu.Database -> Kuzu.Database -> Prop.
Hypothesis R_refl : forall d, R d d.
Hypothesis R_trans : forall d1 d2 d3, R d1 d2 -> R d2 d3 -> R d1 d3.

Lemma quietly_ret {A} (a : A) : quietly R (ret a).
Proof. intros d r; exists a, d; split; [reflexivity | apply R_refl]. Qed.

Lemma quietly_bind {A B} (m : M A) (k : A -> M B) :
  quietly R m -> (forall a, quietly R (k a)) -> quietly R (bind m k).
Proof.
  intros Hm Hk d r.
  destruct (Hm d r) as (a & d1 & H1 & R1).
  destruct (Hk a d1 r) as (b & d2 & H2 & R2).
  exists b, d2. split; [| eapply R_trans; eauto].
  rewrite (bind_inr _ _ _ _ _ H1). exact H2.
Qed.

Lemma quietly_try {A} (m : M A) (h : error -> M A) :
  quietly R m -> quietly R (try_catch m h).
Proof.
  intros Hm d r. destruct (Hm d r) as (a & d1 & H1 & R1).
  exists a, d1. split; [| exact R1]. unfold try_catch; rewrite H1; reflexivity.
Qed.

Lemma quietly_reading {A} (f : Kuzu.Database -> A) : quietly R (query (Kuzu.reading f)).
Proof. intros d r; exists (f d), d; split; [reflexivity | apply R_refl]. Qed.

Lemma quietly_writing (f : Kuzu.Database -> Kuzu.Database) :
  (forall d, R d (f d)) -> quietly R (query (Kuzu.writing f)).
Proof. intros Hf d r; exists tt, (f d); split; [reflexivity | apply Hf]. Qed.

Lemma quietly_for_of {I St} (body : St -> I -> M St) :
  (forall s x, quietly R (body s x)) -> forall l s, quietly R (for_of l body s).
Proof.
  intros Hb l; induction l as [| x l IH]; intros s; simpl.
  - apply quietly_ret.
  - apply quietly_bind; [apply Hb | intros s'; apply IH].
Qed.

Lemma quietly_for_each {I} (body : I -> M unit) :
  (forall x, quietly R (body x)) -> forall l, quietly R (for_each l body).
Proof. intros Hb l; apply quietly_for_of; intros _ x; apply Hb. Qed.

(** Create-if-absent, as the tagging code does it. *)
Lemma quietly_ensure_Tag {B} tagName (k : unit -> M B) :
  (forall f d, R d (Kuzu.on_Tag f d)) ->
  (forall u, quietly R (k u)) ->
  quietly R (n <- query (Kuzu.count_Tag tagName) ;;
             (if (n =? 0)%nat then query (Kuzu.create_Tag tagName "" "") else ret tt) ;;
             k tt).
Proof.
  intros Hf Hk d r. step.
  destruct (Kuzu.match_Tag d tagName) as [| u l] eqn:E; cbn [List.length Nat.eqb].
  - rewrite step_create_Tag by exact E.
    destruct (Hk tt (Kuzu.on_Tag (fun l => l ++
               [ {| Kuzu.t_name := tagName; Kuzu.t_category := "";
                    Kuzu.t_description := "" |} ]) d) r) as (b & d2 & H2 & R2).
    exists b, d2. split; [exact H2 | eapply R_trans; [apply Hf | exact R2]].
  - step. apply Hk.
Qed.

End Quietly.

Lemma same_entities_refl d : same_entities d d.
Proof. reflexivity. Qed.

Lemma same_entities_trans d1 d2 d3 :
  same_entities d1 d2 -> same_entities d2 d3 -> same_entities d1 d3.
Proof. unfold same_entities; congruence. Qed.

Ltac quietly_same :=
  repeat first
    [ apply quietly_try
    | apply quietly_ensure_Tag;
        [ apply same_entities_trans | intros ? ?; reflexivity | intros ? ]
    | apply quietly_bind; [ apply same_entities_trans | | intros ? ]
    | apply quietly_ret; apply same_entities_refl
    | apply quietly_reading; apply same_entities_refl
    | apply quietly_writing; intros ?; reflexivity
    | apply quietly_for_each;
        [ apply same_entities_refl | apply same_entities_trans | intros ? ]
    | match goal with
      | |- quietly _ (if ?b then _ else _) => destruct b
      end ].

Lemma createEntities_observations_quietly entityName observations :
  quietly same_entities
    (for_each observations (fun observation =>
       query (Kuzu.create_Observation observation) ;;
       query (Kuzu.link_HAS_OBSERVATION entityName observation))).
Proof. autounfold with statements. quietly_same. Qed.

Lemma createEntities_tags_quietly entityName (tagNames : option (list string)) :
  quietly same_entities
    (match tagNames with
     | Some ((_ :: _) as tagNames) =>
         for_each tagNames (fun tagName =>
           k <- query (Kuzu.count_Tag tagName) ;;
           (if (k =? 0)%nat then query (Kuzu.create_Tag tagName "" "") else ret tt) ;;
           query (Kuzu.link_ENTITY_TAGGED_WITH entityName tagName))
     | _ => ret tt
     end).
Proof.
  destruct tagNames as [[| t ts] |]; try (apply quietly_ret, same_entities_refl).
  apply quietly_for_each; [apply same_entities_refl | apply same_entities_trans |].
  intros tagName.
  apply (quietly_ensure_Tag same_entities same_entities_trans tagName
           (fun _ => query (Kuzu.link_ENTITY_TAGGED_WITH entityName tagName))).
  - intros f d; reflexivity.
  - intros _. autounfold with statements. quietly_same.
Qed.


(** ** [createEntities] *)


(** The first [createEntities] of an entity whose name is free. *)
Lemma createEntities_fresh d r e :
  Kuzu.match_Entity d (name e) = [] ->
  exists d',
    createEntities [e] (quiet d r)
    = (inr [ {| name := name e; entityType := entityType e;
                observations := observations e;
                tags := Some (match tags e with Some l => l | None => [] end) |} ],
       quiet d' r)
    /\ Kuzu.nodes_Entity d'
       = Kuzu.nodes_Entity d
         ++ [ {| Kuzu.e_name := name e; Kuzu.e_entityType := entityType e |} ].
Proof.
  intros Hfresh.
  unfold createEntities; simpl for_of. unfold bind at 1. rewrite rethrow_id.
  step. rewrite Hfresh. cbn [List.length Nat.eqb].
  rewrite step_create_Entity by exact Hfresh.
  set (d1 := Kuzu.on_Entity _ d).
  destruct (createEntities_observations_quietly (name e) (observations e) d1 r)
    as ([] & d2 & H2 & E2).
  rewrite (bind_inr _ _ _ _ _ H2).
  destruct (createEntities_tags_quietly (name e) (tags e) d2 r) as ([] & d3 & H3 & E3).
  rewrite (bind_inr _ _ _ _ _ H3).
  exists d3. split; [reflexivity |].
  unfold same_entities in *. rewrite E3, E2. reflexivity.
Qed.

(** [createEntities] of an entity whose name is taken. *)
Lemma createEntities_taken d r e :
  Kuzu.match_Entity d (name e) <> [] ->
  createEntities [e] (quiet d r) = (inr [], quiet d r).
Proof.
  intros Htaken.
  unfold createEntities; simpl for_of. unfold bind at 1. rewrite rethrow_id.
  step. destruct (Kuzu.match_Entity d (name e)); [congruence | reflexivity].
Qed.

(** C6.  When no entity is called [name e] yet, on a connection without
    engine failures: the first [createEntities [e]] returns the one-element
    list holding [e] (its absent [tags] reported as the empty list), the
    second returns the empty list, and the second leaves the whole database,
    so the stored entity, its observations and its tag links, as it was. *)
Theorem createEntities_twice :
  forall d e,
    Kuzu.match_Entity d (name e) = [] ->
    exists d',
      createEntities [e] (connect d)
      = (inr [ {| name := name e; entityType := entityType e;
                  observations := observations e;
                  tags := Some (match tags e with Some l => l | None => [] end) |} ],
         connect d')
      /\ createEntities [e] (connect d') = (inr [], connect d').
Proof.
  intros d e Hfresh.
  destruct (createEntities_fresh d 0 e Hfresh) as (d' & Hrun & Hnodes).
  exists d'. split; [exact Hrun |].
  apply createEntities_taken.
  unfold Kuzu.match_Entity. rewrite Hnodes, filter_app. simpl.
  rewrite String.eqb_refl. intros H; apply app_eq_nil in H as [_ H]; discriminate.
Qed.

Lemma createEntities_twice_witness :
  exists d',
    createEntities [Sample.John_Smith] (connect Kuzu.empty)
    = (inr [Sample.John_Smith], connect d')
    /\ createEntities [Sample.John_Smith] (connect d') = (inr [], connect d').
Proof.
  apply (createEntities_twice Kuzu.empty Sample.John_Smith). reflexivity.
Defined.

(** ** [createRelations] *)

Lemma create_RELATED_TO_missing_endpoint d relation :
  Kuzu.match_Entity d (from relation) = [] \/ Kuzu.match_Entity d (to relation) = [] ->
  Kuzu.on_RELATED_TO (fun l => l ++
      flat_map (fun e1 => map (fun e2 =>
                  {| from := Kuzu.e_name e1; to := Kuzu.e_name e2;
                     relationType := relationType relation |})
                  (Kuzu.match_Entity d (to relation)))
               (Kuzu.match_Entity d (from relation))) d
  = d.
Proof.
  intros [H | H]; rewrite H; cbn [flat_map map].
  - apply on_RELATED_TO_nil.
  - rewrite flat_map_nil_r. apply on_RELATED_TO_nil.
Qed.

(** C1 (where the code departs from it).  When the triple is not stored yet
    and an endpoint is missing, [createRelations] on a connection without
    engine failures raises no error and creates no edge, the database is
    left as it was, and yet the relation is in the returned list: it is
    pushed after the [MATCH .. CREATE] whether or not it matched. *)
Theorem createRelations_reports_uncreated_relation :
  forall d relation,
    Kuzu.match_RELATED_TO d relation = [] ->
    Kuzu.match_Entity d (from relation) = [] \/ Kuzu.match_Entity d (to relation) = [] ->
    createRelations [relation] (connect d) = (inr [relation], connect d).
Proof.
  intros d relation Hnew Hmissing.
  unfold createRelations; simpl for_of. unfold bind at 1. rewrite rethrow_id.
  change (connect d) with (quiet d 0). step. rewrite Hnew. cbn [List.length Nat.eqb]. step.
  rewrite (create_RELATED_TO_missing_endpoint d relation Hmissing).
  destruct relation; reflexivity.
Qed.

Lemma createRelations_reports_uncreated_relation_witness :
  createRelations [ {| from := "A"; to := "B"; relationType := "knows" |} ]
                  (connect Kuzu.empty)
  = (inr [ {| from := "A"; to := "B"; relationType := "knows" |} ], connect Kuzu.empty).
Proof.
  apply (createRelations_reports_uncreated_relation Kuzu.empty
           {| from := "A"; to := "B"; relationType := "knows" |}).
  - reflexivity.
  - left; reflexivity.
Defined.

Lemma filter_key_absent {X} (f : X -> string) (l : list X) (k : string) :
  ~ In k (map f l) -> filter (fun y => f y =? k) l = [].
Proof.
  induction l as [| y l IH]; simpl; intros H; [reflexivity |].
  destruct (String.eqb_spec (f y) k) as [E | E].
  - exfalso. apply H. left. exact E.
  - apply IH. intros Hin. apply H. right. exact Hin.
Qed.

Lemma filter_key_unique {X} (f : X -> string) (l : list X) (x : X) :
  NoDup (map f l) -> In x l -> filter (fun y => f y =? f x) l = [x].
Proof.
  induction l as [| y l IH]; simpl; intros Hkey Hx; [destruct Hx |].
  inversion Hkey as [| ? ? Hy Hl]; subst.
  destruct Hx as [-> | Hx].
  - rewrite String.eqb_refl. f_equal. apply filter_key_absent, Hy.
  - destruct (String.eqb_spec (f y) (f x)) as [E | E].
    + exfalso. apply Hy. rewrite E. apply in_map, Hx.
    + apply IH; assumption.
Qed.

Lemma match_Entity_unique d n :
  integrity d -> entity_named d n ->
  exists e, Kuzu.match_Entity d n = [e] /\ Kuzu.e_name e = n.
Proof.
  intros Hd Hn. apply in_map_iff in Hn as (e & <- & He).
  exists e. split; [| reflexivity].
  apply (filter_key_unique Kuzu.e_name); [apply key_Entity, Hd | exact He].
Qed.

(** A triple that is stored already is skipped. *)
Lemma createRelations_duplicate d r relation :
  Kuzu.match_RELATED_TO d relation <> [] ->
  createRelations [relation] (quiet d r) = (inr [], quiet d r).
Proof.
  intros Hdup. unfold createRelations; simpl for_of. unfold bind at 1. rewrite rethrow_id.
  step. destruct (Kuzu.match_RELATED_TO d relation); [congruence | reflexivity].
Qed.

(** A new triple between two entities is stored, once. *)
Lemma createRelations_between_entities d r relation :
  integrity d ->
  Kuzu.match_RELATED_TO d relation = [] ->
  entity_named d (from relation) -> entity_named d (to relation) ->
  createRelations [relation] (quiet d r)
  = (inr [relation], quiet (Kuzu.on_RELATED_TO (fun l => l ++ [relation]) d) r).
Proof.
  intros Hd Hnew Hf Ht.
  destruct (match_Entity_unique d _ Hd Hf) as (e1 & E1 & N1).
  destruct (match_Entity_unique d _ Hd Ht) as (e2 & E2 & N2).
  unfold createRelations; simpl for_of. unfold bind at 1. rewrite rethrow_id.
  step. rewrite Hnew. cbn [List.length Nat.eqb]. step.
  rewrite E1, E2. cbn [flat_map map app]. rewrite N1, N2.
  destruct relation; reflexivity.
Qed.

(** The relation of the README is created once: a second call skips it. *)
Example createRelations_works_at_twice :
  (createEntities [Sample.John_Smith; Sample.Anthropic] ;;
   first <- createRelations [Sample.works_at] ;;
   second <- createRelations [Sample.works_at] ;;
   graph <- readGraph ;;
   ret (first, second, KnowledgeGraph.relations graph))
    (connect Kuzu.empty)
  = (inr ([Sample.works_at], [], [Sample.works_at]), connect Sample.John_at_Anthropic).
Proof. reflexivity. Qed.

(** ** [addObservations] *)



Lemma addObservations_entry_missing results obs d r :
  Kuzu.match_Entity d (Addition.entityName obs) = [] ->
  Plain.addObservations_entry results obs (quiet d r)
  = (inl (NotFound (Addition.entityName obs)), quiet d r).
Proof.
  intros Hmissing. unfold Plain.addObservations_entry. rewrite rethrow_id. step.
  rewrite Hmissing. reflexivity.
Qed.



(** ** [tagObservation] *)

Lemma tagObservation_tag_quiet n c acc t d r :
  let d1 := match Kuzu.match_Tag d t with
            | [] => Kuzu.on_Tag (fun l => l ++
                 [ {| Kuzu.t_name := t; Kuzu.t_category := ""; Kuzu.t_description := "" |} ]) d
            | _ :: _ => d
            end in
  Plain.tagObservation_tag n c acc t (quiet d r)
  = match flat_map (fun o => Kuzu.match_OBSERVATION_TAGGED_WITH d1 o t) (Kuzu.match_owned d1 n c) with
    | [] => (inr (acc ++ [t]),
             quiet (Kuzu.on_OBSERVATION_TAGGED_WITH (fun l => l ++
                      flat_map (fun o => map (fun t' => (Kuzu.o_id o, Kuzu.t_name t')) (Kuzu.match_Tag d1 t))
                               (Kuzu.match_owned d1 n c)) d1) r)
    | _ :: _ => (inr acc, quiet d1 r)
    end.
Proof.
  intros d1. unfold Plain.tagObservation_tag, try_catch. step.
  destruct (Kuzu.match_Tag d t) as [| u l] eqn:E; cbn [List.length Nat.eqb].
  - rewrite step_create_Tag by exact E. step. fold d1.
    destruct (flat_map _ _); cbn [List.length Nat.eqb]; step; reflexivity.
  - step. fold d1.
    destruct (flat_map _ _); cbn [List.length Nat.eqb]; step; reflexivity.
Qed.

(** With no observation to tag, the loop of [Plain.tagObservation] still reports
    every tag name. *)
Lemma tagObservation_loop_unmatched n c ts :
  forall acc d r,
    Kuzu.match_owned d n c = [] ->
    exists d',
      for_of ts (Plain.tagObservation_tag n c) acc (quiet d r) = (inr (acc ++ ts), quiet d' r)
      /\ Kuzu.rels_OBSERVATION_TAGGED_WITH d' = Kuzu.rels_OBSERVATION_TAGGED_WITH d
      /\ Kuzu.nodes_Observation d' = Kuzu.nodes_Observation d
      /\ Kuzu.rels_HAS_OBSERVATION d' = Kuzu.rels_HAS_OBSERVATION d.
Proof.
  induction ts as [| t ts IH]; intros acc d r H; simpl for_of.
  - exists d. rewrite app_nil_r. auto.
  - unfold bind. rewrite tagObservation_tag_quiet.
    set (d1 := match Kuzu.match_Tag d t with [] => _ | _ :: _ => d end).
    assert (H1 : Kuzu.match_owned d1 n c = []).
    { subst d1. destruct (Kuzu.match_Tag d t); exact H. }
    assert (E1 : Kuzu.rels_OBSERVATION_TAGGED_WITH d1 = Kuzu.rels_OBSERVATION_TAGGED_WITH d
                 /\ Kuzu.nodes_Observation d1 = Kuzu.nodes_Observation d
                 /\ Kuzu.rels_HAS_OBSERVATION d1 = Kuzu.rels_HAS_OBSERVATION d).
    { subst d1. destruct (Kuzu.match_Tag d t); auto. }
    rewrite H1. cbn [flat_map]. rewrite on_OBSERVATION_TAGGED_WITH_nil.
    destruct (IH (acc ++ [t]) d1 r H1) as (d' & Hrun & Hl & Ho & Hh).
    exists d'. rewrite Hrun, <- app_assoc. simpl.
    destruct E1 as (E1 & E2 & E3). repeat split; congruence.
Qed.

(** C2 (where the code departs from it).  When no observation owned by the
    entity has the given content, [tagObservation] on a connection without
    engine failures, given texts without a backslash, raises no error and
    adds no observation-to-tag link, but the list it returns is [tagNames]
    in full, not the empty list: the name is pushed after the
    [MATCH .. CREATE] whether or not it matched. *)
Theorem tagObservation_unmatched_reports_every_tag :
  forall d entityName observationContent tagNames,
    Text.plain entityName = true ->
    Text.plain observationContent = true ->
    forallb Text.plain tagNames = true ->
    Kuzu.match_owned d entityName observationContent = [] ->
    exists d',
      tagObservation entityName observationContent tagNames (connect d)
      = (inr tagNames, connect d')
      /\ Kuzu.rels_OBSERVATION_TAGGED_WITH d' = Kuzu.rels_OBSERVATION_TAGGED_WITH d.
Proof.
  intros d n c ts Hn Hc Hts H.
  destruct (tagObservation_loop_unmatched n c ts [] d 0 H) as (d' & Hrun & Hl & _).
  exists d'. split; [| exact Hl].
  rewrite (tagObservation_on_plain_text n c ts Hn Hc Hts).
  unfold Plain.tagObservation. rewrite rethrow_id. exact Hrun.
Qed.

Lemma tagObservation_unmatched_reports_every_tag_witness :
  exists d',
    tagObservation "John_Smith" "Speaks Spanish" ["language"; "it's"]
      (connect Sample.John_alone)
    = (inr ["language"; "it's"], connect d')
    /\ Kuzu.rels_OBSERVATION_TAGGED_WITH d' = [].
Proof.
  apply (tagObservation_unmatched_reports_every_tag Sample.John_alone
           "John_Smith" "Speaks Spanish" ["language"; "it's"]); reflexivity.
Defined.








(** ** The engine keeps the integrity of the database *)

Section MapFilter.

Context {X Y : Type}.
Variables (f : X -> Y) (g : X -> bool).

Lemma in_map_filter y l : In y (map f (filter g l)) -> In y (map f l).
Proof.
  rewrite !in_map_iff. intros (x & E & Hx). apply filter_In in Hx as [Hx _]. eauto.
Qed.

Lemma NoDup_map_filter l : NoDup (map f l) -> NoDup (map f (filter g l)).
Proof.
  induction l as [| x l IH]; simpl; intros H; [constructor |].
  inversion H as [| ? ? Hx Hl]; subst.
  destruct (g x); simpl; [constructor |]; auto.
  intros Hin; apply Hx, in_map_filter, Hin.
Qed.

Lemma in_map_kept x l : In x l -> g x = true -> In (f x) (map f (filter g l)).
Proof. intros Hx Hg. apply in_map, filter_In; auto. Qed.

End MapFilter.

Lemma match_Entity_named d n e : In e (Kuzu.match_Entity d n) -> entity_named d n.
Proof.
  unfold Kuzu.match_Entity; intros H. apply filter_In in H as [H E].
  apply String.eqb_eq in E. subst n. apply in_map, H.
Qed.

Lemma match_Entity_name d n e : In e (Kuzu.match_Entity d n) -> Kuzu.e_name e = n.
Proof.
  unfold Kuzu.match_Entity; intros H. apply filter_In in H as [_ E].
  apply String.eqb_eq, E.
Qed.

Lemma match_Entity_nil d n : Kuzu.match_Entity d n = [] -> ~ entity_named d n.
Proof.
  intros E H. apply in_map_iff in H as (e & <- & He).
  assert (In e (Kuzu.match_Entity d (Kuzu.e_name e))) as Hin
    by (apply filter_In; split; [exact He | apply String.eqb_refl]).
  rewrite E in Hin; exact Hin.
Qed.

Lemma match_Tag_named d n t : In t (Kuzu.match_Tag d n) -> tag_named d (Kuzu.t_name t).
Proof. unfold Kuzu.match_Tag; intros H. apply filter_In in H as [H _]. apply in_map, H. Qed.

Lemma match_Tag_nil d n : Kuzu.match_Tag d n = [] -> ~ tag_named d n.
Proof.
  intros E H. apply in_map_iff in H as (t & <- & Ht).
  assert (In t (Kuzu.match_Tag d (Kuzu.t_name t))) as Hin
    by (apply filter_In; split; [exact Ht | apply String.eqb_refl]).
  rewrite E in Hin; exact Hin.
Qed.

Lemma match_Observation_numbered d c o :
  In o (Kuzu.match_Observation d c) -> observation_numbered d (Kuzu.o_id o).
Proof.
  unfold Kuzu.match_Observation; intros H. apply filter_In in H as [H _]. apply in_map, H.
Qed.

Lemma linked_Observations_In d n o :
  In o (Kuzu.linked_Observations d n) ->
  In o (Kuzu.nodes_Observation d) /\ In (n, Kuzu.o_id o) (Kuzu.rels_HAS_OBSERVATION d).
Proof.
  unfold Kuzu.linked_Observations. rewrite in_flat_map. intros ([m i] & Hl & Ho).
  simpl in Ho. destruct (String.eqb_spec m n) as [-> | _]; [| destruct Ho].
  unfold Kuzu.Observation_by_id in Ho. apply filter_In in Ho as [Ho E].
  apply Nat.eqb_eq in E. subst i. auto.
Qed.

Lemma match_owned_numbered d n c o :
  In o (Kuzu.match_owned d n c) -> observation_numbered d (Kuzu.o_id o).
Proof.
  unfold Kuzu.match_owned; intros H. apply filter_In in H as [H _].
  apply linked_Observations_In in H as [H _]. apply in_map, H.
Qed.

Lemma integrity_empty : integrity Kuzu.empty.
Proof.
  constructor; unfold observation_numbered; simpl;
    solve [apply NoDup_nil | intros ? []].
Qed.

Ltac integrity_cases H :=
  destruct H as [kE kO kT bS eH eR eET eOT];
  constructor; cbn - [In]; auto.

Lemma create_Entity_integrity n ty : preserved integrity (Kuzu.create_Entity n ty).
Proof.
  intros d a d' H E. unfold Kuzu.create_Entity in E.
  destruct (Kuzu.match_Entity d n) eqn:Hn; [| discriminate].
  inversion E; subst; clear E. apply match_Entity_nil in Hn.
  assert (Hmono : forall m, entity_named d m ->
            In m (map Kuzu.e_name (Kuzu.nodes_Entity d ++
                   [ {| Kuzu.e_name := n; Kuzu.e_entityType := ty |} ])))
    by (intros m Hm; rewrite map_app; apply in_or_app; left; exact Hm).
  integrity_cases H.
  - rewrite map_app. apply NoDup_app; repeat split; simpl.
    + exact kE.
    + repeat constructor. intros [].
    + intros m Hm [<- | []]. exact (Hn Hm).
  - intros l Hl. destruct (eH l Hl). split; [apply Hmono |]; assumption.
  - intros r Hr. destruct (eR r Hr). split; apply Hmono; assumption.
  - intros l Hl. destruct (eET l Hl). split; [apply Hmono |]; assumption.
Qed.

Lemma create_Observation_integrity c : preserved integrity (Kuzu.create_Observation c).
Proof.
  intros d a d' H E. inversion E; subst; clear E.
  assert (Hmono : forall i, observation_numbered d i ->
            In i (map Kuzu.o_id (Kuzu.nodes_Observation d ++
                   [ {| Kuzu.o_id := Kuzu.serial d; Kuzu.o_content := c |} ])))
    by (intros i Hi; rewrite map_app; apply in_or_app; left; exact Hi).
  integrity_cases H.
  - rewrite map_app. apply NoDup_app; repeat split; simpl.
    + exact kO.
    + repeat constructor. intros [].
    + intros i Hi [<- | []]. apply bS in Hi. lia.
  - intros i Hi. unfold observation_numbered in Hi. cbn - [In] in Hi.
    rewrite map_app in Hi. apply in_app_or in Hi as [Hi | [<- | []]].
    + apply bS in Hi. lia.
    + simpl. lia.
  - intros l Hl. destruct (eH l Hl). split; [| apply Hmono]; assumption.
  - intros l Hl. destruct (eOT l Hl). split; [apply Hmono |]; assumption.
Qed.

Lemma create_Tag_integrity n cat descr :
  preserved integrity (Kuzu.create_Tag n cat descr).
Proof.
  intros d a d' H E. unfold Kuzu.create_Tag in E.
  destruct (Kuzu.match_Tag d n) eqn:Hn; [| discriminate].
  inversion E; subst; clear E. apply match_Tag_nil in Hn.
  assert (Hmono : forall m, tag_named d m ->
            In m (map Kuzu.t_name (Kuzu.nodes_Tag d ++
                   [ {| Kuzu.t_name := n; Kuzu.t_category := cat;
                        Kuzu.t_description := descr |} ])))
    by (intros m Hm; rewrite map_app; apply in_or_app; left; exact Hm).
  integrity_cases H.
  - rewrite map_app. apply NoDup_app; repeat split; simpl.
    + exact kT.
    + repeat constructor. intros [].
    + intros m Hm [<- | []]. exact (Hn Hm).
  - intros l Hl. destruct (eET l Hl). split; [| apply Hmono]; assumption.
  - intros l Hl. destruct (eOT l Hl). split; [| apply Hmono]; assumption.
Qed.

Lemma add_HAS_OBSERVATION_integrity d new :
  integrity d ->
  (forall l, In l new -> entity_named d (fst l) /\ observation_numbered d (snd l)) ->
  integrity (Kuzu.on_HAS_OBSERVATION (fun l => l ++ new) d).
Proof.
  intros H Hnew. integrity_cases H.
  intros l Hl. apply in_app_or in Hl as [Hl | Hl]; [exact (eH l Hl) | exact (Hnew l Hl)].
Qed.

Lemma add_RELATED_TO_integrity d new :
  integrity d ->
  (forall r, In r new -> entity_named d (from r) /\ entity_named d (to r)) ->
  integrity (Kuzu.on_RELATED_TO (fun l => l ++ new) d).
Proof.
  intros H Hnew. integrity_cases H.
  intros l Hl. apply in_app_or in Hl as [Hl | Hl]; [exact (eR l Hl) | exact (Hnew l Hl)].
Qed.

Lemma add_ENTITY_TAGGED_WITH_integrity d new :
  integrity d ->
  (forall l, In l new -> entity_named d (fst l) /\ tag_named d (snd l)) ->
  integrity (Kuzu.on_ENTITY_TAGGED_WITH (fun l => l ++ new) d).
Proof.
  intros H Hnew. integrity_cases H.
  intros l Hl. apply in_app_or in Hl as [Hl | Hl]; [exact (eET l Hl) | exact (Hnew l Hl)].
Qed.

Lemma add_OBSERVATION_TAGGED_WITH_integrity d new :
  integrity d ->
  (forall l, In l new -> observation_numbered d (fst l) /\ tag_named d (snd l)) ->
  integrity (Kuzu.on_OBSERVATION_TAGGED_WITH (fun l => l ++ new) d).
Proof.
  intros H Hnew. integrity_cases H.
  intros l Hl. apply in_app_or in Hl as [Hl | Hl]; [exact (eOT l Hl) | exact (Hnew l Hl)].
Qed.

Lemma link_HAS_OBSERVATION_integrity n c :
  preserved integrity (Kuzu.link_HAS_OBSERVATION n c).
Proof.
  intros d a d' H E. inversion E; subst; clear E.
  apply add_HAS_OBSERVATION_integrity; [exact H |].
  intros l Hl. apply in_flat_map in Hl as (e & He & Hl).
  apply in_map_iff in Hl as (o & <- & Ho). simpl. split.
  - rewrite (match_Entity_name _ _ _ He). eapply match_Entity_named, He.
  - eapply match_Observation_numbered, Ho.
Qed.

Lemma link_HAS_OBSERVATION_unless_linked_integrity n c :
  preserved integrity (Kuzu.link_HAS_OBSERVATION_unless_linked n c).
Proof.
  intros d a d' H E. inversion E; subst; clear E.
  apply add_HAS_OBSERVATION_integrity; [exact H |].
  intros l Hl. apply in_flat_map in Hl as (e & He & Hl).
  apply in_map_iff in Hl as (o & <- & Ho). apply filter_In in Ho as [Ho _]. simpl. split.
  - rewrite (match_Entity_name _ _ _ He). eapply match_Entity_named, He.
  - eapply match_Observation_numbered, Ho.
Qed.

Lemma link_ENTITY_TAGGED_WITH_integrity n tn :
  preserved integrity (Kuzu.link_ENTITY_TAGGED_WITH n tn).
Proof.
  intros d a d' H E. inversion E; subst; clear E.
  apply add_ENTITY_TAGGED_WITH_integrity; [exact H |].
  intros l Hl. apply in_flat_map in Hl as (e & He & Hl).
  apply in_map_iff in Hl as (t & <- & Ht). simpl. split.
  - rewrite (match_Entity_name _ _ _ He). eapply match_Entity_named, He.
  - eapply match_Tag_named, Ht.
Qed.

Lemma create_RELATED_TO_integrity r : preserved integrity (Kuzu.create_RELATED_TO r).
Proof.
  intros d a d' H E. inversion E; subst; clear E.
  apply add_RELATED_TO_integrity; [exact H |].
  intros l Hl. apply in_flat_map in Hl as (e1 & He1 & Hl).
  apply in_map_iff in Hl as (e2 & <- & He2). simpl. split.
  - rewrite (match_Entity_name _ _ _ He1). eapply match_Entity_named, He1.
  - rewrite (match_Entity_name _ _ _ He2). eapply match_Entity_named, He2.
Qed.

Lemma link_OBSERVATION_TAGGED_WITH_integrity n c tn :
  preserved integrity (Kuzu.link_OBSERVATION_TAGGED_WITH n c tn).
Proof.
  intros d a d' H E. inversion E; subst; clear E.
  apply add_OBSERVATION_TAGGED_WITH_integrity; [exact H |].
  intros l Hl. apply in_flat_map in Hl as (o & Ho & Hl).
  apply in_map_iff in Hl as (t & <- & Ht). simpl. split.
  - eapply match_owned_numbered, Ho.
  - eapply match_Tag_named, Ht.
Qed.

Lemma delete_RELATED_TO_integrity r : preserved integrity (Kuzu.delete_RELATED_TO r).
Proof.
  intros d a d' H E. inversion E; subst; clear E. integrity_cases H.
  intros l Hl. apply filter_In in Hl as [Hl _]. exact (eR l Hl).
Qed.

Lemma delete_ENTITY_TAGGED_WITH_integrity n tn :
  preserved integrity (Kuzu.delete_ENTITY_TAGGED_WITH n tn).
Proof.
  intros d a d' H E. inversion E; subst; clear E. integrity_cases H.
  intros l Hl. apply filter_In in Hl as [Hl _]. exact (eET l Hl).
Qed.

Lemma detach_Entity_named d n m :
  entity_named d m -> m <> n -> entity_named (Kuzu.detach_Entity n d) m.
Proof.
  intros Hm Hne. apply in_map_iff in Hm as (e & <- & He).
  unfold entity_named. cbn - [In]. apply in_map_kept; [exact He |].
  apply negb_true_iff, String.eqb_neq, Hne.
Qed.

Lemma detach_Entity_integrity d n : integrity d -> integrity (Kuzu.detach_Entity n d).
Proof.
  intros H.
  pose proof (detach_Entity_named d n) as Hkept.
  destruct H as [kE kO kT bS eH eR eET eOT].
  constructor; try assumption.
  - cbn - [In]. apply NoDup_map_filter, kE.
  - intros l Hl. cbn - [In] in Hl. apply filter_In in Hl as [Hl Hn].
    apply negb_true_iff, String.eqb_neq in Hn. destruct (eH l Hl). split; auto.
  - intros r Hr. cbn - [In] in Hr. apply filter_In in Hr as [Hr Hn].
    apply andb_true_iff in Hn as [Hf Ht].
    apply negb_true_iff, String.eqb_neq in Hf.
    apply negb_true_iff, String.eqb_neq in Ht.
    destruct (eR r Hr). split; auto.
  - intros l Hl. cbn - [In] in Hl. apply filter_In in Hl as [Hl Hn].
    apply negb_true_iff, String.eqb_neq in Hn. destruct (eET l Hl). split; auto.
Qed.

Lemma detach_delete_Entity_integrity n : preserved integrity (Kuzu.detach_delete_Entity n).
Proof.
  intros d a d' H E. inversion E; subst; clear E.
  destruct (Kuzu.match_Entity d n); [exact H | apply detach_Entity_integrity, H].
Qed.

Lemma has_owner_linked d o n :
  In (n, Kuzu.o_id o) (Kuzu.rels_HAS_OBSERVATION d) -> Kuzu.has_owner d o = true.
Proof.
  intros H. apply existsb_exists. exists (n, Kuzu.o_id o).
  split; [exact H | apply Nat.eqb_refl].
Qed.

Lemma delete_orphan_Observations_integrity :
  preserved integrity Kuzu.delete_orphan_Observations.
Proof.
  intros d a d' H E. unfold Kuzu.delete_orphan_Observations in E.
  destruct (existsb _ _) eqn:Hnone in E; [discriminate |].
  inversion E; subst; clear E.
  assert (Hkept : forall i,
            (exists n, In (n, i) (Kuzu.rels_HAS_OBSERVATION d)) ->
            observation_numbered d i ->
            In i (map Kuzu.o_id (filter (Kuzu.has_owner d) (Kuzu.nodes_Observation d)))).
  { intros i (n & Hl) Hi. apply in_map_iff in Hi as (o & <- & Ho).
    apply in_map_kept; [exact Ho | eapply has_owner_linked, Hl]. }
  destruct H as [kE kO kT bS eH eR eET eOT].
  constructor; try assumption.
  - cbn - [In]. apply NoDup_map_filter, kO.
  - intros i Hi. apply bS. eapply in_map_filter, Hi.
  - intros [n i] Hl. cbn - [In] in Hl. destruct (eH _ Hl) as [He Ho].
    split; [exact He |]. apply Hkept; [exists n; exact Hl | exact Ho].
  - intros [i t] Hl. cbn - [In] in Hl. destruct (eOT _ Hl) as [Ho Ht].
    split; [| exact Ht]. simpl in *.
    apply in_map_iff in Ho as (o & <- & Ho).
    apply in_map_kept; [exact Ho |].
    destruct (Kuzu.has_owner d o) eqn:Hown; [reflexivity | exfalso].
    assert (existsb (Kuzu.has_tag_link d)
              (filter (fun o => negb (Kuzu.has_owner d o)) (Kuzu.nodes_Observation d))
            = true) as Habs.
    { apply existsb_exists. exists o. split.
      - apply filter_In. split; [exact Ho | rewrite Hown; reflexivity].
      - apply existsb_exists. exists (Kuzu.o_id o, t).
        split; [exact Hl | apply Nat.eqb_refl]. }
    rewrite Habs in Hnone. discriminate.
Qed.

Lemma detach_delete_owned_integrity n c : preserved integrity (Kuzu.detach_delete_owned n c).
Proof.
  intros d a d' H E. inversion E; subst; clear E.
  set (gone := map Kuzu.o_id (Kuzu.match_owned d n c)).
  set (is_gone := fun i => existsb (Nat.eqb i) gone).
  assert (Hkept : forall i, is_gone i = false -> observation_numbered d i ->
            In i (map Kuzu.o_id
                    (filter (fun o => negb (is_gone (Kuzu.o_id o))) (Kuzu.nodes_Observation d)))).
  { intros i Hg Hi. apply in_map_iff in Hi as (o & <- & Ho).
    apply (in_map_kept Kuzu.o_id (fun o => negb (is_gone (Kuzu.o_id o)))); [exact Ho |].
    rewrite Hg; reflexivity. }
  destruct H as [kE kO kT bS eH eR eET eOT].
  constructor; try assumption.
  - cbn - [In]. apply NoDup_map_filter, kO.
  - intros i Hi. apply bS. eapply in_map_filter, Hi.
  - intros l Hl. cbn - [In] in Hl. apply filter_In in Hl as [Hl Hg].
    apply negb_true_iff in Hg. destruct (eH l Hl). split; [assumption |].
    apply Hkept; assumption.
  - intros l Hl. cbn - [In] in Hl. apply filter_In in Hl as [Hl Hg].
    apply negb_true_iff in Hg. destruct (eOT l Hl). split; [| assumption].
    apply Hkept; assumption.
Qed.

Section Keeps.

Variable P : Kuzu.Database -> Prop.

Lemma keeps_ret {A} (a : A) : keeps P (ret a).
Proof. intros c H; exact H. Qed.

Lemma keeps_throw {A} (e : error) : keeps P (@throw A e).
Proof. intros c H; exact H. Qed.

Lemma keeps_bind {A B} (m : M A) (k : A -> M B) :
  keeps P m -> (forall a, keeps P (k a)) -> keeps P (bind m k).
Proof.
  intros Hm Hk c H. specialize (Hm c H). unfold bind.
  destruct (m c) as [[e | a] c1]; simpl in *; [exact Hm | apply Hk, Hm].
Qed.

Lemma keeps_try {A} (m : M A) (h : error -> M A) :
  keeps P m -> (forall e, keeps P (h e)) -> keeps P (try_catch m h).
Proof.
  intros Hm Hh c H. specialize (Hm c H). unfold try_catch.
  destruct (m c) as [[e | a] c1]; simpl in *; [apply Hh, Hm | exact Hm].
Qed.

Lemma keeps_query {A} (q : Kuzu.statement A) : preserved P q -> keeps P (query q).
Proof.
  intros Hq c H. unfold query.
  destruct (hd false (pending c)); [exact H |].
  destruct (q (db c)) as [[a d'] |] eqn:E; [| exact H].
  simpl. eapply Hq; eauto.
Qed.

Lemma keeps_for_of {I St} (body : St -> I -> M St) :
  (forall s x, keeps P (body s x)) -> forall l s, keeps P (for_of l body s).
Proof.
  intros Hb l; induction l as [| x l IH]; intros s; simpl.
  - apply keeps_ret.
  - apply keeps_bind; [apply Hb | intros s'; apply IH].
Qed.

Lemma keeps_for_each {I} (body : I -> M unit) :
  (forall x, keeps P (body x)) -> forall l, keeps P (for_each l body).
Proof. intros Hb l; apply keeps_for_of; intros _ x; apply Hb. Qed.

Lemma preserved_reading {A} (f : Kuzu.Database -> A) : preserved P (Kuzu.reading f).
Proof. intros d a d' H E; inversion E; subst; exact H. Qed.

Lemma preserved_spliced {A} text (q : string -> Kuzu.statement A) :
  (forall v, preserved P (q v)) -> preserved P (Kuzu.spliced text q).
Proof.
  intros H d a d' Hd E. unfold Kuzu.spliced in E.
  destruct (Kuzu.literal text) as [v |]; [eapply H; eauto | discriminate].
Qed.

Lemma preserved_spliced_list {A} texts (q : list string -> Kuzu.statement A) :
  (forall vs, preserved P (q vs)) -> preserved P (Kuzu.spliced_list texts q).
Proof.
  intros H d a d' Hd E. unfold Kuzu.spliced_list in E.
  destruct (Kuzu.literals texts) as [vs |]; [eapply H; eauto | discriminate].
Qed.

End Keeps.

Ltac preserving :=
  first [ apply preserved_spliced; intros ?; preserving
        | apply preserved_spliced_list; intros ?; preserving
        | apply preserved_reading
        | apply create_Entity_integrity
        | apply create_Observation_integrity
        | apply create_Tag_integrity
        | apply link_HAS_OBSERVATION_integrity
        | apply link_HAS_OBSERVATION_unless_linked_integrity
        | apply link_ENTITY_TAGGED_WITH_integrity
        | apply create_RELATED_TO_integrity
        | apply link_OBSERVATION_TAGGED_WITH_integrity
        | apply delete_RELATED_TO_integrity
        | apply delete_ENTITY_TAGGED_WITH_integrity
        | apply detach_delete_Entity_integrity
        | apply delete_orphan_Observations_integrity
        | apply detach_delete_owned_integrity ].

Ltac keeping :=
  repeat first
    [ progress cbv beta zeta
    | apply keeps_try; [| intros ? ]
    | apply keeps_for_each; intros ?
    | apply keeps_for_of; intros ? ?
    | apply keeps_bind; [| intros ? ]
    | apply keeps_ret
    | apply keeps_throw
    | apply keeps_query; preserving
    | match goal with
      | |- keeps _ (if ?b then _ else _) => destruct b
      | |- keeps _ (match ?o with _ => _ end) => destruct o
      end ].

(** Every operation of the manager leaves a database with integrity, also
    when it stops on an error half-way. *)
Lemma manager_keeps_integrity :
  (forall entities, keeps integrity (createEntities entities))
  /\ (forall relations, keeps integrity (createRelations relations))
  /\ (forall observations, keeps integrity (addObservations observations))
  /\ (forall entityNames, keeps integrity (deleteEntities entityNames))
  /\ (forall deletions, keeps integrity (deleteObservations deletions))
  /\ (forall relations, keeps integrity (deleteRelations relations))
  /\ (forall entityName tagNames, keeps integrity (tagEntity entityName tagNames))
  /\ (forall entityName content tagNames,
        keeps integrity (tagObservation entityName content tagNames))
  /\ (forall entityName tagNames,
        keeps integrity (removeTagsFromEntity entityName tagNames))
  /\ keeps integrity readGraph
  /\ (forall q, keeps integrity (searchNodes q)).
Proof.
  repeat match goal with |- _ /\ _ => split end; intros;
    unfold createEntities, createRelations, addObservations, addObservations_entry,
      addObservations_contents, deleteEntities, deleteObservations, deleteRelations,
      tagEntity, tagObservation, tagObservation_tag, removeTagsFromEntity, readGraph,
      getAllTags, searchNodes, Kuzu.count_Entity, Kuzu.count_Tag, Kuzu.count_RELATED_TO,
      Kuzu.count_owned, Kuzu.count_ENTITY_TAGGED_WITH, Kuzu.count_tagged_owned,
      Kuzu.all_Entity_rows, Kuzu.all_RELATED_TO_rows, Kuzu.all_Tag_rows,
      Kuzu.search_Entity_rows, Kuzu.induced_RELATED_TO_rows;
    keeping.
Qed.

Lemma John_at_Anthropic_integrity : integrity Sample.John_at_Anthropic.
Proof.
  change Sample.John_at_Anthropic
    with (db (snd ((createEntities [Sample.John_Smith; Sample.Anthropic] ;;
                    createRelations [Sample.works_at])
                     (connect Kuzu.empty)))).
  apply keeps_bind; [apply manager_keeps_integrity | intros ?; apply manager_keeps_integrity |].
  exact integrity_empty.
Qed.

(** ** [searchNodes] *)

Lemma map_Relation_eta (l : list Relation) :
  map (fun row => {| from := from row; to := to row; relationType := relationType row |}) l
  = l.
Proof. induction l as [| [f t k] l IH]; simpl; [| rewrite IH]; reflexivity. Qed.

Lemma name_in_In names n : Kuzu.name_in names n = true <-> In n names.
Proof.
  unfold Kuzu.name_in. rewrite existsb_exists. split.
  - intros (x & Hx & E). apply String.eqb_eq in E. subst; exact Hx.
  - intros H. exists n. split; [exact H | apply String.eqb_refl].
Qed.

Lemma name_in_Set names :
  forall s n, Kuzu.name_in (fold_left Set_add names s) n
              = Kuzu.name_in s n || Kuzu.name_in names n.
Proof.
  induction names as [| x names IH]; intros s n; simpl.
  - rewrite orb_false_r; reflexivity.
  - rewrite IH. unfold Set_add.
    destruct (Kuzu.name_in s x) eqn:E.
    + destruct (String.eqb_spec n x) as [-> | Hne]; simpl; [| reflexivity].
      rewrite E; reflexivity.
    + unfold Kuzu.name_in at 1. rewrite existsb_app. simpl.
      rewrite orb_false_r, orb_assoc. reflexivity.
Qed.

Lemma induced_Set d names :
  induced d (fold_left Set_add names []) = induced d names.
Proof.
  unfold induced. apply filter_ext. intros r. rewrite !name_in_Set. reflexivity.
Qed.

Lemma induced_nil d : induced d [] = [].
Proof.
  unfold induced. induction (Kuzu.rels_RELATED_TO d) as [| r l IH]; simpl; auto.
Qed.

Lemma or_empty_COLLECT l : or_empty (Kuzu.COLLECT l) = l.
Proof. destruct l; reflexivity. Qed.

Lemma non_empty_COLLECT l :
  non_empty (Kuzu.COLLECT l) = filter (fun x => negb (x =? "")) l.
Proof. destruct l; reflexivity. Qed.

Lemma forallb_map {X Y} (f : Y -> bool) (g : X -> Y) (l : list X) :
  forallb f (map g l) = forallb (fun x => f (g x)) l.
Proof. induction l as [| x l IH]; [reflexivity |]. cbn [map forallb]. rewrite IH. reflexivity. Qed.

Lemma plain_Set names :
  forallb Text.plain names = true ->
  forallb Text.plain (fold_left Set_add names []) = true.
Proof.
  rewrite !forallb_forall. intros H x Hx. apply H.
  apply name_in_In in Hx. rewrite name_in_Set in Hx. cbn [Kuzu.name_in existsb orb] in Hx.
  apply name_in_In. exact Hx.
Qed.

Lemma plain_names_stored d :
  plain_names d = true -> forallb Text.plain (map Kuzu.e_name (Kuzu.nodes_Entity d)) = true.
Proof. intros H. rewrite forallb_map. exact H. Qed.

(** What [searchNodes] returns on a connection without engine failures,
    when neither the query nor a stored name holds a backslash (rows in
    table order). *)
Lemma searchNodes_quiet q d r :
  Text.plain q = true ->
  plain_names d = true ->
  searchNodes q (quiet d r)
  = (inr {| KnowledgeGraph.entities := map (found d q) (Kuzu.nodes_Entity d);
            KnowledgeGraph.relations :=
              induced d (map Kuzu.e_name (Kuzu.nodes_Entity d));
            KnowledgeGraph.tags := None |},
     quiet d r).
Proof.
  intros Hq Hd. unfold searchNodes. rewrite rethrow_id. cbv zeta.
  rewrite spliced_plain by (rewrite plain_toLowerCase; exact Hq). step.
  rewrite !map_map. cbn [Kuzu.row_name Kuzu.row_entityType Kuzu.row_observations].
  set (names := map Kuzu.e_name (Kuzu.nodes_Entity d)).
  assert (E : induced d (fold_left Set_add names []) = induced d names)
    by apply induced_Set.
  assert (Hp : forallb Text.plain (fold_left Set_add names []) = true)
    by apply plain_Set, plain_names_stored, Hd.
  assert (Hfound : map (fun e => {| name := Kuzu.e_name e;
                                    entityType := Kuzu.e_entityType e;
                                    observations :=
                                      non_empty
                                        (Kuzu.COLLECT
                                           (Kuzu.distinct
                                              (map Kuzu.o_content
                                                 (filter (Kuzu.search_condition
                                                            (Text.toLowerCase q) e)
                                                    (Kuzu.linked_Observations d
                                                       (Kuzu.e_name e))))));
                                    tags := None |}) (Kuzu.nodes_Entity d)
                   = map (found d q) (Kuzu.nodes_Entity d)).
  { apply map_ext. intros e. unfold found. rewrite non_empty_COLLECT. reflexivity. }
  rewrite Hfound.
  destruct (fold_left Set_add names []) as [| n0 s] eqn:ES.
  - cbn [List.length Nat.ltb Nat.leb]. step.
    rewrite <- E, induced_nil. reflexivity.
  - cbn [List.length Nat.ltb Nat.leb]. rewrite (spliced_list_plain _ _ Hp). step.
    rewrite map_Relation_eta. fold (induced d (n0 :: s)). rewrite E. reflexivity.
Qed.

Example John_alone_is_created :
  createEntities [Sample.John_Smith] (connect Kuzu.empty)
  = (inr [Sample.John_Smith], connect Sample.John_alone).
Proof. reflexivity. Qed.

Example John_at_Anthropic_is_created :
  (createEntities [Sample.John_Smith; Sample.Anthropic] ;;
   createRelations [Sample.works_at])
    (connect Kuzu.empty)
  = (inr [Sample.works_at], connect Sample.John_at_Anthropic).
Proof. reflexivity. Qed.

(** The scenario of the specification: the search is case-insensitive. *)
Example searchNodes_SPANISH :
  searchNodes "SPANISH" (connect Sample.John_alone)
  = (inr {| KnowledgeGraph.entities :=
              [ {| name := "John_Smith"; entityType := "person";
                   observations := ["Speaks fluent Spanish"]; tags := None |} ];
            KnowledgeGraph.relations := [];
            KnowledgeGraph.tags := None |},
     connect Sample.John_alone).
Proof. reflexivity. Qed.

(** C8 (where the code departs from it).  In the database holding only
    John_Smith, "zzz" is a substring neither of his name, nor of his type,
    nor of his observation; [searchNodes "zzz"] returns him all the same,
    with an empty list of observations. *)
Theorem searchNodes_returns_unmatched_entity :
  ~ matches Sample.John_alone "zzz"
      {| Kuzu.e_name := "John_Smith"; Kuzu.e_entityType := "person" |}
  /\ searchNodes "zzz" (connect Sample.John_alone)
     = (inr {| KnowledgeGraph.entities :=
                 [ {| name := "John_Smith"; entityType := "person";
                      observations := []; tags := None |} ];
               KnowledgeGraph.relations := [];
               KnowledgeGraph.tags := None |},
        connect Sample.John_alone).
Proof.
  split; [| reflexivity].
  intros [H | [H | (o & Hin & H)]].
  - discriminate H.
  - discriminate H.
  - destruct Hin as [<- | []]. discriminate H.
Qed.

Lemma filter_all {X} (f : X -> bool) (l : list X) :
  (forall x, In x l -> f x = true) -> filter f l = l.
Proof.
  induction l as [| x l IH]; intros H; simpl; [reflexivity |].
  rewrite (H x (or_introl eq_refl)), IH; [reflexivity |].
  intros y Hy; apply H; right; exact Hy.
Qed.






(** ** [deleteEntities] and [readGraph] *)

Lemma In_distinct l x : In x (Kuzu.distinct l) <-> In x l.
Proof.
  induction l as [| y l IH]; [reflexivity |].
  cbn [Kuzu.distinct In]. rewrite filter_In, IH.
  destruct (String.eqb_spec x y) as [-> | Hne].
  - split; intros _; left; reflexivity.
  - split.
    + intros [E | [H _]]; [left; exact E | right; exact H].
    + intros [E | H]; [left; exact E | right; split; [exact H | reflexivity]].
Qed.

Lemma readGraph_quiet d r : readGraph (quiet d r) = (inr (read d), quiet d r).
Proof.
  unfold readGraph. rewrite rethrow_id. unfold getAllTags. step.
  rewrite map_Relation_eta, map_map. unfold ret, read. do 3 f_equal.
  apply map_ext. intros e.
  cbn [Kuzu.row_name Kuzu.row_entityType Kuzu.row_observations Kuzu.row_tags].
  rewrite !or_empty_COLLECT. reflexivity.
Qed.





(** One turn of [Plain.deleteEntities] on a connection without engine failures:
    the entity goes with its relationships, then the sweep either goes
    through or is refused by the engine, which the [catch] absorbs. *)
Lemma deleteEntities_turn_quiet x d r :
  let d1 := match Kuzu.match_Entity d x with
            | [] => d
            | _ :: _ => Kuzu.detach_Entity x d
            end in
  let turn := try_catch (query (Kuzu.detach_delete_Entity x) ;;
                         query Kuzu.delete_orphan_Observations)
                        (fun _ => ret tt) in
  turn (quiet d r) = (inr tt, quiet (swept d1) r)
  \/ turn (quiet d r) = (inr tt, quiet d1 (S r)).
Proof.
  intros d1 turn. subst turn. unfold try_catch. step. fold d1.
  rewrite query_quiet. unfold Kuzu.delete_orphan_Observations.
  destruct (existsb _ _); [right | left]; reflexivity.
Qed.





Section Cascade.

Variables (d : Kuzu.Database) (x : string).

Let d1 : Kuzu.Database :=
  match Kuzu.match_Entity d x with
  | [] => d
  | _ :: _ => Kuzu.detach_Entity x d
  end.







End Cascade.


Example deleteEntities_Anthropic :
  (deleteEntities ["Anthropic"] ;; readGraph) (connect Sample.John_at_Anthropic)
  = (inr {| KnowledgeGraph.entities :=
              [ {| name := "John_Smith"; entityType := "person";
                   observations := ["Speaks fluent Spanish"]; tags := Some [] |} ];
            KnowledgeGraph.relations := [];
            KnowledgeGraph.tags := Some [] |},
     connect Sample.John_alone).
Proof. reflexivity. Qed.

(** An observation that carries a tag outlives its entity in the store: the
    engine refuses the sweep, [deleteEntities] absorbs the error, and the
    observation, linked to no entity, is in no graph that is read. *)
Example deleteEntities_tagged_observation :
  (createEntities [Sample.John_Smith] ;;
   tagObservation "John_Smith" "Speaks fluent Spanish" ["language"] ;;
   deleteEntities ["John_Smith"] ;;
   readGraph)
    (connect Kuzu.empty)
  = (inr {| KnowledgeGraph.entities := [];
            KnowledgeGraph.relations := [];
            KnowledgeGraph.tags :=
              Some [ {| Tag.name := "language"; Tag.category := None;
                        Tag.description := None |} ] |},
     {| db := {| Kuzu.nodes_Entity := [];
                 Kuzu.nodes_Observation :=
                   [ {| Kuzu.o_id := 0; Kuzu.o_content := "Speaks fluent Spanish" |} ];
                 Kuzu.nodes_Tag :=
                   [ {| Kuzu.t_name := "language"; Kuzu.t_category := "";
                        Kuzu.t_description := "" |} ];
                 Kuzu.rels_HAS_OBSERVATION := [];
                 Kuzu.rels_RELATED_TO := [];
                 Kuzu.rels_ENTITY_TAGGED_WITH := [];
                 Kuzu.rels_OBSERVATION_TAGGED_WITH := [ (0, "language") ];
                 Kuzu.serial := 1 |};
        pending := [];
        raised := 1 |}).
Proof. vm_compute. reflexivity. Qed.

(** ** Further properties of the operations *)

(** *** Invariants *)

Ltac unfold_manager :=
  unfold createEntities, createRelations, addObservations, addObservations_entry,
    addObservations_contents, deleteEntities, deleteObservations, deleteRelations,
    tagEntity, tagObservation, tagObservation_tag, removeTagsFromEntity, readGraph,
    getAllTags, searchNodes, openNodes, createTags, getEntitiesByTag, getTagUsage,
    Kuzu.count_Entity, Kuzu.count_Tag, Kuzu.count_RELATED_TO,
    Kuzu.count_owned, Kuzu.count_ENTITY_TAGGED_WITH, Kuzu.count_tagged_owned,
    Kuzu.all_Entity_rows, Kuzu.all_RELATED_TO_rows, Kuzu.all_Tag_rows,
    Kuzu.search_Entity_rows, Kuzu.induced_RELATED_TO_rows, Kuzu.named_Entity_rows,
    Kuzu.tagged_Entity_rows, Kuzu.usage_rows.

(** X1.  Every operation of the manager takes a database with integrity
    (unique keys, relationship rows between existing nodes) to a database
    with integrity, on every connection: also when the engine fails in the
    middle of the operation and the operation stops there or goes on. *)
Theorem operations_keep_integrity :
  forall c,
    integrity (db c) ->
    (forall entities, integrity (db (snd (createEntities entities c))))
    /\ (forall relations, integrity (db (snd (createRelations relations c))))
    /\ (forall observations, integrity (db (snd (addObservations observations c))))
    /\ (forall entityNames, integrity (db (snd (deleteEntities entityNames c))))
    /\ (forall deletions, integrity (db (snd (deleteObservations deletions c))))
    /\ (forall relations, integrity (db (snd (deleteRelations relations c))))
    /\ (forall tags, integrity (db (snd (createTags tags c))))
    /\ (forall entityName tagNames,
          integrity (db (snd (tagEntity entityName tagNames c))))
    /\ (forall entityName content tagNames,
          integrity (db (snd (tagObservation entityName content tagNames c))))
    /\ (forall entityName tagNames,
          integrity (db (snd (removeTagsFromEntity entityName tagNames c)))).
Proof.
  intros c Hc.
  repeat match goal with |- _ /\ _ => split end; intros;
    match goal with
    | |- integrity (db (snd (?m c))) =>
        revert c Hc; change (keeps integrity m); unfold_manager; keeping
    end.
Qed.

Lemma operations_keep_integrity_witness :
  integrity (db (snd (createEntities [Sample.John_Smith; Sample.John_Smith]
                        {| db := Kuzu.empty; pending := [false; false; true];
                           raised := 0 |}))).
Proof.
  apply (operations_keep_integrity
           {| db := Kuzu.empty; pending := [false; false; true]; raised := 0 |}).
  exact integrity_empty.
Defined.


Section Takes.

Variables Q P : Kuzu.Database -> Prop.





End Takes.



Lemma same_Relation_refl r : Kuzu.same_Relation r r = true.
Proof. unfold Kuzu.same_Relation. rewrite !String.eqb_refl. reflexivity. Qed.

Lemma match_RELATED_TO_nil d relation :
  Kuzu.match_RELATED_TO d relation = [] -> ~ In relation (Kuzu.rels_RELATED_TO d).
Proof.
  intros E H.
  assert (In relation (Kuzu.match_RELATED_TO d relation)) as Hin
    by (apply filter_In; split; [exact H | apply same_Relation_refl]).
  rewrite E in Hin. exact Hin.
Qed.







(** *** Deleting relations and tag links *)

Lemma filter_filter {X} (f g : X -> bool) (l : list X) :
  filter g (filter f l) = filter (fun x => f x && g x) l.
Proof.
  induction l as [| x l IH]; simpl; [reflexivity |].
  destruct (f x); simpl; [destruct (g x) |]; rewrite IH; reflexivity.
Qed.

Lemma on_RELATED_TO_ext f g d :
  f (Kuzu.rels_RELATED_TO d) = g (Kuzu.rels_RELATED_TO d) ->
  Kuzu.on_RELATED_TO f d = Kuzu.on_RELATED_TO g d.
Proof. unfold Kuzu.on_RELATED_TO; intros ->; reflexivity. Qed.

Lemma on_RELATED_TO_twice f g d :
  Kuzu.on_RELATED_TO f (Kuzu.on_RELATED_TO g d) = Kuzu.on_RELATED_TO (fun l => f (g l)) d.
Proof. reflexivity. Qed.

Lemma deleteRelations_turn_quiet relation d r :
  try_catch (query (Kuzu.delete_RELATED_TO relation)) (fun _ => ret tt) (quiet d r)
  = (inr tt,
     quiet (Kuzu.on_RELATED_TO
              (filter (fun r' => negb (Kuzu.same_Relation relation r'))) d) r).
Proof. reflexivity. Qed.

(** The operation on values, on a connection without engine failures. *)
Lemma Plain_deleteRelations_removes :
  forall relations d r,
    Plain.deleteRelations relations (quiet d r)
    = (inr tt,
       quiet (Kuzu.on_RELATED_TO
                (filter (fun stored =>
                           negb (existsb (fun listed => Kuzu.same_Relation listed stored)
                                         relations)))
                d) r).
Proof.
  induction relations as [| relation relations IH]; intros d r.
  - unfold Plain.deleteRelations, for_each; simpl. unfold ret. f_equal.
    destruct d; unfold quiet, Kuzu.on_RELATED_TO; simpl. rewrite filter_true. reflexivity.
  - unfold Plain.deleteRelations. rewrite for_each_cons.
    rewrite (bind_inr _ _ _ _ _ (deleteRelations_turn_quiet relation d r)).
    fold (Plain.deleteRelations relations). rewrite IH. do 2 f_equal.
    rewrite on_RELATED_TO_twice. apply on_RELATED_TO_ext.
    rewrite filter_filter. apply filter_ext. intros stored.
    cbn [existsb]. rewrite negb_orb. reflexivity.
Qed.

(** X4.  On a connection without engine failures [deleteRelations], given
    triples whose texts hold no backslash, removes from the RELATED_TO
    table exactly the rows equal to one of the listed triples, and changes
    nothing else: a listed triple that is not stored is passed over without
    error. *)
Theorem deleteRelations_removes_listed :
  forall relations d r,
    forallb plain_Relation relations = true ->
    deleteRelations relations (quiet d r)
    = (inr tt,
       quiet (Kuzu.on_RELATED_TO
                (filter (fun stored =>
                           negb (existsb (fun listed => Kuzu.same_Relation listed stored)
                                         relations)))
                d) r).
Proof.
  intros relations d r H. rewrite (deleteRelations_on_plain_text relations H).
  apply Plain_deleteRelations_removes.
Qed.

Lemma deleteRelations_removes_listed_witness :
  deleteRelations
    [ Sample.works_at; {| from := "Anthropic"; to := "John_Smith"; relationType := "hires" |} ]
    (quiet Sample.John_at_Anthropic 0)
  = (inr tt, quiet (Kuzu.on_RELATED_TO (fun _ => []) Sample.John_at_Anthropic) 0).
Proof.
  apply (deleteRelations_removes_listed
           [ Sample.works_at;
             {| from := "Anthropic"; to := "John_Smith"; relationType := "hires" |} ]
           Sample.John_at_Anthropic 0).
  reflexivity.
Defined.

Lemma removeTagsFromEntity_turn_quiet n removedTags t d r :
  try_catch
    (k <- query (Kuzu.delete_ENTITY_TAGGED_WITH n t) ;;
     if (0 <? k)%nat then ret (removedTags ++ [t]) else ret removedTags)
    (fun _ => ret removedTags) (quiet d r)
  = (inr (match Kuzu.match_ENTITY_TAGGED_WITH d n t with
          | [] => removedTags
          | _ :: _ => removedTags ++ [t]
          end),
     quiet (Kuzu.on_ENTITY_TAGGED_WITH
              (filter (fun l => negb ((fst l =? n) && (snd l =? t)))) d) r).
Proof.
  unfold try_catch, bind. rewrite query_quiet. unfold Kuzu.delete_ENTITY_TAGGED_WITH.
  destruct (Kuzu.match_ENTITY_TAGGED_WITH d n t); reflexivity.
Qed.

Lemma match_ENTITY_TAGGED_WITH_after_delete d n t x :
  Kuzu.match_ENTITY_TAGGED_WITH
    (Kuzu.on_ENTITY_TAGGED_WITH
       (filter (fun l => negb ((fst l =? n) && (snd l =? t)))) d) n x
  = if x =? t then [] else Kuzu.match_ENTITY_TAGGED_WITH d n x.
Proof.
  unfold Kuzu.match_ENTITY_TAGGED_WITH. cbn [Kuzu.on_ENTITY_TAGGED_WITH
    Kuzu.rels_ENTITY_TAGGED_WITH]. rewrite filter_filter.
  destruct (String.eqb_spec x t) as [-> | Hne].
  - induction (Kuzu.rels_ENTITY_TAGGED_WITH d) as [| l ls IH]; simpl; [reflexivity |].
    destruct ((fst l =? n) && (snd l =? t)); simpl; exact IH.
  - apply filter_ext. intros l.
    destruct (String.eqb_spec (snd l) x) as [E | E].
    + rewrite E. apply String.eqb_neq in Hne. rewrite Hne.
      rewrite andb_false_r. reflexivity.
    + rewrite andb_false_r, andb_false_r. reflexivity.
Qed.

Lemma removeTagsFromEntity_loop n ts :
  forall acc d r,
    exists removed d',
      for_of ts
        (fun removedTags tagName =>
           try_catch
             (k <- query (Kuzu.delete_ENTITY_TAGGED_WITH n tagName) ;;
              if (0 <? k)%nat then ret (removedTags ++ [tagName]) else ret removedTags)
             (fun _ => ret removedTags))
        acc (quiet d r)
      = (inr (acc ++ removed), quiet d' r)
      /\ NoDup removed
      /\ (forall t, In t removed <->
                    In t ts /\ Kuzu.match_ENTITY_TAGGED_WITH d n t <> [])
      /\ (forall t, Kuzu.match_ENTITY_TAGGED_WITH d' n t
                    = if Kuzu.name_in ts t then []
                      else Kuzu.match_ENTITY_TAGGED_WITH d n t).
Proof.
  induction ts as [| t ts IH]; intros acc d r; simpl for_of.
  - exists [], d. rewrite app_nil_r. split; [reflexivity |]. split; [constructor |].
    split; [| reflexivity]. intros t; split; [intros [] | intros [[] _]].
  - rewrite (bind_inr _ _ _ _ _ (removeTagsFromEntity_turn_quiet n acc t d r)).
    set (d1 := Kuzu.on_ENTITY_TAGGED_WITH _ d).
    assert (H1 : forall x, Kuzu.match_ENTITY_TAGGED_WITH d1 n x
                           = if x =? t then [] else Kuzu.match_ENTITY_TAGGED_WITH d n x)
      by (intros x; apply match_ENTITY_TAGGED_WITH_after_delete).
    destruct (IH (match Kuzu.match_ENTITY_TAGGED_WITH d n t with
                  | [] => acc | _ :: _ => acc ++ [t] end) d1 r)
      as (rem & d' & Hrun & Hnd & Hin & Hafter).
    assert (Ht : ~ In t rem).
    { intros H. apply Hin in H as [_ H]. rewrite H1, String.eqb_refl in H. congruence. }
    exists (match Kuzu.match_ENTITY_TAGGED_WITH d n t with
            | [] => rem | _ :: _ => t :: rem end), d'.
    split; [| split; [| split]].
    + rewrite Hrun. destruct (Kuzu.match_ENTITY_TAGGED_WITH d n t);
        [reflexivity | rewrite <- app_assoc; reflexivity].
    + destruct (Kuzu.match_ENTITY_TAGGED_WITH d n t); [exact Hnd | constructor; assumption].
    + intros x. specialize (Hin x). rewrite H1 in Hin.
      destruct (String.eqb_spec x t) as [Ext | Hne].
      * rewrite Ext in *. clear Ext.
        destruct (Kuzu.match_ENTITY_TAGGED_WITH d n t) eqn:E.
        -- split; [intros H; contradiction | intros [_ H]; congruence].
        -- split; [intros _; split; [left; reflexivity | discriminate]
                  | intros _; left; reflexivity].
      * assert (In x (t :: ts) <-> In x ts) as Hc
          by (split; [intros [E | H]; [congruence | exact H] | intros H; right; exact H]).
        rewrite Hc, <- Hin.
        destruct (Kuzu.match_ENTITY_TAGGED_WITH d n t); [reflexivity |].
        split; [intros [E | H]; [congruence | exact H] | intros H; right; exact H].
    + intros x. rewrite Hafter, H1. unfold Kuzu.name_in at 2. cbn [existsb].
      fold (Kuzu.name_in ts x).
      destruct (Kuzu.name_in ts x); [rewrite orb_true_r; reflexivity |].
      rewrite orb_false_r. reflexivity.
Qed.

(** The operation on values, on a connection without engine failures. *)
Lemma Plain_removeTagsFromEntity_reports :
  forall entityName tagNames d r,
    exists removed d',
      Plain.removeTagsFromEntity entityName tagNames (quiet d r) = (inr removed, quiet d' r)
      /\ NoDup removed
      /\ (forall t, In t removed <->
                    In t tagNames
                    /\ Kuzu.match_ENTITY_TAGGED_WITH d entityName t <> [])
      /\ (forall t, Kuzu.match_ENTITY_TAGGED_WITH d' entityName t
                    = if Kuzu.name_in tagNames t then []
                      else Kuzu.match_ENTITY_TAGGED_WITH d entityName t).
Proof.
  intros n ts d r. exact (removeTagsFromEntity_loop n ts [] d r).
Qed.

(** X5.  On a connection without engine failures [removeTagsFromEntity],
    given an entity name and tag names without a backslash, returns, each
    once, exactly the listed tag names that were linked to the entity;
    afterwards no listed tag is linked to the entity, and the entity's
    links to other tags are as before. *)
Theorem removeTagsFromEntity_reports_removed_links :
  forall entityName tagNames d r,
    Text.plain entityName = true ->
    forallb Text.plain tagNames = true ->
    exists removed d',
      removeTagsFromEntity entityName tagNames (quiet d r) = (inr removed, quiet d' r)
      /\ NoDup removed
      /\ (forall t, In t removed <->
                    In t tagNames
                    /\ Kuzu.match_ENTITY_TAGGED_WITH d entityName t <> [])
      /\ (forall t, Kuzu.match_ENTITY_TAGGED_WITH d' entityName t
                    = if Kuzu.name_in tagNames t then []
                      else Kuzu.match_ENTITY_TAGGED_WITH d entityName t).
Proof.
  intros n ts d r Hn Hts. rewrite (removeTagsFromEntity_on_plain_text n ts Hn Hts).
  apply Plain_removeTagsFromEntity_reports.
Qed.

Lemma removeTagsFromEntity_reports_removed_links_witness :
  exists removed d',
    removeTagsFromEntity "John_Smith" ["vip"; "other"; "vip"] (quiet Sample.John_tagged 0)
    = (inr removed, quiet d' 0)
    /\ NoDup removed
    /\ (forall t, In t removed <->
                  In t ["vip"; "other"; "vip"]
                  /\ Kuzu.match_ENTITY_TAGGED_WITH Sample.John_tagged "John_Smith" t <> [])
    /\ (forall t, Kuzu.match_ENTITY_TAGGED_WITH d' "John_Smith" t
                  = if Kuzu.name_in ["vip"; "other"; "vip"] t then []
                    else Kuzu.match_ENTITY_TAGGED_WITH Sample.John_tagged "John_Smith" t).
Proof.
  apply (removeTagsFromEntity_reports_removed_links "John_Smith" ["vip"; "other"; "vip"]
           Sample.John_tagged 0); reflexivity.
Defined.

(** *** Deleting entities and observations *)

Section Detached.

Variables (d : Kuzu.Database) (x : string).

Let d1 : Kuzu.Database :=
  match Kuzu.match_Entity d x with
  | [] => d
  | _ :: _ => Kuzu.detach_Entity x d
  end.

Lemma detached_Entity_table :
  Kuzu.nodes_Entity d1 = filter (fun e => negb (Kuzu.e_name e =? x)) (Kuzu.nodes_Entity d).
Proof.
  subst d1. destruct (Kuzu.match_Entity d x) eqn:E; [| reflexivity].
  symmetry. apply filter_all. intros e He.
  apply negb_true_iff, String.eqb_neq. intros Hx.
  apply (match_Entity_nil d x E). rewrite <- Hx. apply in_map, He.
Qed.

Lemma detached_RELATED_TO_table :
  integrity d ->
  Kuzu.rels_RELATED_TO d1
  = filter (fun r => negb (from r =? x) && negb (to r =? x)) (Kuzu.rels_RELATED_TO d).
Proof.
  intros Hd. subst d1. destruct (Kuzu.match_Entity d x) eqn:E; [| reflexivity].
  symmetry. apply filter_all. intros r Hr.
  destruct (ends_RELATED_TO d Hd r Hr) as [Hf Ht].
  apply match_Entity_nil in E.
  apply andb_true_intro; split; apply negb_true_iff, String.eqb_neq;
    intros Hx; apply E; rewrite <- Hx; assumption.
Qed.

Lemma detached_integrity : integrity d -> integrity d1.
Proof.
  intros Hd. subst d1.
  destruct (Kuzu.match_Entity d x); [exact Hd | apply detach_Entity_integrity, Hd].
Qed.

Lemma detached_Tag_table : Kuzu.nodes_Tag d1 = Kuzu.nodes_Tag d.
Proof. subst d1. destruct (Kuzu.match_Entity d x); reflexivity. Qed.

End Detached.

(** The operation on values, on a connection without engine failures. *)
Lemma Plain_deleteEntities_removes :
  forall entityNames d r,
    integrity d ->
    exists d' r',
      Plain.deleteEntities entityNames (quiet d r) = (inr tt, quiet d' r')
      /\ Kuzu.nodes_Entity d'
         = filter (fun e => negb (Kuzu.name_in entityNames (Kuzu.e_name e)))
                  (Kuzu.nodes_Entity d)
      /\ Kuzu.rels_RELATED_TO d'
         = filter (fun x => negb (Kuzu.name_in entityNames (from x))
                            && negb (Kuzu.name_in entityNames (to x)))
                  (Kuzu.rels_RELATED_TO d)
      /\ Kuzu.nodes_Tag d' = Kuzu.nodes_Tag d.
Proof.
  induction entityNames as [| x names IH]; intros d r Hd.
  - exists d, r. split; [reflexivity |].
    cbn [Kuzu.name_in existsb negb andb]. rewrite !filter_true. auto.
  - set (d1 := match Kuzu.match_Entity d x with
               | [] => d
               | _ :: _ => Kuzu.detach_Entity x d
               end).
    assert (H1 : integrity d1) by (apply detached_integrity, Hd).
    assert (Hturn : exists d2 r2,
              try_catch (query (Kuzu.detach_delete_Entity x) ;;
                         query Kuzu.delete_orphan_Observations)
                        (fun _ => ret tt) (quiet d r) = (inr tt, quiet d2 r2)
              /\ integrity d2
              /\ Kuzu.nodes_Entity d2 = Kuzu.nodes_Entity d1
              /\ Kuzu.rels_RELATED_TO d2 = Kuzu.rels_RELATED_TO d1
              /\ Kuzu.nodes_Tag d2 = Kuzu.nodes_Tag d1).
    { assert (Hk : keeps integrity
                     (try_catch (query (Kuzu.detach_delete_Entity x) ;;
                                 query Kuzu.delete_orphan_Observations)
                                (fun _ => ret tt))) by keeping.
      specialize (Hk (quiet d r) Hd).
      destruct (deleteEntities_turn_quiet x d r) as [H | H]; fold d1 in H;
        rewrite H in Hk; eexists _, _;
        (split; [exact H | split; [exact Hk | repeat split]]). }
    destruct Hturn as (d2 & r2 & Hturn & H2 & E2 & R2 & T2).
    destruct (IH d2 r2 H2) as (d' & r' & Hrun & E & R & T).
    exists d', r'. split; [| split; [| split]].
    + unfold Plain.deleteEntities. rewrite for_each_cons.
      rewrite (bind_inr _ _ _ _ _ Hturn). exact Hrun.
    + pose proof (detached_Entity_table d x) as HT. cbv zeta in HT.
      rewrite E, E2. subst d1. rewrite HT, filter_filter.
      apply filter_ext. intros e. cbn [Kuzu.name_in existsb].
      rewrite negb_orb. reflexivity.
    + pose proof (detached_RELATED_TO_table d x Hd) as HT. cbv zeta in HT.
      rewrite R, R2. subst d1. rewrite HT, filter_filter.
      apply filter_ext. intros y. unfold Kuzu.name_in. cbn [existsb].
      rewrite !negb_orb.
      destruct (from y =? x), (to y =? x),
        (existsb (String.eqb (from y)) names), (existsb (String.eqb (to y)) names);
        reflexivity.
    + rewrite T, T2. subst d1. apply (detached_Tag_table d x).
Qed.

(** X6.  Cascading delete of a batch.  In a database with integrity, on a
    connection without engine failures, [deleteEntities], given names
    without a backslash, raises no error and leaves exactly the entities
    whose name is not listed and exactly the relations neither endpoint of
    which is listed; it deletes no tag. *)
Theorem deleteEntities_removes_listed :
  forall entityNames d r,
    forallb Text.plain entityNames = true ->
    integrity d ->
    exists d' r',
      deleteEntities entityNames (quiet d r) = (inr tt, quiet d' r')
      /\ Kuzu.nodes_Entity d'
         = filter (fun e => negb (Kuzu.name_in entityNames (Kuzu.e_name e)))
                  (Kuzu.nodes_Entity d)
      /\ Kuzu.rels_RELATED_TO d'
         = filter (fun x => negb (Kuzu.name_in entityNames (from x))
                            && negb (Kuzu.name_in entityNames (to x)))
                  (Kuzu.rels_RELATED_TO d)
      /\ Kuzu.nodes_Tag d' = Kuzu.nodes_Tag d.
Proof.
  intros names d r Hnames Hd. rewrite (deleteEntities_on_plain_text names Hnames).
  apply Plain_deleteEntities_removes, Hd.
Qed.

Lemma deleteEntities_removes_listed_witness :
  exists d' r',
    deleteEntities ["Anthropic"; "Nobody"] (quiet Sample.John_at_Anthropic 0)
    = (inr tt, quiet d' r')
    /\ Kuzu.nodes_Entity d'
       = [ {| Kuzu.e_name := "John_Smith"; Kuzu.e_entityType := "person" |} ]
    /\ Kuzu.rels_RELATED_TO d' = []
    /\ Kuzu.nodes_Tag d' = [].
Proof.
  exact (deleteEntities_removes_listed ["Anthropic"; "Nobody"] Sample.John_at_Anthropic 0
           eq_refl John_at_Anthropic_integrity).
Defined.

Lemma linked_Observations_intro d n o :
  In o (Kuzu.nodes_Observation d) ->
  In (n, Kuzu.o_id o) (Kuzu.rels_HAS_OBSERVATION d) ->
  In o (Kuzu.linked_Observations d n).
Proof.
  intros Ho Hl. unfold Kuzu.linked_Observations. apply in_flat_map.
  exists (n, Kuzu.o_id o). split; [exact Hl |]. cbn [fst snd].
  rewrite String.eqb_refl. apply filter_In. split; [exact Ho | apply Nat.eqb_refl].
Qed.

Lemma match_owned_In d n c o :
  In o (Kuzu.match_owned d n c) <->
  In o (Kuzu.nodes_Observation d)
  /\ In (n, Kuzu.o_id o) (Kuzu.rels_HAS_OBSERVATION d)
  /\ Kuzu.o_content o = c.
Proof.
  unfold Kuzu.match_owned. rewrite filter_In. split.
  - intros [H E]. apply linked_Observations_In in H as [Ho Hl].
    apply String.eqb_eq in E. auto.
  - intros (Ho & Hl & E). split; [apply linked_Observations_intro; assumption |].
    apply String.eqb_eq, E.
Qed.

Lemma shrinks_refl d : shrinks d d.
Proof. split; [reflexivity | split; apply incl_refl]. Qed.

Lemma shrinks_trans d1 d2 d3 : shrinks d1 d2 -> shrinks d2 d3 -> shrinks d1 d3.
Proof.
  intros (E1 & O1 & L1) (E2 & O2 & L2). split; [congruence |].
  split; eapply incl_tran; eauto.
Qed.

Lemma shrinks_match_owned d d' n c :
  shrinks d d' -> Kuzu.match_owned d n c = [] -> Kuzu.match_owned d' n c = [].
Proof.
  intros (_ & HO & HL) H.
  destruct (Kuzu.match_owned d' n c) as [| o l] eqn:E; [reflexivity | exfalso].
  assert (In o (Kuzu.match_owned d' n c)) as Hin by (rewrite E; left; reflexivity).
  apply match_owned_In in Hin as (Ho & Hl & Hc).
  assert (In o (Kuzu.match_owned d n c)) as Habs
    by (apply match_owned_In; auto).
  rewrite H in Habs. exact Habs.
Qed.







(** *** Adding observations *)

Lemma addObservations_content_quiet n acc c d r :
  try_catch
    (k <- query (Kuzu.count_owned n c) ;;
     if (k =? 0)%nat then
       query (Kuzu.create_Observation c) ;;
       query (Kuzu.link_HAS_OBSERVATION_unless_linked n c) ;;
       ret (acc ++ [c])
     else ret acc)
    (fun _ => ret acc) (quiet d r)
  = match Kuzu.match_owned d n c with
    | [] => (inr (acc ++ [c]),
             quiet (after (Kuzu.link_HAS_OBSERVATION_unless_linked n c)
                          (after (Kuzu.create_Observation c) d)) r)
    | _ :: _ => (inr acc, quiet d r)
    end.
Proof.
  unfold try_catch. unfold Kuzu.count_owned. rewrite step_reading.
  destruct (Kuzu.match_owned d n c); reflexivity.
Qed.

Lemma added_Observation_shrinks n c d :
  shrinks (after (Kuzu.link_HAS_OBSERVATION_unless_linked n c)
                 (after (Kuzu.create_Observation c) d)) d.
Proof.
  split; [reflexivity | split]; cbn - [In]; apply incl_appl, incl_refl.
Qed.

Lemma added_Observation_owned n c d :
  Kuzu.match_Entity d n <> [] ->
  Kuzu.match_owned (after (Kuzu.link_HAS_OBSERVATION_unless_linked n c)
                          (after (Kuzu.create_Observation c) d)) n c <> [].
Proof.
  intros He.
  set (o := {| Kuzu.o_id := Kuzu.serial d; Kuzu.o_content := c |}).
  set (d1 := after (Kuzu.create_Observation c) d).
  set (d2 := after (Kuzu.link_HAS_OBSERVATION_unless_linked n c) d1).
  assert (Ho : In o (Kuzu.nodes_Observation d2))
    by (cbn - [In]; apply in_or_app; right; left; reflexivity).
  assert (Hm : In o (Kuzu.match_Observation d1 c)).
  { apply filter_In. split; [exact Ho | apply String.eqb_refl]. }
  destruct (Kuzu.match_Entity d n) as [| e l] eqn:E; [congruence |].
  assert (Hn : Kuzu.e_name e = n).
  { apply (match_Entity_name d n e). rewrite E. left; reflexivity. }
  assert (Hl : In (n, Kuzu.o_id o) (Kuzu.rels_HAS_OBSERVATION d2)).
  { assert (Hrels : Kuzu.rels_HAS_OBSERVATION d2
                    = Kuzu.rels_HAS_OBSERVATION d
                      ++ flat_map
                           (fun e0 => map (fun o0 => (Kuzu.e_name e0, Kuzu.o_id o0))
                              (filter (fun o0 =>
                                         negb (existsb
                                                 (fun k => (fst k =? Kuzu.e_name e0)
                                                           && (snd k =? Kuzu.o_id o0)%nat)
                                                 (Kuzu.rels_HAS_OBSERVATION d)))
                                      (Kuzu.match_Observation d1 c)))
                           (Kuzu.match_Entity d n)) by reflexivity.
    rewrite Hrels. apply in_or_app.
    destruct (existsb (fun k => (fst k =? n) && (snd k =? Kuzu.o_id o)%nat)
                      (Kuzu.rels_HAS_OBSERVATION d)) eqn:Ex.
    - left. apply existsb_exists in Ex as ([m i] & Hin & Hk).
      apply andb_true_iff in Hk as [H1 H2]. cbn [fst snd] in H1, H2.
      apply String.eqb_eq in H1. apply Nat.eqb_eq in H2. rewrite <- H1, <- H2. exact Hin.
    - right. apply in_flat_map. exists e. split; [rewrite E; left; reflexivity |].
      rewrite Hn. apply (in_map (fun o0 => (n, Kuzu.o_id o0))).
      apply filter_In. split; [exact Hm |]. rewrite Ex. reflexivity. }
  intros Habs.
  assert (In o (Kuzu.match_owned d2 n c)) as Hin
    by (apply match_owned_In; repeat split; assumption).
  rewrite Habs in Hin. exact Hin.
Qed.

Lemma addObservations_contents_loop n cs :
  forall acc d r,
    Kuzu.match_Entity d n <> [] ->
    exists added d',
      for_of cs (fun addedObservations content =>
        try_catch
          (k <- query (Kuzu.count_owned n content) ;;
           if (k =? 0)%nat then
             query (Kuzu.create_Observation content) ;;
             query (Kuzu.link_HAS_OBSERVATION_unless_linked n content) ;;
             ret (addedObservations ++ [content])
           else ret addedObservations)
          (fun _ => ret addedObservations))
        acc (quiet d r)
      = (inr (acc ++ added), quiet d' r)
      /\ shrinks d' d
      /\ (forall c, In c added -> In c cs /\ Kuzu.match_owned d n c = [])
      /\ (forall c, In c cs -> Kuzu.match_owned d' n c <> []).
Proof.
  induction cs as [| c cs IH]; intros acc d r He; simpl for_of.
  - exists [], d. rewrite app_nil_r. split; [reflexivity |].
    split; [apply shrinks_refl |]. split; intros c [].
  - pose proof (addObservations_content_quiet n acc c d r) as Hturn.
    destruct (Kuzu.match_owned d n c) as [| o l] eqn:E;
      rewrite (bind_inr _ _ _ _ _ Hturn); clear Hturn.
    + set (d1 := after _ (after _ d)).
      assert (S1 : shrinks d1 d) by apply added_Observation_shrinks.
      assert (O1 : Kuzu.match_owned d1 n c <> []) by (apply added_Observation_owned, He).
      destruct (IH (acc ++ [c]) d1 r) as (added & d' & Hrun & S & Hadd & Hown).
      { destruct S1 as (E1 & _). unfold Kuzu.match_Entity. rewrite <- E1. exact He. }
      exists (c :: added), d'. split; [rewrite Hrun, <- app_assoc; reflexivity |].
      split; [eapply shrinks_trans; eauto |]. split.
      * intros x [<- | Hx]; [split; [left; reflexivity | exact E] |].
        destruct (Hadd x Hx) as [H1 H2]. split; [right; exact H1 |].
        destruct (Kuzu.match_owned d n x) eqn:Ex; [reflexivity | exfalso].
        assert (Kuzu.match_owned d n x = []) as Habs
          by (eapply shrinks_match_owned; [exact S1 | exact H2]).
        congruence.
      * intros x [<- | Hx]; [| apply Hown, Hx].
        intros Habs. apply O1. eapply shrinks_match_owned; [exact S | exact Habs].
    + destruct (IH acc d r He) as (added & d' & Hrun & S & Hadd & Hown).
      exists added, d'. split; [exact Hrun |]. split; [exact S |]. split.
      * intros x Hx. destruct (Hadd x Hx). split; [right |]; assumption.
      * intros x [<- | Hx]; [| apply Hown, Hx].
        intros Habs.
        assert (Kuzu.match_owned d n c = []) as H0
          by (eapply shrinks_match_owned; [exact S | exact Habs]).
        congruence.
Qed.

Lemma addObservations_contents_owned n cs :
  forall acc d r,
    (forall c, In c cs -> Kuzu.match_owned d n c <> []) ->
    for_of cs (fun addedObservations content =>
      try_catch
        (k <- query (Kuzu.count_owned n content) ;;
         if (k =? 0)%nat then
           query (Kuzu.create_Observation content) ;;
           query (Kuzu.link_HAS_OBSERVATION_unless_linked n content) ;;
           ret (addedObservations ++ [content])
         else ret addedObservations)
        (fun _ => ret addedObservations))
      acc (quiet d r)
    = (inr acc, quiet d r).
Proof.
  induction cs as [| c cs IH]; intros acc d r Hown; simpl for_of; [reflexivity |].
  pose proof (addObservations_content_quiet n acc c d r) as Hturn.
  destruct (Kuzu.match_owned d n c) eqn:E.
  - exfalso. apply (Hown c); [left; reflexivity | exact E].
  - rewrite (bind_inr _ _ _ _ _ Hturn). apply IH. intros x Hx. apply Hown. right; exact Hx.
Qed.

Lemma addObservations_one_quiet n cs d r added d' :
  Kuzu.match_Entity d n <> [] ->
  Plain.addObservations_contents n cs (quiet d r) = (inr added, quiet d' r) ->
  Plain.addObservations [ {| Addition.entityName := n; Addition.contents := cs |} ] (quiet d r)
  = (inr [ {| Added.entityName := n; Added.addedObservations := added |} ], quiet d' r).
Proof.
  intros He Hrun. unfold Plain.addObservations; simpl for_of. unfold bind at 1.
  unfold Plain.addObservations_entry. rewrite rethrow_id.
  cbn [Addition.entityName Addition.contents]. step.
  destruct (Kuzu.match_Entity d n); [congruence |]. cbn [List.length Nat.eqb]. step.
  rewrite (bind_inr _ _ _ _ _ Hrun). reflexivity.
Qed.

(** The operation on values, on a connection without engine failures. *)
Lemma Plain_addObservations_owned :
  forall d r entityName contents,
    Kuzu.match_Entity d entityName <> [] ->
    exists added d',
      Plain.addObservations
        [ {| Addition.entityName := entityName; Addition.contents := contents |} ]
        (quiet d r)
      = (inr [ {| Added.entityName := entityName; Added.addedObservations := added |} ],
         quiet d' r)
      /\ (forall c, In c added ->
                    In c contents /\ Kuzu.match_owned d entityName c = [])
      /\ (forall c, In c contents -> Kuzu.match_owned d' entityName c <> [])
      /\ Plain.addObservations
           [ {| Addition.entityName := entityName; Addition.contents := contents |} ]
           (quiet d' r)
         = (inr [ {| Added.entityName := entityName; Added.addedObservations := [] |} ],
            quiet d' r).
Proof.
  intros d r n cs He.
  destruct (addObservations_contents_loop n cs [] d r He)
    as (added & d' & Hrun & (E & _) & Hadd & Hown).
  assert (He' : Kuzu.match_Entity d' n <> [])
    by (unfold Kuzu.match_Entity in *; congruence).
  exists added, d'. split; [| split; [exact Hadd | split; [exact Hown |]]].
  - apply addObservations_one_quiet; [exact He | exact Hrun].
  - apply addObservations_one_quiet; [exact He' |].
    apply addObservations_contents_owned, Hown.
Qed.

(** X8.  Adding observations to an existing entity, on a connection without
    engine failures, the name and the contents holding no backslash: the
    call reports only contents the entity did not own yet; afterwards the
    entity owns an observation for every listed content; and the same call
    made again reports nothing and leaves the database as it is. *)
Theorem addObservations_then_owned :
  forall d r entityName contents,
    Text.plain entityName = true ->
    forallb Text.plain contents = true ->
    Kuzu.match_Entity d entityName <> [] ->
    exists added d',
      addObservations
        [ {| Addition.entityName := entityName; Addition.contents := contents |} ]
        (quiet d r)
      = (inr [ {| Added.entityName := entityName; Added.addedObservations := added |} ],
         quiet d' r)
      /\ (forall c, In c added ->
                    In c contents /\ Kuzu.match_owned d entityName c = [])
      /\ (forall c, In c contents -> Kuzu.match_owned d' entityName c <> [])
      /\ addObservations
           [ {| Addition.entityName := entityName; Addition.contents := contents |} ]
           (quiet d' r)
         = (inr [ {| Added.entityName := entityName; Added.addedObservations := [] |} ],
            quiet d' r).
Proof.
  intros d r n cs Hn Hcs He.
  assert (Hplain : forallb plain_Addition
                     [ {| Addition.entityName := n; Addition.contents := cs |} ] = true).
  { cbn [forallb]. unfold plain_Addition. cbn [Addition.entityName Addition.contents].
    rewrite Hn, Hcs. reflexivity. }
  rewrite !(addObservations_on_plain_text _ Hplain).
  destruct (Plain_addObservations_owned d r n cs He)
    as (added & d' & H1 & H2 & H3 & H4).
  exists added, d'. rewrite !(addObservations_on_plain_text _ Hplain). auto.
Qed.

Lemma addObservations_then_owned_witness :
  exists added d',
    addObservations
      [ {| Addition.entityName := "John_Smith";
           Addition.contents := ["Speaks fluent Spanish"; "Graduated in 2019"] |} ]
      (quiet Sample.John_alone 0)
    = (inr [ {| Added.entityName := "John_Smith"; Added.addedObservations := added |} ],
       quiet d' 0)
    /\ (forall c, In c added ->
                  In c ["Speaks fluent Spanish"; "Graduated in 2019"]
                  /\ Kuzu.match_owned Sample.John_alone "John_Smith" c = [])
    /\ (forall c, In c ["Speaks fluent Spanish"; "Graduated in 2019"] ->
                  Kuzu.match_owned d' "John_Smith" c <> [])
    /\ addObservations
         [ {| Addition.entityName := "John_Smith";
              Addition.contents := ["Speaks fluent Spanish"; "Graduated in 2019"] |} ]
         (quiet d' 0)
       = (inr [ {| Added.entityName := "John_Smith"; Added.addedObservations := [] |} ],
          quiet d' 0).
Proof.
  apply (addObservations_then_owned Sample.John_alone 0 "John_Smith"
           ["Speaks fluent Spanish"; "Graduated in 2019"]);
    [reflexivity | reflexivity | discriminate].
Defined.

(** *** Tagging an entity *)

Lemma widens_refl d : widens d d.
Proof. split; [reflexivity | split; apply incl_refl]. Qed.

Lemma widens_trans d1 d2 d3 : widens d1 d2 -> widens d2 d3 -> widens d1 d3.
Proof.
  intros (E1 & T1 & L1) (E2 & T2 & L2). split; [congruence |].
  split; eapply incl_tran; eauto.
Qed.

Lemma filter_incl_nonempty {X} (f : X -> bool) (l l' : list X) :
  incl l l' -> filter f l <> [] -> filter f l' <> [].
Proof.
  intros Hincl H. destruct (filter f l) as [| x xs] eqn:E; [congruence |].
  assert (In x (filter f l)) as Hx by (rewrite E; left; reflexivity).
  apply filter_In in Hx as [Hx Hf]. intros Habs.
  assert (In x (filter f l')) as Hin by (apply filter_In; split; [apply Hincl, Hx | exact Hf]).
  rewrite Habs in Hin. exact Hin.
Qed.

Lemma widens_match_Tag d d' t :
  widens d d' -> Kuzu.match_Tag d t <> [] -> Kuzu.match_Tag d' t <> [].
Proof. intros (_ & HT & _). apply filter_incl_nonempty, HT. Qed.

Lemma widens_match_ENTITY_TAGGED_WITH d d' n t :
  widens d d' ->
  Kuzu.match_ENTITY_TAGGED_WITH d n t <> [] -> Kuzu.match_ENTITY_TAGGED_WITH d' n t <> [].
Proof. intros (_ & _ & HL). apply filter_incl_nonempty, HL. Qed.

(** Create-if-absent of a tag. *)
Lemma ensured_Tag d t :
  let d1 := match Kuzu.match_Tag d t with
            | [] => after (Kuzu.create_Tag t "" "") d
            | _ :: _ => d
            end in
  widens d d1 /\ Kuzu.match_Tag d1 t <> []
  /\ (Kuzu.match_Tag d t <> [] -> d1 = d).
Proof.
  intros d1. subst d1. destruct (Kuzu.match_Tag d t) as [| u l] eqn:E.
  - unfold after, Kuzu.create_Tag. rewrite E. split; [| split; [| congruence]].
    + split; [reflexivity | split; [apply incl_appl, incl_refl | apply incl_refl]].
    + unfold Kuzu.match_Tag. cbn [Kuzu.on_Tag Kuzu.nodes_Tag]. rewrite filter_app.
      cbn [filter Kuzu.t_name]. rewrite String.eqb_refl.
      intros H. apply app_eq_nil in H as [_ H]. discriminate.
  - split; [apply widens_refl |]. split; [rewrite E; discriminate | reflexivity].
Qed.

Lemma tagEntity_tag_quiet n acc t d r :
  let d1 := match Kuzu.match_Tag d t with
            | [] => after (Kuzu.create_Tag t "" "") d
            | _ :: _ => d
            end in
  try_catch
    (k <- query (Kuzu.count_Tag t) ;;
     (if (k =? 0)%nat then query (Kuzu.create_Tag t "" "") else ret tt) ;;
     j <- query (Kuzu.count_ENTITY_TAGGED_WITH n t) ;;
     if (j =? 0)%nat then
       query (Kuzu.link_ENTITY_TAGGED_WITH n t) ;;
       ret (acc ++ [t])
     else ret acc)
    (fun _ => ret acc) (quiet d r)
  = match Kuzu.match_ENTITY_TAGGED_WITH d1 n t with
    | [] => (inr (acc ++ [t]), quiet (after (Kuzu.link_ENTITY_TAGGED_WITH n t) d1) r)
    | _ :: _ => (inr acc, quiet d1 r)
    end.
Proof.
  intros d1. subst d1. unfold try_catch. step.
  destruct (Kuzu.match_Tag d t) as [| u l] eqn:E; cbn [List.length Nat.eqb].
  - assert (Hafter : after (Kuzu.create_Tag t "" "") d
                     = Kuzu.on_Tag (fun l => l ++
                         [ {| Kuzu.t_name := t; Kuzu.t_category := "";
                              Kuzu.t_description := "" |} ]) d)
      by (unfold after, Kuzu.create_Tag; rewrite E; reflexivity).
    rewrite Hafter, step_create_Tag by exact E. step.
    destruct (Kuzu.match_ENTITY_TAGGED_WITH _ n t); reflexivity.
  - step. destruct (Kuzu.match_ENTITY_TAGGED_WITH d n t); reflexivity.
Qed.

Lemma linked_ENTITY_TAGGED_WITH d n t :
  Kuzu.match_Entity d n <> [] -> Kuzu.match_Tag d t <> [] ->
  widens d (after (Kuzu.link_ENTITY_TAGGED_WITH n t) d)
  /\ Kuzu.match_ENTITY_TAGGED_WITH (after (Kuzu.link_ENTITY_TAGGED_WITH n t) d) n t <> [].
Proof.
  intros He Ht. split.
  - split; [reflexivity | split; [apply incl_refl | cbn - [In]; apply incl_appl, incl_refl]].
  - destruct (Kuzu.match_Entity d n) as [| e le] eqn:E; [congruence |].
    destruct (Kuzu.match_Tag d t) as [| u lu] eqn:U; [congruence |].
    assert (Hn : Kuzu.e_name e = n)
      by (apply (match_Entity_name d n e); rewrite E; left; reflexivity).
    assert (Hu : Kuzu.t_name u = t).
    { assert (In u (Kuzu.match_Tag d t)) as H by (rewrite U; left; reflexivity).
      apply filter_In in H as [_ H]. apply String.eqb_eq, H. }
    assert (Hin : In (n, t) (Kuzu.rels_ENTITY_TAGGED_WITH
                               (after (Kuzu.link_ENTITY_TAGGED_WITH n t) d))).
    { assert (Hrels : Kuzu.rels_ENTITY_TAGGED_WITH
                        (after (Kuzu.link_ENTITY_TAGGED_WITH n t) d)
                      = Kuzu.rels_ENTITY_TAGGED_WITH d
                        ++ flat_map (fun e0 => map (fun t0 => (Kuzu.e_name e0, Kuzu.t_name t0))
                                                   (Kuzu.match_Tag d t))
                                    (Kuzu.match_Entity d n)) by reflexivity.
      rewrite Hrels, E, U. apply in_or_app. right. cbn [flat_map map].
      rewrite Hn, Hu. left; reflexivity. }
    intros Habs.
    assert (In (n, t) (Kuzu.match_ENTITY_TAGGED_WITH
                         (after (Kuzu.link_ENTITY_TAGGED_WITH n t) d) n t)) as H.
    { apply filter_In. split; [exact Hin |]. cbn [fst snd].
      rewrite !String.eqb_refl. reflexivity. }
    rewrite Habs in H. exact H.
Qed.

Lemma tagEntity_loop n ts :
  forall acc d r,
    Kuzu.match_Entity d n <> [] ->
    exists added d',
      for_of ts (fun addedTags tagName =>
        try_catch
          (k <- query (Kuzu.count_Tag tagName) ;;
           (if (k =? 0)%nat then query (Kuzu.create_Tag tagName "" "") else ret tt) ;;
           j <- query (Kuzu.count_ENTITY_TAGGED_WITH n tagName) ;;
           if (j =? 0)%nat then
             query (Kuzu.link_ENTITY_TAGGED_WITH n tagName) ;;
             ret (addedTags ++ [tagName])
           else ret addedTags)
          (fun _ => ret addedTags))
        acc (quiet d r)
      = (inr (acc ++ added), quiet d' r)
      /\ widens d d'
      /\ (forall t, In t added ->
                    In t ts /\ Kuzu.match_ENTITY_TAGGED_WITH d n t = [])
      /\ (forall t, In t ts ->
                    Kuzu.match_Tag d' t <> []
                    /\ Kuzu.match_ENTITY_TAGGED_WITH d' n t <> []).
Proof.
  induction ts as [| t ts IH]; intros acc d r He; simpl for_of.
  - exists [], d. rewrite app_nil_r. split; [reflexivity |].
    split; [apply widens_refl |]. split; intros t [].
  - pose proof (tagEntity_tag_quiet n acc t d r) as Hturn. cbv zeta in Hturn.
    destruct (ensured_Tag d t) as (W1 & T1 & _).
    set (d1 := match Kuzu.match_Tag d t with
               | [] => after (Kuzu.create_Tag t "" "") d
               | _ :: _ => d
               end) in *.
    assert (He1 : Kuzu.match_Entity d1 n <> []).
    { destruct W1 as (E1 & _). unfold Kuzu.match_Entity. rewrite E1. exact He. }
    destruct (Kuzu.match_ENTITY_TAGGED_WITH d1 n t) as [| l ls] eqn:EL;
      rewrite (bind_inr _ _ _ _ _ Hturn); clear Hturn.
    + destruct (linked_ENTITY_TAGGED_WITH d1 n t He1 T1) as (W2 & L2).
      set (d2 := after (Kuzu.link_ENTITY_TAGGED_WITH n t) d1) in *.
      assert (He2 : Kuzu.match_Entity d2 n <> []).
      { destruct W2 as (E2 & _). unfold Kuzu.match_Entity. rewrite E2. exact He1. }
      destruct (IH (acc ++ [t]) d2 r He2) as (added & d' & Hrun & W & Hadd & Hall).
      exists (t :: added), d'. split; [rewrite Hrun, <- app_assoc; reflexivity |].
      split; [eapply widens_trans; [exact W1 | eapply widens_trans; eauto] |]. split.
      * intros x [<- | Hx].
        -- split; [left; reflexivity |].
           destruct (Kuzu.match_ENTITY_TAGGED_WITH d n t) eqn:E0; [reflexivity | exfalso].
           apply (widens_match_ENTITY_TAGGED_WITH d d1 n t W1); [rewrite E0; discriminate |].
           exact EL.
        -- destruct (Hadd x Hx) as [H1 H2]. split; [right; exact H1 |].
           destruct (Kuzu.match_ENTITY_TAGGED_WITH d n x) eqn:E0; [reflexivity | exfalso].
           apply (widens_match_ENTITY_TAGGED_WITH d d2 n x
                    (widens_trans _ _ _ W1 W2)); [rewrite E0; discriminate | exact H2].
      * intros x [<- | Hx]; [| apply Hall, Hx]. split.
        -- eapply widens_match_Tag; [exact W |].
           eapply widens_match_Tag; [exact W2 | exact T1].
        -- eapply widens_match_ENTITY_TAGGED_WITH; [exact W | exact L2].
    + destruct (IH acc d1 r He1) as (added & d' & Hrun & W & Hadd & Hall).
      exists added, d'. split; [exact Hrun |].
      split; [eapply widens_trans; eauto |]. split.
      * intros x Hx. destruct (Hadd x Hx) as [H1 H2]. split; [right; exact H1 |].
        destruct (Kuzu.match_ENTITY_TAGGED_WITH d n x) eqn:E0; [reflexivity | exfalso].
        apply (widens_match_ENTITY_TAGGED_WITH d d1 n x W1);
          [rewrite E0; discriminate | exact H2].
      * intros x [<- | Hx]; [| apply Hall, Hx]. split.
        -- eapply widens_match_Tag; [exact W | exact T1].
        -- eapply widens_match_ENTITY_TAGGED_WITH; [exact W |]. rewrite EL. discriminate.
Qed.

Lemma tagEntity_loop_linked n ts :
  forall acc d r,
    (forall t, In t ts ->
               Kuzu.match_Tag d t <> [] /\ Kuzu.match_ENTITY_TAGGED_WITH d n t <> []) ->
    for_of ts (fun addedTags tagName =>
      try_catch
        (k <- query (Kuzu.count_Tag tagName) ;;
         (if (k =? 0)%nat then query (Kuzu.create_Tag tagName "" "") else ret tt) ;;
         j <- query (Kuzu.count_ENTITY_TAGGED_WITH n tagName) ;;
         if (j =? 0)%nat then
           query (Kuzu.link_ENTITY_TAGGED_WITH n tagName) ;;
           ret (addedTags ++ [tagName])
         else ret addedTags)
        (fun _ => ret addedTags))
      acc (quiet d r)
    = (inr acc, quiet d r).
Proof.
  induction ts as [| t ts IH]; intros acc d r Hall; simpl for_of; [reflexivity |].
  pose proof (tagEntity_tag_quiet n acc t d r) as Hturn. cbv zeta in Hturn.
  destruct (Hall t (or_introl eq_refl)) as [Ht Hl].
  destruct (Kuzu.match_Tag d t) eqn:ET; [congruence |].
  destruct (Kuzu.match_ENTITY_TAGGED_WITH d n t) eqn:EL; [congruence |].
  rewrite (bind_inr _ _ _ _ _ Hturn). apply IH.
  intros x Hx. apply Hall. right; exact Hx.
Qed.

Lemma tagEntity_quiet n ts d r added d' :
  Kuzu.match_Entity d n <> [] ->
  for_of ts (fun addedTags tagName =>
    try_catch
      (k <- query (Kuzu.count_Tag tagName) ;;
       (if (k =? 0)%nat then query (Kuzu.create_Tag tagName "" "") else ret tt) ;;
       j <- query (Kuzu.count_ENTITY_TAGGED_WITH n tagName) ;;
       if (j =? 0)%nat then
         query (Kuzu.link_ENTITY_TAGGED_WITH n tagName) ;;
         ret (addedTags ++ [tagName])
       else ret addedTags)
      (fun _ => ret addedTags))
    [] (quiet d r) = (inr added, quiet d' r) ->
  Plain.tagEntity n ts (quiet d r) = (inr added, quiet d' r).
Proof.
  intros He Hrun. unfold Plain.tagEntity. rewrite rethrow_id.
  unfold Kuzu.count_Entity at 1. rewrite step_reading.
  destruct (Kuzu.match_Entity d n); [congruence |]. cbn [List.length Nat.eqb].
  rewrite step_ret. exact Hrun.
Qed.

(** The operation on values, on a connection without engine failures. *)
Lemma Plain_tagEntity_linked :
  forall d r entityName tagNames,
    Kuzu.match_Entity d entityName <> [] ->
    exists added d',
      Plain.tagEntity entityName tagNames (quiet d r) = (inr added, quiet d' r)
      /\ (forall t, In t added ->
                    In t tagNames
                    /\ Kuzu.match_ENTITY_TAGGED_WITH d entityName t = [])
      /\ (forall t, In t tagNames ->
                    Kuzu.match_Tag d' t <> []
                    /\ Kuzu.match_ENTITY_TAGGED_WITH d' entityName t <> [])
      /\ Plain.tagEntity entityName tagNames (quiet d' r) = (inr [], quiet d' r).
Proof.
  intros d r n ts He.
  destruct (tagEntity_loop n ts [] d r He) as (added & d' & Hrun & (E & _) & Hadd & Hall).
  assert (He' : Kuzu.match_Entity d' n <> [])
    by (unfold Kuzu.match_Entity in *; congruence).
  exists added, d'. split; [| split; [exact Hadd | split; [exact Hall |]]].
  - apply tagEntity_quiet; assumption.
  - apply tagEntity_quiet; [exact He' |]. apply tagEntity_loop_linked, Hall.
Qed.

(** X9.  Tagging an existing entity, on a connection without engine
    failures, the entity name and the tag names holding no backslash:
    [tagEntity] reports only tags the entity was not linked to; afterwards
    every listed name names a tag and the entity is linked to it; and the
    same call made again reports nothing and leaves the database as it
    is. *)
Theorem tagEntity_then_linked :
  forall d r entityName tagNames,
    Text.plain entityName = true ->
    forallb Text.plain tagNames = true ->
    Kuzu.match_Entity d entityName <> [] ->
    exists added d',
      tagEntity entityName tagNames (quiet d r) = (inr added, quiet d' r)
      /\ (forall t, In t added ->
                    In t tagNames
                    /\ Kuzu.match_ENTITY_TAGGED_WITH d entityName t = [])
      /\ (forall t, In t tagNames ->
                    Kuzu.match_Tag d' t <> []
                    /\ Kuzu.match_ENTITY_TAGGED_WITH d' entityName t <> [])
      /\ tagEntity entityName tagNames (quiet d' r) = (inr [], quiet d' r).
Proof.
  intros d r n ts Hn Hts He.
  destruct (Plain_tagEntity_linked d r n ts He)
    as (added & d' & H1 & H2 & H3 & H4).
  exists added, d'. rewrite !(tagEntity_on_plain_text n ts Hn Hts). auto.
Qed.

Lemma tagEntity_then_linked_witness :
  exists added d',
    tagEntity "John_Smith" ["vip"; "vip"] (quiet Sample.John_alone 0)
    = (inr added, quiet d' 0)
    /\ (forall t, In t added ->
                  In t ["vip"; "vip"]
                  /\ Kuzu.match_ENTITY_TAGGED_WITH Sample.John_alone "John_Smith" t = [])
    /\ (forall t, In t ["vip"; "vip"] ->
                  Kuzu.match_Tag d' t <> []
                  /\ Kuzu.match_ENTITY_TAGGED_WITH d' "John_Smith" t <> [])
    /\ tagEntity "John_Smith" ["vip"; "vip"] (quiet d' 0) = (inr [], quiet d' 0).
Proof.
  apply (tagEntity_then_linked Sample.John_alone 0 "John_Smith" ["vip"; "vip"]);
    [reflexivity | reflexivity | discriminate].
Defined.

(** *** Creating tags *)

Lemma In_insert_by_name t l x :
  In x (Kuzu.insert_by_name t l) <-> x = t \/ In x l.
Proof.
  induction l as [| u l IH]; cbn [Kuzu.insert_by_name].
  - split; [intros [<- | []]; left; reflexivity | intros [-> | []]; left; reflexivity].
  - destruct (String.leb (Kuzu.t_name t) (Kuzu.t_name u)).
    + split; [intros [<- | H]; [left; reflexivity | right; exact H]
             | intros [-> | H]; [left; reflexivity | right; exact H]].
    + cbn [In]. rewrite IH. tauto.
Qed.

Lemma In_order_by_name l x : In x (Kuzu.order_by_name l) <-> In x l.
Proof.
  induction l as [| u l IH]; [reflexivity |].
  unfold Kuzu.order_by_name in *. cbn [fold_right]. rewrite In_insert_by_name, IH.
  cbn [In]. split; intros [H | H]; auto.
Qed.

Lemma on_Tag_append d (l1 l2 : list Kuzu.TagNode) :
  Kuzu.on_Tag (fun l => l ++ l2) (Kuzu.on_Tag (fun l => l ++ l1) d)
  = Kuzu.on_Tag (fun l => l ++ l1 ++ l2) d.
Proof. unfold Kuzu.on_Tag. cbn. rewrite app_assoc. reflexivity. Qed.

Lemma on_Tag_append_nil d : Kuzu.on_Tag (fun l => l ++ []) d = d.
Proof. destruct d. unfold Kuzu.on_Tag. cbn. rewrite app_nil_r. reflexivity. Qed.

Lemma createTags_tag_quiet acc tag d r :
  try_catch
    (n <- query (Kuzu.count_Tag (Tag.name tag)) ;;
     if (n =? 0)%nat then
       query (Kuzu.create_Tag (Tag.name tag)
                (match Tag.category tag with Some c => c | None => "" end)
                (match Tag.description tag with Some c => c | None => "" end)) ;;
       ret (acc ++ [ {| Tag.name := Tag.name tag; Tag.category := Tag.category tag;
                        Tag.description := Tag.description tag |} ])
     else ret acc)
    (fun error => throw error) (quiet d r)
  = match Kuzu.match_Tag d (Tag.name tag) with
    | [] => (inr (acc ++ [tag]), quiet (Kuzu.on_Tag (fun l => l ++ [stored_as tag]) d) r)
    | _ :: _ => (inr acc, quiet d r)
    end.
Proof.
  rewrite rethrow_id. step.
  destruct (Kuzu.match_Tag d (Tag.name tag)) as [| u l] eqn:E; cbn [List.length Nat.eqb].
  - rewrite step_create_Tag by exact E. destruct tag; reflexivity.
  - reflexivity.
Qed.

Lemma createTags_loop tags :
  forall acc d r,
    exists created,
      for_of tags (fun newTags tag =>
        try_catch
          (n <- query (Kuzu.count_Tag (Tag.name tag)) ;;
           if (n =? 0)%nat then
             query (Kuzu.create_Tag (Tag.name tag)
                      (match Tag.category tag with Some c => c | None => "" end)
                      (match Tag.description tag with Some c => c | None => "" end)) ;;
             ret (newTags ++ [ {| Tag.name := Tag.name tag; Tag.category := Tag.category tag;
                                  Tag.description := Tag.description tag |} ])
           else ret newTags)
          (fun error => throw error))
        acc (quiet d r)
      = (inr (acc ++ created),
         quiet (Kuzu.on_Tag (fun l => l ++ map stored_as created) d) r)
      /\ (forall t, In t created -> In t tags /\ Kuzu.match_Tag d (Tag.name t) = [])
      /\ (forall t, In t tags ->
                    Kuzu.match_Tag (Kuzu.on_Tag (fun l => l ++ map stored_as created) d)
                                   (Tag.name t) <> []).
Proof.
  induction tags as [| tag tags IH]; intros acc d r; simpl for_of.
  - exists []. cbn [map]. rewrite app_nil_r, on_Tag_append_nil.
    split; [reflexivity |]. split; intros t [].
  - pose proof (createTags_tag_quiet acc tag d r) as Hturn.
    destruct (Kuzu.match_Tag d (Tag.name tag)) as [| u lu] eqn:E;
      rewrite (bind_inr _ _ _ _ _ Hturn); clear Hturn.
    + destruct (IH (acc ++ [tag]) (Kuzu.on_Tag (fun l => l ++ [stored_as tag]) d) r)
        as (created & Hrun & Hnew & Hall).
      rewrite on_Tag_append in Hrun, Hall.
      exists (tag :: created). cbn [map]. split; [rewrite Hrun, <- app_assoc; reflexivity |].
      split.
      * intros t [<- | Ht]; [split; [left; reflexivity | exact E] |].
        destruct (Hnew t Ht) as [H1 H2]. split; [right; exact H1 |].
        unfold Kuzu.match_Tag in H2 |- *. cbn [Kuzu.on_Tag Kuzu.nodes_Tag] in H2.
        rewrite filter_app in H2. apply app_eq_nil in H2 as [H2 _]. exact H2.
      * intros t [<- | Ht]; [| apply Hall, Ht].
        unfold Kuzu.match_Tag. cbn [Kuzu.on_Tag Kuzu.nodes_Tag]. rewrite filter_app.
        cbn [app filter stored_as Kuzu.t_name]. rewrite String.eqb_refl.
        intros H. apply app_eq_nil in H as [_ H]. discriminate.
    + destruct (IH acc d r) as (created & Hrun & Hnew & Hall).
      exists created. split; [exact Hrun |]. split.
      * intros t Ht. destruct (Hnew t Ht) as [H1 H2]. split; [right; exact H1 | exact H2].
      * intros t [<- | Ht]; [| apply Hall, Ht].
        unfold Kuzu.match_Tag. cbn [Kuzu.on_Tag Kuzu.nodes_Tag]. rewrite filter_app.
        fold (Kuzu.match_Tag d (Tag.name tag)). rewrite E.
        discriminate.
Qed.

Lemma createTags_loop_stored tags :
  forall acc d r,
    (forall t, In t tags -> Kuzu.match_Tag d (Tag.name t) <> []) ->
    for_of tags (fun newTags tag =>
      try_catch
        (n <- query (Kuzu.count_Tag (Tag.name tag)) ;;
         if (n =? 0)%nat then
           query (Kuzu.create_Tag (Tag.name tag)
                    (match Tag.category tag with Some c => c | None => "" end)
                    (match Tag.description tag with Some c => c | None => "" end)) ;;
           ret (newTags ++ [ {| Tag.name := Tag.name tag; Tag.category := Tag.category tag;
                                Tag.description := Tag.description tag |} ])
         else ret newTags)
        (fun error => throw error))
      acc (quiet d r)
    = (inr acc, quiet d r).
Proof.
  induction tags as [| tag tags IH]; intros acc d r Hall; simpl for_of; [reflexivity |].
  pose proof (createTags_tag_quiet acc tag d r) as Hturn.
  pose proof (Hall tag (or_introl eq_refl)) as Ht.
  destruct (Kuzu.match_Tag d (Tag.name tag)) eqn:E; [congruence |].
  rewrite (bind_inr _ _ _ _ _ Hturn). apply IH.
  intros x Hx. apply Hall. right; exact Hx.
Qed.

(** The operation on values, on a connection without engine failures. *)
Lemma Plain_createTags_listed :
  forall d r tags,
    exists created,
      let d' := Kuzu.on_Tag (fun l => l ++ map stored_as created) d in
      Plain.createTags tags (quiet d r) = (inr created, quiet d' r)
      /\ (forall t, In t created -> In t tags /\ Kuzu.match_Tag d (Tag.name t) = [])
      /\ (forall t, In t tags -> Kuzu.match_Tag d' (Tag.name t) <> [])
      /\ Plain.createTags tags (quiet d' r) = (inr [], quiet d' r)
      /\ exists listed,
           getAllTags (quiet d' r) = (inr listed, quiet d' r)
           /\ forall t, In t created ->
                In {| Tag.name := Tag.name t;
                      Tag.category := nonblank (Tag.category t);
                      Tag.description := nonblank (Tag.description t) |} listed.
Proof.
  intros d r tags. destruct (createTags_loop tags [] d r) as (created & Hrun & Hnew & Hall).
  exists created. cbv zeta.
  split; [exact Hrun |]. split; [exact Hnew |]. split; [exact Hall |].
  split; [apply createTags_loop_stored, Hall |].
  unfold getAllTags. step. eexists. split; [reflexivity |].
  intros t Ht. apply in_map_iff. exists (stored_as t). split.
  - unfold stored_as, nonblank. cbn [Kuzu.t_name Kuzu.t_category Kuzu.t_description].
    destruct (Tag.category t) as [c |], (Tag.description t) as [ds |]; reflexivity.
  - apply In_order_by_name. cbn [Kuzu.on_Tag Kuzu.nodes_Tag].
    apply in_or_app. right. apply in_map, Ht.
Qed.

(** X10.  Creating tags on a connection without engine failures, the
    names, categories and descriptions holding no backslash: [createTags]
    reports, as given, the listed tags whose name was not stored (the first
    of each name), and adds one node for each to the tag table, touching
    nothing else; afterwards every listed name is stored and the same call
    reports nothing and changes nothing; and [getAllTags] lists each
    reported tag with an empty category or description read back as
    absent. *)
Theorem createTags_then_listed :
  forall d r tags,
    forallb plain_Tag tags = true ->
    exists created,
      let d' := Kuzu.on_Tag (fun l => l ++ map stored_as created) d in
      createTags tags (quiet d r) = (inr created, quiet d' r)
      /\ (forall t, In t created -> In t tags /\ Kuzu.match_Tag d (Tag.name t) = [])
      /\ (forall t, In t tags -> Kuzu.match_Tag d' (Tag.name t) <> [])
      /\ createTags tags (quiet d' r) = (inr [], quiet d' r)
      /\ exists listed,
           getAllTags (quiet d' r) = (inr listed, quiet d' r)
           /\ forall t, In t created ->
                In {| Tag.name := Tag.name t;
                      Tag.category := nonblank (Tag.category t);
                      Tag.description := nonblank (Tag.description t) |} listed.
Proof.
  intros d r tags H.
  destruct (Plain_createTags_listed d r tags) as (created & Hall).
  exists created. cbv zeta in *. rewrite !(createTags_on_plain_text tags H). exact Hall.
Qed.

Lemma createTags_then_listed_witness :
  exists created,
    createTags
      [ {| Tag.name := "vip"; Tag.category := Some "people"; Tag.description := None |};
        {| Tag.name := "vip"; Tag.category := None; Tag.description := Some "again" |} ]
      (quiet Sample.John_alone 0)
    = (inr created,
       quiet (Kuzu.on_Tag (fun l => l ++ map stored_as created) Sample.John_alone) 0)
    /\ (forall t, In t created -> Kuzu.match_Tag Sample.John_alone (Tag.name t) = []).
Proof.
  destruct (createTags_then_listed Sample.John_alone 0
              [ {| Tag.name := "vip"; Tag.category := Some "people";
                   Tag.description := None |};
                {| Tag.name := "vip"; Tag.category := None;
                   Tag.description := Some "again" |} ] eq_refl)
    as (created & Hrun & Hnew & _).
  exists created. split; [exact Hrun |]. intros t Ht. apply (Hnew t Ht).
Defined.

(** *** Creating an entity and reading it back *)

Lemma NoDup_map_injective {X Y} (f : X -> Y) (l : list X) x y :
  NoDup (map f l) -> In x l -> In y l -> f x = f y -> x = y.
Proof.
  induction l as [| z l IH]; intros Hnd Hx Hy E; [destruct Hx |].
  cbn [map] in Hnd. apply NoDup_cons_iff in Hnd as [Hz Hnd].
  destruct Hx as [-> | Hx], Hy as [-> | Hy].
  - reflexivity.
  - exfalso. apply Hz. rewrite E. apply in_map, Hy.
  - exfalso. apply Hz. rewrite <- E. apply in_map, Hx.
  - apply IH; assumption.
Qed.

Lemma In_linked_Tags d n t :
  In t (Kuzu.linked_Tags d n) <-> In (n, t) (Kuzu.rels_ENTITY_TAGGED_WITH d).
Proof.
  unfold Kuzu.linked_Tags. rewrite in_map_iff. split.
  - intros ([m u] & E & H). apply filter_In in H as [H Hm]. cbn [fst snd] in E, Hm.
    apply String.eqb_eq in Hm. subst. exact H.
  - intros H. exists (n, t). split; [reflexivity |].
    apply filter_In. split; [exact H | apply String.eqb_refl].
Qed.

(** One turn of the loop over [entity.observations]. *)
Lemma created_Observation_linked n c d seen :
  integrity d ->
  Kuzu.match_Entity d n <> [] ->
  (forall o, In o (Kuzu.linked_Observations d n) -> In (Kuzu.o_content o) seen) ->
  (forall x, In x seen ->
             exists o, In o (Kuzu.linked_Observations d n) /\ Kuzu.o_content o = x) ->
  let d2 := after (Kuzu.link_HAS_OBSERVATION n c) (after (Kuzu.create_Observation c) d) in
  integrity d2
  /\ Kuzu.nodes_Entity d2 = Kuzu.nodes_Entity d
  /\ Kuzu.rels_ENTITY_TAGGED_WITH d2 = Kuzu.rels_ENTITY_TAGGED_WITH d
  /\ (forall o, In o (Kuzu.linked_Observations d2 n) ->
                In (Kuzu.o_content o) (seen ++ [c]))
  /\ (forall x, In x (seen ++ [c]) ->
                exists o, In o (Kuzu.linked_Observations d2 n) /\ Kuzu.o_content o = x).
Proof.
  intros Hd He Hsound Hcomplete.
  set (fresh := {| Kuzu.o_id := Kuzu.serial d; Kuzu.o_content := c |}).
  set (d1 := after (Kuzu.create_Observation c) d).
  intros d2.
  assert (Hd1 : integrity d1)
    by (apply (create_Observation_integrity c d tt d1); [exact Hd | reflexivity]).
  assert (Hd2 : integrity d2)
    by (apply (link_HAS_OBSERVATION_integrity n c d1 tt d2); [exact Hd1 | reflexivity]).
  assert (Hnodes : Kuzu.nodes_Observation d2 = Kuzu.nodes_Observation d ++ [fresh])
    by reflexivity.
  assert (Hrels : Kuzu.rels_HAS_OBSERVATION d2
                  = Kuzu.rels_HAS_OBSERVATION d
                    ++ flat_map (fun e0 => map (fun o0 => (Kuzu.e_name e0, Kuzu.o_id o0))
                                               (Kuzu.match_Observation d1 c))
                                (Kuzu.match_Entity d n)) by reflexivity.
  assert (Hfresh : In fresh (Kuzu.match_Observation d1 c)).
  { apply filter_In. split; [| apply String.eqb_refl].
    cbn - [In]. apply in_or_app. right; left; reflexivity. }
  split; [exact Hd2 |]. split; [reflexivity |]. split; [reflexivity |]. split.
  - intros o Ho. apply linked_Observations_In in Ho as [Ho Hl].
    rewrite Hrels in Hl. apply in_app_or in Hl as [Hl | Hl].
    + pose proof Ho as Ho2. rewrite Hnodes in Ho. apply in_app_or in Ho as [Ho | Ho].
      * apply in_or_app. left. apply Hsound.
        apply linked_Observations_intro; assumption.
      * destruct Ho as [<- | []]. apply in_or_app. right; left; reflexivity.
    + apply in_flat_map in Hl as (e0 & _ & Hl).
      apply in_map_iff in Hl as (o' & E & Ho').
      injection E as _ Eid.
      apply filter_In in Ho' as [Ho' Hc]. apply String.eqb_eq in Hc.
      assert (o' = o) as ->.
      { apply (NoDup_map_injective Kuzu.o_id (Kuzu.nodes_Observation d2));
          [apply (key_Observation d2 Hd2) | exact Ho' | exact Ho | exact Eid]. }
      rewrite Hc. apply in_or_app. right; left; reflexivity.
  - intros x Hx. apply in_app_or in Hx as [Hx | [<- | []]].
    + destruct (Hcomplete x Hx) as (o & Ho & Hc). exists o. split; [| exact Hc].
      apply linked_Observations_In in Ho as [Ho Hl].
      apply linked_Observations_intro.
      * rewrite Hnodes. apply in_or_app. left; exact Ho.
      * rewrite Hrels. apply in_or_app. left; exact Hl.
    + exists fresh. split; [| reflexivity].
      apply linked_Observations_intro.
      * rewrite Hnodes. apply in_or_app. right; left; reflexivity.
      * rewrite Hrels. apply in_or_app. right.
        destruct (Kuzu.match_Entity d n) as [| e0 l0] eqn:E; [congruence |].
        assert (Hn : Kuzu.e_name e0 = n)
          by (apply (match_Entity_name d n e0); rewrite E; left; reflexivity).
        apply in_flat_map. exists e0. split; [left; reflexivity |].
        rewrite Hn. apply (in_map (fun o0 => (n, Kuzu.o_id o0))), Hfresh.
Qed.

Lemma createEntities_observations_loop n observations :
  forall d r seen,
    integrity d ->
    Kuzu.match_Entity d n <> [] ->
    (forall o, In o (Kuzu.linked_Observations d n) -> In (Kuzu.o_content o) seen) ->
    (forall x, In x seen ->
               exists o, In o (Kuzu.linked_Observations d n) /\ Kuzu.o_content o = x) ->
    exists d',
      for_each observations (fun observation =>
        query (Kuzu.create_Observation observation) ;;
        query (Kuzu.link_HAS_OBSERVATION n observation)) (quiet d r)
      = (inr tt, quiet d' r)
      /\ Kuzu.nodes_Entity d' = Kuzu.nodes_Entity d
      /\ Kuzu.rels_ENTITY_TAGGED_WITH d' = Kuzu.rels_ENTITY_TAGGED_WITH d
      /\ (forall o, In o (Kuzu.linked_Observations d' n) ->
                    In (Kuzu.o_content o) (seen ++ observations))
      /\ (forall x, In x (seen ++ observations) ->
                    exists o, In o (Kuzu.linked_Observations d' n) /\ Kuzu.o_content o = x).
Proof.
  unfold for_each.
  induction observations as [| c cs IH]; intros d r seen Hd He Hsound Hcomplete;
    simpl for_of.
  - exists d. rewrite app_nil_r. auto.
  - destruct (created_Observation_linked n c d seen Hd He Hsound Hcomplete)
      as (Hd2 & E2 & T2 & Hsound2 & Hcomplete2).
    set (d2 := after (Kuzu.link_HAS_OBSERVATION n c)
                     (after (Kuzu.create_Observation c) d)) in *.
    assert (Hturn : (query (Kuzu.create_Observation c) ;;
                     query (Kuzu.link_HAS_OBSERVATION n c)) (quiet d r)
                    = (inr tt, quiet d2 r)) by reflexivity.
    rewrite (bind_inr _ _ _ _ _ Hturn).
    assert (He2 : Kuzu.match_Entity d2 n <> [])
      by (unfold Kuzu.match_Entity; rewrite E2; exact He).
    destruct (IH d2 r (seen ++ [c]) Hd2 He2 Hsound2 Hcomplete2)
      as (d' & Hrun & E' & T' & Hsound' & Hcomplete').
    rewrite <- app_assoc in Hsound', Hcomplete'.
    exists d'. split; [exact Hrun |].
    split; [congruence |]. split; [congruence |]. split; assumption.
Qed.

(** One turn of the loop over [entity.tags]. *)
Lemma createEntities_tag_turn n t d r :
  (k <- query (Kuzu.count_Tag t) ;;
   (if (k =? 0)%nat then query (Kuzu.create_Tag t "" "") else ret tt) ;;
   query (Kuzu.link_ENTITY_TAGGED_WITH n t)) (quiet d r)
  = (inr tt,
     quiet (after (Kuzu.link_ENTITY_TAGGED_WITH n t)
                  match Kuzu.match_Tag d t with
                  | [] => after (Kuzu.create_Tag t "" "") d
                  | _ :: _ => d
                  end) r).
Proof.
  unfold Kuzu.count_Tag. rewrite step_reading.
  destruct (Kuzu.match_Tag d t) as [| u l] eqn:E; cbn [List.length Nat.eqb].
  - assert (Hafter : after (Kuzu.create_Tag t "" "") d
                     = Kuzu.on_Tag (fun l => l ++
                         [ {| Kuzu.t_name := t; Kuzu.t_category := "";
                              Kuzu.t_description := "" |} ]) d)
      by (unfold after, Kuzu.create_Tag; rewrite E; reflexivity).
    rewrite Hafter, step_create_Tag by exact E. reflexivity.
  - reflexivity.
Qed.

Lemma createEntities_tag_linked n t d :
  Kuzu.match_Entity d n <> [] ->
  let d2 := after (Kuzu.link_ENTITY_TAGGED_WITH n t)
                  match Kuzu.match_Tag d t with
                  | [] => after (Kuzu.create_Tag t "" "") d
                  | _ :: _ => d
                  end in
  Kuzu.nodes_Entity d2 = Kuzu.nodes_Entity d
  /\ Kuzu.nodes_Observation d2 = Kuzu.nodes_Observation d
  /\ Kuzu.rels_HAS_OBSERVATION d2 = Kuzu.rels_HAS_OBSERVATION d
  /\ (forall t', In (n, t') (Kuzu.rels_ENTITY_TAGGED_WITH d2)
                 <-> In (n, t') (Kuzu.rels_ENTITY_TAGGED_WITH d) \/ t' = t).
Proof.
  intros He. destruct (ensured_Tag d t) as ((E1 & _ & L1) & T1 & _).
  set (d1 := match Kuzu.match_Tag d t with
             | [] => after (Kuzu.create_Tag t "" "") d
             | _ :: _ => d
             end) in *.
  intros d2.
  assert (O1 : Kuzu.nodes_Observation d1 = Kuzu.nodes_Observation d
               /\ Kuzu.rels_HAS_OBSERVATION d1 = Kuzu.rels_HAS_OBSERVATION d
               /\ Kuzu.rels_ENTITY_TAGGED_WITH d1 = Kuzu.rels_ENTITY_TAGGED_WITH d).
  { subst d1. destruct (Kuzu.match_Tag d t) eqn:E; [| auto].
    unfold after, Kuzu.create_Tag. rewrite E. auto. }
  destruct O1 as (O1 & H1 & R1).
  assert (Hrels : Kuzu.rels_ENTITY_TAGGED_WITH d2
                  = Kuzu.rels_ENTITY_TAGGED_WITH d1
                    ++ flat_map (fun e0 => map (fun t0 => (Kuzu.e_name e0, Kuzu.t_name t0))
                                               (Kuzu.match_Tag d1 t))
                                (Kuzu.match_Entity d1 n)) by reflexivity.
  split; [exact E1 |]. split; [exact O1 |]. split; [exact H1 |].
  intros t'. rewrite Hrels, in_app_iff, R1. split.
  - intros [H | H]; [left; exact H | right].
    apply in_flat_map in H as (e0 & _ & H). apply in_map_iff in H as (u & E & Hu).
    injection E as _ <-. apply filter_In in Hu as [_ Hu]. apply String.eqb_eq, Hu.
  - intros [H | ->]; [left; exact H | right].
    assert (He1 : Kuzu.match_Entity d1 n <> [])
      by (unfold Kuzu.match_Entity; rewrite E1; exact He).
    destruct (Kuzu.match_Entity d1 n) as [| e0 l0] eqn:E; [congruence |].
    destruct (Kuzu.match_Tag d1 t) as [| u lu] eqn:U; [congruence |].
    assert (Hn : Kuzu.e_name e0 = n)
      by (apply (match_Entity_name d1 n e0); rewrite E; left; reflexivity).
    assert (Hu : Kuzu.t_name u = t).
    { assert (In u (Kuzu.match_Tag d1 t)) as H by (rewrite U; left; reflexivity).
      apply filter_In in H as [_ H]. apply String.eqb_eq, H. }
    cbn [flat_map map]. rewrite Hn, Hu. left; reflexivity.
Qed.

Lemma createEntities_tags_loop n tagNames :
  forall d r,
    Kuzu.match_Entity d n <> [] ->
    exists d',
      for_each tagNames (fun tagName =>
        k <- query (Kuzu.count_Tag tagName) ;;
        (if (k =? 0)%nat then query (Kuzu.create_Tag tagName "" "") else ret tt) ;;
        query (Kuzu.link_ENTITY_TAGGED_WITH n tagName)) (quiet d r)
      = (inr tt, quiet d' r)
      /\ Kuzu.nodes_Entity d' = Kuzu.nodes_Entity d
      /\ Kuzu.nodes_Observation d' = Kuzu.nodes_Observation d
      /\ Kuzu.rels_HAS_OBSERVATION d' = Kuzu.rels_HAS_OBSERVATION d
      /\ (forall t, In (n, t) (Kuzu.rels_ENTITY_TAGGED_WITH d')
                    <-> In (n, t) (Kuzu.rels_ENTITY_TAGGED_WITH d) \/ In t tagNames).
Proof.
  unfold for_each.
  induction tagNames as [| t ts IH]; intros d r He; simpl for_of.
  - exists d. repeat match goal with |- _ /\ _ => split end; try reflexivity.
    intros t. cbn [In]. tauto.
  - rewrite (bind_inr _ _ _ _ _ (createEntities_tag_turn n t d r)).
    destruct (createEntities_tag_linked n t d He) as (E2 & O2 & H2 & L2).
    set (d2 := after (Kuzu.link_ENTITY_TAGGED_WITH n t) _) in *.
    assert (He2 : Kuzu.match_Entity d2 n <> [])
      by (unfold Kuzu.match_Entity; rewrite E2; exact He).
    destruct (IH d2 r He2) as (d' & Hrun & E' & O' & H' & L').
    exists d'. split; [exact Hrun |].
    split; [congruence |]. split; [congruence |]. split; [congruence |].
    intros x. rewrite L', L2. cbn [In]. split.
    + intros [[H | ->] | H]; auto.
    + intros [H | [<- | H]]; auto.
Qed.

Lemma createEntities_tags_linked n (tagNames : option (list string)) d r :
  Kuzu.match_Entity d n <> [] ->
  exists d',
    match tagNames with
    | Some ((_ :: _) as tagNames) =>
        for_each tagNames (fun tagName =>
          k <- query (Kuzu.count_Tag tagName) ;;
          (if (k =? 0)%nat then query (Kuzu.create_Tag tagName "" "") else ret tt) ;;
          query (Kuzu.link_ENTITY_TAGGED_WITH n tagName))
    | _ => ret tt
    end (quiet d r)
    = (inr tt, quiet d' r)
    /\ Kuzu.nodes_Entity d' = Kuzu.nodes_Entity d
    /\ Kuzu.nodes_Observation d' = Kuzu.nodes_Observation d
    /\ Kuzu.rels_HAS_OBSERVATION d' = Kuzu.rels_HAS_OBSERVATION d
    /\ (forall t, In (n, t) (Kuzu.rels_ENTITY_TAGGED_WITH d')
                  <-> In (n, t) (Kuzu.rels_ENTITY_TAGGED_WITH d)
                      \/ In t (match tagNames with Some l => l | None => [] end)).
Proof.
  intros He. destruct tagNames as [[| t ts] |].
  - exists d. repeat match goal with |- _ /\ _ => split end; try reflexivity.
    intros t. cbn [In]. tauto.
  - apply createEntities_tags_loop, He.
  - exists d. repeat match goal with |- _ /\ _ => split end; try reflexivity.
    intros t. cbn [In]. tauto.
Qed.

(** X11.  Creating an entity and reading the graph back, from a database
    with integrity in which the name is free and on a connection without
    engine failures: [createEntities [e]] reports [e] and adds one
    entity node; in the graph [readGraph] then returns, the entities are
    the earlier ones and one with the name and the type of [e], whose
    observations are exactly the contents listed in [e] and whose tags are
    exactly the tag names listed in [e] (in whatever order the rows
    come). *)
Theorem createEntities_then_readGraph :
  forall d r e,
    integrity d ->
    Kuzu.match_Entity d (name e) = [] ->
    exists d' kg stored,
      createEntities [e] (quiet d r)
      = (inr [ {| name := name e; entityType := entityType e;
                  observations := observations e;
                  tags := Some (match tags e with Some l => l | None => [] end) |} ],
         quiet d' r)
      /\ readGraph (quiet d' r) = (inr kg, quiet d' r)
      /\ Permutation (map name (KnowledgeGraph.entities kg))
                     (name e :: map Kuzu.e_name (Kuzu.nodes_Entity d))
      /\ In stored (KnowledgeGraph.entities kg)
      /\ name stored = name e
      /\ entityType stored = entityType e
      /\ (forall c, In c (observations stored) <-> In c (observations e))
      /\ (forall t, In t (match tags stored with Some l => l | None => [] end)
                    <-> In t (match tags e with Some l => l | None => [] end)).
Proof.
  intros d r e Hd Hfresh.
  set (node := {| Kuzu.e_name := name e; Kuzu.e_entityType := entityType e |}).
  set (d1 := Kuzu.on_Entity (fun l => l ++ [node]) d).
  assert (Hd1 : integrity d1).
  { apply (create_Entity_integrity (name e) (entityType e) d tt d1); [exact Hd |].
    unfold Kuzu.create_Entity. rewrite Hfresh. reflexivity. }
  assert (He1 : Kuzu.match_Entity d1 (name e) <> []).
  { unfold Kuzu.match_Entity. cbn [d1 Kuzu.on_Entity Kuzu.nodes_Entity].
    rewrite filter_app. cbn [filter node Kuzu.e_name]. rewrite String.eqb_refl.
    intros H. apply app_eq_nil in H as [_ H]. discriminate. }
  assert (Hunnamed : ~ entity_named d (name e)) by apply match_Entity_nil, Hfresh.
  destruct (createEntities_observations_loop (name e) (observations e) d1 r [] Hd1 He1)
    as (d2 & H2 & E2 & T2 & Hsound & Hcomplete).
  { intros o Ho. apply linked_Observations_In in Ho as [_ Hl].
    destruct (ends_HAS_OBSERVATION d Hd _ Hl) as [Hn _]. exact (Hunnamed Hn). }
  { intros x []. }
  assert (He2 : Kuzu.match_Entity d2 (name e) <> [])
    by (unfold Kuzu.match_Entity; rewrite E2; exact He1).
  destruct (createEntities_tags_linked (name e) (tags e) d2 r He2)
    as (d3 & H3 & E3 & O3 & L3 & Htags).
  assert (Hlinked : Kuzu.linked_Observations d3 (name e)
                    = Kuzu.linked_Observations d2 (name e)).
  { unfold Kuzu.linked_Observations, Kuzu.Observation_by_id. rewrite O3, L3. reflexivity. }
  assert (Hnodes : Kuzu.nodes_Entity d3 = Kuzu.nodes_Entity d ++ [node])
    by (rewrite E3, E2; reflexivity).
  exists d3, (read d3),
    {| name := name e; entityType := entityType e;
       observations :=
         Kuzu.distinct (map Kuzu.o_content (Kuzu.linked_Observations d3 (name e)));
       tags := Some (Kuzu.distinct (Kuzu.linked_Tags d3 (name e))) |}.
  split; [| split; [apply readGraph_quiet |]].
  - unfold createEntities; simpl for_of. unfold bind at 1. rewrite rethrow_id.
    unfold Kuzu.count_Entity. rewrite step_reading, Hfresh. cbn [List.length Nat.eqb].
    rewrite step_create_Entity by exact Hfresh. fold node. fold d1.
    rewrite (bind_inr _ _ _ _ _ H2), (bind_inr _ _ _ _ _ H3). reflexivity.
  - cbn [read KnowledgeGraph.entities name entityType observations tags].
    split.
    { rewrite map_map. cbn [name]. rewrite Hnodes, map_app.
      apply Permutation_sym, Permutation_cons_append. }
    split.
    { apply in_map_iff. exists node. split; [reflexivity |].
      rewrite Hnodes. apply in_or_app. right; left; reflexivity. }
    split; [reflexivity |]. split; [reflexivity |]. split.
    + intros c. rewrite In_distinct, in_map_iff, Hlinked. split.
      * intros (o & <- & Ho). apply (Hsound o Ho).
      * intros Hc. destruct (Hcomplete c Hc) as (o & Ho & E). exists o. split; assumption.
    + intros t. rewrite In_distinct, In_linked_Tags, Htags, T2. split.
      * intros [H | H]; [exfalso | exact H].
        destruct (ends_ENTITY_TAGGED_WITH d Hd _ H) as [Hn _]. exact (Hunnamed Hn).
      * intros H. right; exact H.
Qed.

Lemma createEntities_then_readGraph_witness :
  exists d' kg stored,
    createEntities [Sample.John_Smith] (quiet Kuzu.empty 0)
    = (inr [Sample.John_Smith], quiet d' 0)
    /\ readGraph (quiet d' 0) = (inr kg, quiet d' 0)
    /\ Permutation (map name (KnowledgeGraph.entities kg)) ["John_Smith"]
    /\ In stored (KnowledgeGraph.entities kg)
    /\ name stored = "John_Smith"
    /\ entityType stored = "person"
    /\ (forall c, In c (observations stored) <-> In c ["Speaks fluent Spanish"])
    /\ (forall t, In t (match tags stored with Some l => l | None => [] end)
                  <-> In t []).
Proof.
  apply (createEntities_then_readGraph Kuzu.empty 0 Sample.John_Smith).
  - apply integrity_empty.
  - reflexivity.
Defined.

(** *** The graphs the queries return *)

Lemma filter_map_swap {X Y} (p : Y -> bool) (g : X -> Y) (l : list X) :
  filter p (map g l) = map g (filter (fun x => p (g x)) l).
Proof.
  induction l as [| x l IH]; [reflexivity |].
  cbn [map filter]. destruct (p (g x)); cbn [map]; rewrite IH; reflexivity.
Qed.

Lemma induced_part d names (entities : list Entity) :
  (forall n, In n names -> entity_named d n -> In n (map name entities)) ->
  integrity d ->
  forall rel, In rel (induced d names) ->
    In rel (Kuzu.rels_RELATED_TO d)
    /\ In (from rel) (map name entities) /\ In (to rel) (map name entities).
Proof.
  intros Hnames Hd rel Hrel. apply filter_In in Hrel as [Hrel Hends].
  apply andb_true_iff in Hends as [Hf Ht]. apply name_in_In in Hf, Ht.
  destruct (ends_RELATED_TO d Hd rel Hrel) as [Ef Et]. auto.
Qed.

(** The loop of [openNodes] over the rows of the entities [l]. *)
Lemma openNodes_rows d (l : list Kuzu.EntityNode) :
  forall acc c,
    for_of
      (map (fun e => {| Kuzu.row_name := Kuzu.e_name e;
                        Kuzu.row_entityType := Kuzu.e_entityType e;
                        Kuzu.row_observations :=
                          Kuzu.COLLECT
                            (map Kuzu.o_content (Kuzu.linked_Observations d (Kuzu.e_name e)));
                        Kuzu.row_tags := None |}) l)
      (fun entities row =>
         match Kuzu.row_observations row with
         | Some values =>
             ret (entities ++ [ {| name := Kuzu.row_name row;
                                   entityType := Kuzu.row_entityType row;
                                   observations := values;
                                   tags := None |} ])
         | None => throw TypeError
         end) acc c
    = if forallb (observed d) l
      then (inr (acc ++ map (opened d) l), c)
      else (inl TypeError, c).
Proof.
  induction l as [| e l IH]; intros acc c; cbn [map for_of forallb].
  - rewrite app_nil_r. reflexivity.
  - unfold bind. cbn [Kuzu.row_observations Kuzu.row_name Kuzu.row_entityType].
    unfold observed at 1.
    destruct (Kuzu.linked_Observations d (Kuzu.e_name e)) as [| o os] eqn:E;
      cbn [Kuzu.COLLECT map andb].
    + reflexivity.
    + unfold ret at 1. rewrite IH. unfold opened at 2. rewrite E, <- app_assoc.
      reflexivity.
Qed.

Lemma forallb_filter {X} (f g : X -> bool) (l : list X) :
  forallb f l = true -> forallb f (filter g l) = true.
Proof.
  rewrite !forallb_forall. intros H x Hx. apply filter_In in Hx as [Hx _]. apply H, Hx.
Qed.

(** X12.  Opening nodes, for a non-empty list of names without a backslash,
    on a connection without engine failures and a database with integrity.
    When every stored entity that is listed owns an observation,
    [openNodes] returns these entities, each once and without tags, with a
    content once per ownership link, and the stored relations whose two
    endpoints are listed; the graph is a part of the stored one (lists are
    compared up to order).  When a stored entity that is listed owns no
    observation, [openNodes] raises a TypeError, where [readGraph] and
    [searchNodes] show such an entity with no observation.  (With no name
    the statement reads [IN []], which the embedding of the engine does not
    cover: hence the hypothesis.) *)
Theorem openNodes_returns_or_throws :
  forall d r names,
    integrity d ->
    names <> [] ->
    forallb Text.plain names = true ->
    let listed := filter (fun e => Kuzu.name_in names (Kuzu.e_name e)) (Kuzu.nodes_Entity d) in
    (forallb (observed d) listed = true ->
     exists kg,
       openNodes names (quiet d r) = (inr kg, quiet d r)
       /\ Permutation (map (fun e => (name e, entityType e)) (KnowledgeGraph.entities kg))
                      (map (fun e => (Kuzu.e_name e, Kuzu.e_entityType e)) listed)
       /\ (forall e, In e (KnowledgeGraph.entities kg) ->
                     tags e = None
                     /\ Permutation (observations e)
                          (map Kuzu.o_content (Kuzu.linked_Observations d (name e))))
       /\ Permutation (KnowledgeGraph.relations kg) (induced d names)
       /\ KnowledgeGraph.tags kg = None
       /\ part_of d kg)
    /\ (forallb (observed d) listed = false ->
        openNodes names (quiet d r) = (inl TypeError, quiet d r)).
Proof.
  intros d r names Hd _ Hnames listed.
  assert (Hrun : openNodes names (quiet d r)
                 = if forallb (observed d) listed
                   then (inr {| KnowledgeGraph.entities := map (opened d) listed;
                                KnowledgeGraph.relations := induced d names;
                                KnowledgeGraph.tags := None |},
                         quiet d r)
                   else (inl TypeError, quiet d r)).
  { unfold openNodes. rewrite rethrow_id. cbv zeta.
    rewrite !(spliced_list_plain _ _ Hnames). unfold Kuzu.named_Entity_rows.
    rewrite step_reading. fold listed. unfold bind at 1.
    rewrite (openNodes_rows d listed [] (quiet d r)).
    destruct (forallb (observed d) listed); [| reflexivity].
    cbn [app]. step. rewrite map_Relation_eta. reflexivity. }
  split; intros Hobs; rewrite Hobs in Hrun; [| exact Hrun].
  eexists. split; [exact Hrun |].
  unfold part_of. cbn [KnowledgeGraph.entities KnowledgeGraph.relations KnowledgeGraph.tags].
  split; [| split; [| split; [| split; [reflexivity | split]]]].
  - rewrite map_map. apply Permutation_refl.
  - intros e He. apply in_map_iff in He as (node & <- & _).
    split; [reflexivity | apply Permutation_refl].
  - apply Permutation_refl.
  - intros e He. apply in_map_iff in He as (node & <- & Hnode).
    apply filter_In in Hnode as [Hnode _]. apply (in_map Kuzu.e_name), Hnode.
  - apply induced_part; [| exact Hd].
    intros n Hn Hstored. rewrite map_map. cbn [name opened].
    apply in_map_iff in Hstored as (node & <- & Hnode).
    apply (in_map Kuzu.e_name). apply filter_In. split; [exact Hnode |].
    apply name_in_In, Hn.
Qed.

Lemma openNodes_returns_or_throws_witness :
  (exists kg,
     openNodes ["John_Smith"; "Nobody"] (quiet Sample.John_at_Anthropic 0)
     = (inr kg, quiet Sample.John_at_Anthropic 0)
     /\ Permutation (map (fun e => (name e, entityType e)) (KnowledgeGraph.entities kg))
                    [("John_Smith", "person")]
     /\ part_of Sample.John_at_Anthropic kg)
  /\ openNodes ["John_Smith"; "Anthropic"] (quiet Sample.John_at_Anthropic 0)
     = (inl TypeError, quiet Sample.John_at_Anthropic 0).
Proof.
  split.
  - destruct (openNodes_returns_or_throws Sample.John_at_Anthropic 0 ["John_Smith"; "Nobody"]
                John_at_Anthropic_integrity) as [H _]; [discriminate | reflexivity |].
    destruct (H eq_refl) as (kg & Hrun & Hent & _ & _ & _ & Hpart).
    exists kg. split; [exact Hrun |]. split; [exact Hent | exact Hpart].
  - destruct (openNodes_returns_or_throws Sample.John_at_Anthropic 0
                ["John_Smith"; "Anthropic"] John_at_Anthropic_integrity) as [_ H];
      [discriminate | reflexivity |].
    exact (H eq_refl).
Defined.

Lemma getEntitiesByTag_quiet tagName d r :
  Text.plain tagName = true ->
  plain_names d = true ->
  exists kg,
    getEntitiesByTag tagName (quiet d r) = (inr kg, quiet d r)
    /\ map name (KnowledgeGraph.entities kg)
       = map Kuzu.e_name (filter (tagged d tagName) (Kuzu.nodes_Entity d))
    /\ KnowledgeGraph.relations kg = induced d (map name (KnowledgeGraph.entities kg))
    /\ (forall e, In e (KnowledgeGraph.entities kg) ->
                  forall reported, tags e = Some reported ->
                                   forall t, In t reported -> t = tagName).
Proof.
  intros Htag Hd. unfold getEntitiesByTag. rewrite rethrow_id. cbv zeta.
  rewrite (spliced_plain tagName _ Htag). unfold Kuzu.tagged_Entity_rows.
  rewrite step_reading.
  set (rows := flat_map _ (Kuzu.nodes_Entity d)).
  set (entities := map _ rows).
  assert (Hnames : map name entities
                   = map Kuzu.e_name (filter (tagged d tagName) (Kuzu.nodes_Entity d))).
  { subst entities rows. rewrite map_map. cbn [name]. unfold tagged.
    induction (Kuzu.nodes_Entity d) as [| e l IH]; [reflexivity |].
    cbn [flat_map filter]. rewrite map_app, IH.
    destruct (Kuzu.tags_bound d (Kuzu.e_name e) tagName); reflexivity. }
  assert (Htags : forall e, In e entities ->
                    forall reported, tags e = Some reported ->
                                     forall t, In t reported -> t = tagName).
  { intros e He reported Etags t Ht. subst entities rows.
    apply in_map_iff in He as (row & <- & Hrow). cbn [tags] in Etags.
    injection Etags as <-.
    apply in_flat_map in Hrow as (node & _ & Hrow).
    destruct (Kuzu.tags_bound d (Kuzu.e_name node) tagName) as [| u us] eqn:E;
      [destruct Hrow |].
    destruct Hrow as [<- | []]. cbn [Kuzu.row_tags] in Ht.
    rewrite non_empty_COLLECT in Ht. apply filter_In in Ht as [Ht _].
    apply (proj1 (In_distinct _ _)) in Ht. apply in_map_iff in Ht as (u' & <- & Hu').
    rewrite <- E in Hu'. unfold Kuzu.tags_bound in Hu'.
    apply in_flat_map in Hu' as (_ & _ & Hu').
    apply filter_In in Hu' as [_ Hu']. apply String.eqb_eq, Hu'. }
  assert (Hplain : forallb Text.plain (map name entities) = true).
  { rewrite Hnames, forallb_map. apply forallb_filter, Hd. }
  revert Hplain. destruct (map name entities) as [| n0 ns] eqn:En; intros Hplain.
  - cbn [List.length Nat.ltb Nat.leb]. rewrite step_ret.
    eexists. split; [reflexivity |].
    cbn [KnowledgeGraph.entities KnowledgeGraph.relations].
    rewrite En, induced_nil. auto.
  - cbn [List.length Nat.ltb Nat.leb]. rewrite (spliced_list_plain _ _ Hplain).
    step. rewrite map_Relation_eta.
    eexists. split; [reflexivity |].
    cbn [KnowledgeGraph.entities KnowledgeGraph.relations].
    rewrite En. auto.
Qed.

(** X13.  On a connection without engine failures and a database with
    integrity in which no entity has a backslash in its name, the graph
    each of [readGraph], [searchNodes] and [getEntitiesByTag] returns (for
    a query and a tag name without a backslash) is a part of the stored
    graph: its entities are stored, its relations are stored, and no
    relation is returned without both of its endpoints. *)
Theorem returned_graphs_are_parts :
  forall d r,
    integrity d ->
    plain_names d = true ->
    (exists kg, readGraph (quiet d r) = (inr kg, quiet d r) /\ part_of d kg)
    /\ (forall q,
          Text.plain q = true ->
          exists kg, searchNodes q (quiet d r) = (inr kg, quiet d r) /\ part_of d kg)
    /\ (forall tagName,
          Text.plain tagName = true ->
          exists kg,
            getEntitiesByTag tagName (quiet d r) = (inr kg, quiet d r) /\ part_of d kg).
Proof.
  intros d r Hd Hp. split; [| split].
  - exists (read d). split; [apply readGraph_quiet |]. unfold part_of. split.
    + intros e He. cbn [read KnowledgeGraph.entities] in He.
      apply in_map_iff in He as (node & <- & Hnode). apply (in_map Kuzu.e_name), Hnode.
    + intros rel Hrel. cbn [read KnowledgeGraph.relations KnowledgeGraph.entities] in *.
      rewrite map_map. cbn [name].
      destruct (ends_RELATED_TO d Hd rel Hrel) as [Ef Et]. auto.
  - intros q Hq. eexists. split; [apply (searchNodes_quiet q d r Hq Hp) |]. unfold part_of.
    cbn [KnowledgeGraph.entities KnowledgeGraph.relations]. split.
    + intros e He. apply in_map_iff in He as (node & <- & Hnode).
      apply (in_map Kuzu.e_name), Hnode.
    + apply induced_part; [| exact Hd].
      intros n Hn _. rewrite map_map. exact Hn.
  - intros tagName Ht.
    destruct (getEntitiesByTag_quiet tagName d r Ht Hp) as (kg & Hrun & Hnames & Hrels & _).
    exists kg. split; [exact Hrun |]. split.
    + intros e He. apply (in_map name) in He. rewrite Hnames in He.
      apply in_map_iff in He as (node & <- & Hnode).
      apply filter_In in Hnode as [Hnode _]. apply (in_map Kuzu.e_name), Hnode.
    + rewrite Hrels. apply induced_part; [| exact Hd]. intros n Hn _. exact Hn.
Qed.

Lemma returned_graphs_are_parts_witness :
  (exists kg, readGraph (quiet Sample.John_at_Anthropic 0)
              = (inr kg, quiet Sample.John_at_Anthropic 0)
              /\ part_of Sample.John_at_Anthropic kg)
  /\ (exists kg,
        searchNodes "SPANISH" (quiet Sample.John_at_Anthropic 0)
        = (inr kg, quiet Sample.John_at_Anthropic 0)
        /\ part_of Sample.John_at_Anthropic kg)
  /\ (exists kg,
        getEntitiesByTag "vip" (quiet Sample.John_at_Anthropic 0)
        = (inr kg, quiet Sample.John_at_Anthropic 0)
        /\ part_of Sample.John_at_Anthropic kg).
Proof.
  destruct (returned_graphs_are_parts Sample.John_at_Anthropic 0
              John_at_Anthropic_integrity eq_refl) as (Hread & Hsearch & Htag).
  split; [exact Hread |]. split; [apply Hsearch | apply Htag]; reflexivity.
Defined.

(** X14.  On a connection without engine failures, for a tag name and
    stored entity names without a backslash, [getEntitiesByTag] returns
    the stored entities linked to a tag of the given name, each once, with
    the relations among them (lists compared up to order); the tags it
    reports for an entity hold no name but the one asked for, whatever
    other tags the entity has. *)
Theorem getEntitiesByTag_reports_the_tag :
  forall tagName d r,
    Text.plain tagName = true ->
    plain_names d = true ->
    exists kg,
      getEntitiesByTag tagName (quiet d r) = (inr kg, quiet d r)
      /\ Permutation (map name (KnowledgeGraph.entities kg))
                     (map Kuzu.e_name (filter (tagged d tagName) (Kuzu.nodes_Entity d)))
      /\ Permutation (KnowledgeGraph.relations kg)
                     (induced d (map name (KnowledgeGraph.entities kg)))
      /\ (forall e, In e (KnowledgeGraph.entities kg) ->
                    forall reported, tags e = Some reported ->
                                     forall t, In t reported -> t = tagName).
Proof.
  intros tagName d r Ht Hd.
  destruct (getEntitiesByTag_quiet tagName d r Ht Hd) as (kg & Hrun & Hnames & Hrels & Htags).
  exists kg. split; [exact Hrun |].
  split; [rewrite Hnames; apply Permutation_refl |].
  split; [rewrite Hrels at 1; apply Permutation_refl | exact Htags].
Qed.

Lemma getEntitiesByTag_reports_the_tag_witness :
  exists kg,
    getEntitiesByTag "vip" (quiet Sample.John_tagged 0) = (inr kg, quiet Sample.John_tagged 0)
    /\ Permutation (map name (KnowledgeGraph.entities kg)) ["John_Smith"]
    /\ (forall e, In e (KnowledgeGraph.entities kg) ->
                  forall reported, tags e = Some reported ->
                                   forall t, In t reported -> t = "vip").
Proof.
  destruct (getEntitiesByTag_reports_the_tag "vip" Sample.John_tagged 0 eq_refl eq_refl)
    as (kg & Hrun & Hnames & _ & Htags).
  exists kg. split; [exact Hrun |]. split; [exact Hnames | exact Htags].
Defined.

(** *** Creating relations between stored entities *)

Lemma same_Relation_eq a b : Kuzu.same_Relation a b = true -> a = b.
Proof.
  unfold Kuzu.same_Relation. intros H.
  apply andb_true_iff in H as [H Hk]. apply andb_true_iff in H as [Hf Ht].
  apply String.eqb_eq in Hf, Ht, Hk. destruct a, b; cbn in *; congruence.
Qed.

Lemma match_RELATED_TO_stored d relation :
  Kuzu.match_RELATED_TO d relation <> [] <-> In relation (Kuzu.rels_RELATED_TO d).
Proof.
  split.
  - intros H. destruct (Kuzu.match_RELATED_TO d relation) as [| x l] eqn:E; [congruence |].
    assert (In x (Kuzu.match_RELATED_TO d relation)) as Hx by (rewrite E; left; reflexivity).
    apply filter_In in Hx as [Hx Hs]. apply same_Relation_eq in Hs. subst x. exact Hx.
  - intros H E. exact (match_RELATED_TO_nil d relation E H).
Qed.

Lemma on_RELATED_TO_append d (l1 l2 : list Relation) :
  Kuzu.on_RELATED_TO (fun l => l ++ l2) (Kuzu.on_RELATED_TO (fun l => l ++ l1) d)
  = Kuzu.on_RELATED_TO (fun l => l ++ l1 ++ l2) d.
Proof. unfold Kuzu.on_RELATED_TO. cbn. rewrite app_assoc. reflexivity. Qed.

Lemma createRelations_turn_quiet acc relation d r :
  try_catch
    (n <- query (Kuzu.count_RELATED_TO relation) ;;
     if (n =? 0)%nat then
       query (Kuzu.create_RELATED_TO relation) ;;
       ret (acc ++ [ {| from := from relation; to := to relation;
                        relationType := relationType relation |} ])
     else ret acc)
    (fun error => throw error) (quiet d r)
  = match Kuzu.match_RELATED_TO d relation with
    | [] => (inr (acc ++ [relation]),
             quiet (after (Kuzu.create_RELATED_TO relation) d) r)
    | _ :: _ => (inr acc, quiet d r)
    end.
Proof.
  rewrite rethrow_id. unfold Kuzu.count_RELATED_TO. rewrite step_reading.
  destruct (Kuzu.match_RELATED_TO d relation); cbn [List.length Nat.eqb].
  - destruct relation; reflexivity.
  - reflexivity.
Qed.

Lemma create_RELATED_TO_between_entities d relation :
  integrity d ->
  entity_named d (from relation) -> entity_named d (to relation) ->
  after (Kuzu.create_RELATED_TO relation) d
  = Kuzu.on_RELATED_TO (fun l => l ++ [relation]) d.
Proof.
  intros Hd Hf Ht.
  destruct (match_Entity_unique d _ Hd Hf) as (e1 & E1 & N1).
  destruct (match_Entity_unique d _ Hd Ht) as (e2 & E2 & N2).
  unfold after, Kuzu.create_RELATED_TO, Kuzu.writing.
  rewrite E1, E2. cbn [flat_map map app]. rewrite N1, N2.
  destruct relation; reflexivity.
Qed.

Lemma createRelations_loop relations :
  forall acc d r,
    integrity d ->
    (forall rel, In rel relations -> entity_named d (from rel) /\ entity_named d (to rel)) ->
    exists created,
      for_of relations (fun newRelations relation =>
        try_catch
          (n <- query (Kuzu.count_RELATED_TO relation) ;;
           if (n =? 0)%nat then
             query (Kuzu.create_RELATED_TO relation) ;;
             ret (newRelations ++ [ {| from := from relation; to := to relation;
                                       relationType := relationType relation |} ])
           else ret newRelations)
          (fun error => throw error))
        acc (quiet d r)
      = (inr (acc ++ created), quiet (Kuzu.on_RELATED_TO (fun l => l ++ created) d) r)
      /\ NoDup created
      /\ (forall rel, In rel created <->
                      In rel relations /\ ~ In rel (Kuzu.rels_RELATED_TO d)).
Proof.
  induction relations as [| relation relations IH]; intros acc d r Hd Hends; simpl for_of.
  - exists []. rewrite app_nil_r, on_RELATED_TO_nil.
    split; [reflexivity |]. split; [apply NoDup_nil |]. intros rel. cbn [In]. tauto.
  - pose proof (createRelations_turn_quiet acc relation d r) as Hturn.
    destruct (Hends relation (or_introl eq_refl)) as [Hf Ht].
    destruct (Kuzu.match_RELATED_TO d relation) as [| x lx] eqn:E;
      rewrite (bind_inr _ _ _ _ _ Hturn); clear Hturn.
    + rewrite (create_RELATED_TO_between_entities d relation Hd Hf Ht).
      pose (d1 := Kuzu.on_RELATED_TO (fun l => l ++ [relation]) d).
      assert (Hd1 : integrity d1).
      { apply add_RELATED_TO_integrity; [exact Hd |].
        intros x [<- | []]. split; assumption. }
      destruct (IH (acc ++ [relation]) d1 r Hd1) as (created & Hrun & Hnd & Hiff).
      { intros rel Hrel. apply Hends. right; exact Hrel. }
      unfold d1 in Hrun. rewrite Hrun, on_RELATED_TO_append. clear Hrun.
      assert (Hnew : ~ In relation (Kuzu.rels_RELATED_TO d))
        by apply match_RELATED_TO_nil, E.
      exists (relation :: created).
      split; [rewrite <- app_assoc; reflexivity |]. split.
      * apply NoDup_cons; [| exact Hnd]. intros Hin. apply Hiff in Hin as [_ Hin].
        apply Hin. cbn - [In]. apply in_or_app. right; left; reflexivity.
      * intros rel. split.
        -- intros [<- | Hin]; [split; [left; reflexivity | exact Hnew] |].
           apply Hiff in Hin as [H1 H2]. split; [right; exact H1 |].
           intros H. apply H2. cbn - [In]. apply in_or_app. left; exact H.
        -- intros [[<- | Hin] Hout]; [left; reflexivity |].
           destruct (Kuzu.same_Relation relation rel) eqn:Es.
           ++ left. apply same_Relation_eq, Es.
           ++ right. apply Hiff. split; [exact Hin |].
              cbn - [In]. intros H. apply in_app_or in H as [H | [<- | []]];
                [exact (Hout H) |].
              rewrite same_Relation_refl in Es. discriminate.
    + destruct (IH acc d r Hd) as (created & Hrun & Hnd & Hiff).
      { intros rel Hrel. apply Hends. right; exact Hrel. }
      assert (Hold : In relation (Kuzu.rels_RELATED_TO d))
        by (apply match_RELATED_TO_stored; rewrite E; discriminate).
      exists created. split; [exact Hrun |]. split; [exact Hnd |].
      intros rel. rewrite Hiff. split.
      * intros [H1 H2]. split; [right; exact H1 | exact H2].
      * intros [[<- | H1] H2]; [exfalso; exact (H2 Hold) | split; assumption].
Qed.

Lemma createRelations_loop_stored relations :
  forall acc d r,
    (forall rel, In rel relations -> In rel (Kuzu.rels_RELATED_TO d)) ->
    for_of relations (fun newRelations relation =>
      try_catch
        (n <- query (Kuzu.count_RELATED_TO relation) ;;
         if (n =? 0)%nat then
           query (Kuzu.create_RELATED_TO relation) ;;
           ret (newRelations ++ [ {| from := from relation; to := to relation;
                                     relationType := relationType relation |} ])
         else ret newRelations)
        (fun error => throw error))
      acc (quiet d r)
    = (inr acc, quiet d r).
Proof.
  induction relations as [| relation relations IH]; intros acc d r Hall; simpl for_of;
    [reflexivity |].
  pose proof (createRelations_turn_quiet acc relation d r) as Hturn.
  assert (Hold : Kuzu.match_RELATED_TO d relation <> [])
    by (apply match_RELATED_TO_stored, Hall; left; reflexivity).
  destruct (Kuzu.match_RELATED_TO d relation); [congruence |].
  rewrite (bind_inr _ _ _ _ _ Hturn). apply IH.
  intros rel Hrel. apply Hall. right; exact Hrel.
Qed.

(** X15.  Creating relations whose endpoints are all stored entities, in a
    database with integrity and on a connection without engine failures:
    [createRelations] reports, each once, exactly the listed triples that
    were not stored, and appends exactly these to the RELATED_TO table,
    touching nothing else; the same call made again reports nothing and
    leaves the database as it is. *)
Theorem createRelations_then_stored :
  forall d r relations,
    integrity d ->
    (forall rel, In rel relations -> entity_named d (from rel) /\ entity_named d (to rel)) ->
    exists created,
      let d' := Kuzu.on_RELATED_TO (fun l => l ++ created) d in
      createRelations relations (quiet d r) = (inr created, quiet d' r)
      /\ NoDup created
      /\ (forall rel, In rel created <->
                      In rel relations /\ ~ In rel (Kuzu.rels_RELATED_TO d))
      /\ createRelations relations (quiet d' r) = (inr [], quiet d' r).
Proof.
  intros d r relations Hd Hends.
  destruct (createRelations_loop relations [] d r Hd Hends) as (created & Hrun & Hnd & Hiff).
  exists created. cbv zeta. split; [exact Hrun |]. split; [exact Hnd |].
  split; [exact Hiff |].
  apply createRelations_loop_stored. intros rel Hrel. cbn - [In]. apply in_or_app.
  destruct (Kuzu.match_RELATED_TO d rel) eqn:E.
  - right. apply Hiff. split; [exact Hrel | apply match_RELATED_TO_nil, E].
  - left. apply match_RELATED_TO_stored. rewrite E. discriminate.
Qed.

Lemma createRelations_then_stored_witness :
  exists created,
    let d' := Kuzu.on_RELATED_TO (fun l => l ++ created) Sample.John_at_Anthropic in
    createRelations
      [ Sample.works_at;
        {| from := "Anthropic"; to := "John_Smith"; relationType := "employs" |} ]
      (quiet Sample.John_at_Anthropic 0)
    = (inr created, quiet d' 0)
    /\ NoDup created
    /\ (forall rel, In rel created <->
                    In rel [ Sample.works_at;
                             {| from := "Anthropic"; to := "John_Smith";
                                relationType := "employs" |} ]
                    /\ ~ In rel (Kuzu.rels_RELATED_TO Sample.John_at_Anthropic))
    /\ createRelations
         [ Sample.works_at;
           {| from := "Anthropic"; to := "John_Smith"; relationType := "employs" |} ]
         (quiet d' 0)
       = (inr [], quiet d' 0).
Proof.
  apply (createRelations_then_stored Sample.John_at_Anthropic 0
           [ Sample.works_at;
             {| from := "Anthropic"; to := "John_Smith"; relationType := "employs" |} ]).
  - exact John_at_Anthropic_integrity.
  - intros rel [<- | [<- | []]]; split; cbn; auto.
Defined.

(** *** Tagging an observation *)

Lemma labels_more_refl d : labels_more d d.
Proof. split; [reflexivity | split; [reflexivity | split; apply incl_refl]]. Qed.

Lemma labels_more_trans d1 d2 d3 :
  labels_more d1 d2 -> labels_more d2 d3 -> labels_more d1 d3.
Proof.
  intros (O1 & H1 & T1 & L1) (O2 & H2 & T2 & L2).
  split; [congruence |]. split; [congruence |]. split; eapply incl_tran; eauto.
Qed.

Lemma labels_more_match_owned d d' n c :
  labels_more d d' -> Kuzu.match_owned d' n c = Kuzu.match_owned d n c.
Proof.
  intros (O & H & _). unfold Kuzu.match_owned, Kuzu.linked_Observations, Kuzu.Observation_by_id.
  rewrite O, H. reflexivity.
Qed.

Lemma tagged_owned_In d n c t :
  tagged_owned d n c t <> [] <->
  exists o, In o (Kuzu.match_owned d n c)
            /\ In (Kuzu.o_id o, t) (Kuzu.rels_OBSERVATION_TAGGED_WITH d).
Proof.
  unfold tagged_owned. split.
  - intros H. destruct (flat_map _ _) as [| l ls] eqn:E; [congruence |].
    assert (In l (flat_map (fun o => Kuzu.match_OBSERVATION_TAGGED_WITH d o t)
                           (Kuzu.match_owned d n c))) as Hl
      by (rewrite E; left; reflexivity).
    apply in_flat_map in Hl as (o & Ho & Hl). exists o. split; [exact Ho |].
    apply filter_In in Hl as [Hl Hk]. apply andb_true_iff in Hk as [Hi Ht].
    apply Nat.eqb_eq in Hi. apply String.eqb_eq in Ht. destruct l as [i u].
    cbn [fst snd] in Hi, Ht. subst. exact Hl.
  - intros (o & Ho & Hl) E.
    assert (In (Kuzu.o_id o, t)
               (flat_map (fun o => Kuzu.match_OBSERVATION_TAGGED_WITH d o t)
                         (Kuzu.match_owned d n c))) as Hin.
    { apply in_flat_map. exists o. split; [exact Ho |]. apply filter_In.
      split; [exact Hl |]. cbn [fst snd]. rewrite Nat.eqb_refl, String.eqb_refl.
      reflexivity. }
    rewrite E in Hin. exact Hin.
Qed.

Lemma labels_more_tagged_owned d d' n c t :
  labels_more d d' -> tagged_owned d n c t <> [] -> tagged_owned d' n c t <> [].
Proof.
  intros W H. apply tagged_owned_In in H as (o & Ho & Hl). apply tagged_owned_In.
  exists o. rewrite (labels_more_match_owned d d' n c W). split; [exact Ho |].
  destruct W as (_ & _ & _ & L). apply L, Hl.
Qed.

Lemma labels_more_match_Tag d d' t :
  labels_more d d' -> Kuzu.match_Tag d t <> [] -> Kuzu.match_Tag d' t <> [].
Proof. intros (_ & _ & HT & _). apply filter_incl_nonempty, HT. Qed.

(** One turn of the loop of [Plain.tagObservation] when the entity owns an
    observation of the given content. *)
Lemma tagObservation_tag_owned n c acc t d r :
  Kuzu.match_owned d n c <> [] ->
  exists d',
    labels_more d d'
    /\ Kuzu.match_Tag d' t <> []
    /\ tagged_owned d' n c t <> []
    /\ (Plain.tagObservation_tag n c acc t (quiet d r) = (inr (acc ++ [t]), quiet d' r)
        /\ tagged_owned d n c t = []
        \/ Plain.tagObservation_tag n c acc t (quiet d r) = (inr acc, quiet d' r)
           /\ (Kuzu.match_Tag d t <> [] -> d' = d)).
Proof.
  intros Hown. pose proof (tagObservation_tag_quiet n c acc t d r) as Hturn.
  cbv zeta in Hturn.
  set (d1 := match Kuzu.match_Tag d t with
             | [] => Kuzu.on_Tag (fun l => l ++
                  [ {| Kuzu.t_name := t; Kuzu.t_category := ""; Kuzu.t_description := "" |} ]) d
             | _ :: _ => d
             end) in *.
  assert (W1 : labels_more d d1).
  { subst d1. destruct (Kuzu.match_Tag d t); [| apply labels_more_refl].
    split; [reflexivity |]. split; [reflexivity |].
    split; [apply incl_appl, incl_refl | apply incl_refl]. }
  assert (T1 : Kuzu.match_Tag d1 t <> []).
  { subst d1. destruct (Kuzu.match_Tag d t) eqn:E; [| rewrite E; discriminate].
    unfold Kuzu.match_Tag. cbn [Kuzu.on_Tag Kuzu.nodes_Tag]. rewrite filter_app.
    cbn [filter Kuzu.t_name]. rewrite String.eqb_refl.
    intros H. apply app_eq_nil in H as [_ H]. discriminate. }
  assert (Hsame : Kuzu.match_Tag d t <> [] -> d1 = d)
    by (subst d1; destruct (Kuzu.match_Tag d t); [congruence | reflexivity]).
  assert (Hown1 : Kuzu.match_owned d1 n c <> [])
    by (rewrite (labels_more_match_owned d d1 n c W1); exact Hown).
  fold (tagged_owned d1 n c t) in Hturn.
  destruct (tagged_owned d1 n c t) as [| l ls] eqn:E.
  - set (d2 := Kuzu.on_OBSERVATION_TAGGED_WITH _ d1) in Hturn.
    assert (W2 : labels_more d1 d2).
    { split; [reflexivity |]. split; [reflexivity |]. split; [apply incl_refl |].
      cbn - [In]. apply incl_appl, incl_refl. }
    exists d2. split; [eapply labels_more_trans; eauto |].
    split; [eapply labels_more_match_Tag; eauto |]. split.
    + apply tagged_owned_In. rewrite (labels_more_match_owned d1 d2 n c W2).
      destruct (Kuzu.match_owned d1 n c) as [| o os] eqn:Eo; [congruence |].
      destruct (Kuzu.match_Tag d1 t) as [| u us] eqn:Eu; [congruence |].
      assert (Hu : Kuzu.t_name u = t).
      { assert (In u (Kuzu.match_Tag d1 t)) as H by (rewrite Eu; left; reflexivity).
        apply filter_In in H as [_ H]. apply String.eqb_eq, H. }
      exists o. split; [left; reflexivity |].
      subst d2. cbn [Kuzu.on_OBSERVATION_TAGGED_WITH Kuzu.rels_OBSERVATION_TAGGED_WITH].
      apply in_or_app. right. cbn [flat_map map]. rewrite Hu. left; reflexivity.
    + left. split; [exact Hturn |].
      destruct (tagged_owned d n c t) eqn:E0; [reflexivity | exfalso].
      apply (labels_more_tagged_owned d d1 n c t W1); [rewrite E0; discriminate | exact E].
  - exists d1. split; [exact W1 |]. split; [exact T1 |].
    split; [rewrite E; discriminate |]. right. split; [exact Hturn | exact Hsame].
Qed.

Lemma tagObservation_loop_owned n c ts :
  forall acc d r,
    Kuzu.match_owned d n c <> [] ->
    exists added d',
      for_of ts (Plain.tagObservation_tag n c) acc (quiet d r) = (inr (acc ++ added), quiet d' r)
      /\ labels_more d d'
      /\ (forall t, In t added -> In t ts /\ tagged_owned d n c t = [])
      /\ (forall t, In t ts -> Kuzu.match_Tag d' t <> [] /\ tagged_owned d' n c t <> []).
Proof.
  induction ts as [| t ts IH]; intros acc d r Hown; simpl for_of.
  - exists [], d. rewrite app_nil_r. split; [reflexivity |].
    split; [apply labels_more_refl |]. split; intros t [].
  - destruct (tagObservation_tag_owned n c acc t d r Hown)
      as (d1 & W1 & T1 & L1 & [[Hturn Hnew] | [Hturn _]]);
      rewrite (bind_inr _ _ _ _ _ Hturn);
      (assert (Hown1 : Kuzu.match_owned d1 n c <> [])
        by (rewrite (labels_more_match_owned d d1 n c W1); exact Hown)).
    + destruct (IH (acc ++ [t]) d1 r Hown1) as (added & d' & Hrun & W & Hadd & Hall).
      exists (t :: added), d'. split; [rewrite Hrun, <- app_assoc; reflexivity |].
      split; [eapply labels_more_trans; eauto |]. split.
      * intros x [<- | Hx]; [split; [left; reflexivity | exact Hnew] |].
        destruct (Hadd x Hx) as [H1 H2]. split; [right; exact H1 |].
        destruct (tagged_owned d n c x) eqn:E0; [reflexivity | exfalso].
        apply (labels_more_tagged_owned d d1 n c x W1); [rewrite E0; discriminate | exact H2].
      * intros x [<- | Hx]; [| apply Hall, Hx]. split.
        -- eapply labels_more_match_Tag; eauto.
        -- eapply labels_more_tagged_owned; eauto.
    + destruct (IH acc d1 r Hown1) as (added & d' & Hrun & W & Hadd & Hall).
      exists added, d'. split; [exact Hrun |].
      split; [eapply labels_more_trans; eauto |]. split.
      * intros x Hx. destruct (Hadd x Hx) as [H1 H2]. split; [right; exact H1 |].
        destruct (tagged_owned d n c x) eqn:E0; [reflexivity | exfalso].
        apply (labels_more_tagged_owned d d1 n c x W1); [rewrite E0; discriminate | exact H2].
      * intros x [<- | Hx]; [| apply Hall, Hx]. split.
        -- eapply labels_more_match_Tag; eauto.
        -- eapply labels_more_tagged_owned; eauto.
Qed.

Lemma tagObservation_loop_tagged n c ts :
  forall acc d r,
    (forall t, In t ts -> Kuzu.match_Tag d t <> [] /\ tagged_owned d n c t <> []) ->
    for_of ts (Plain.tagObservation_tag n c) acc (quiet d r) = (inr acc, quiet d r).
Proof.
  induction ts as [| t ts IH]; intros acc d r Hall; simpl for_of; [reflexivity |].
  pose proof (tagObservation_tag_quiet n c acc t d r) as Hturn. cbv zeta in Hturn.
  destruct (Hall t (or_introl eq_refl)) as [Ht Hl].
  destruct (Kuzu.match_Tag d t) eqn:ET; [congruence |].
  fold (tagged_owned d n c t) in Hturn.
  destruct (tagged_owned d n c t) eqn:EL; [congruence |].
  rewrite (bind_inr _ _ _ _ _ Hturn). apply IH.
  intros x Hx. apply Hall. right; exact Hx.
Qed.

(** The operation on values, on a connection without engine failures. *)
Lemma Plain_tagObservation_tagged :
  forall d r entityName observationContent tagNames,
    Kuzu.match_owned d entityName observationContent <> [] ->
    exists added d',
      Plain.tagObservation entityName observationContent tagNames (quiet d r)
      = (inr added, quiet d' r)
      /\ labels_more d d'
      /\ (forall t, In t added ->
                    In t tagNames
                    /\ tagged_owned d entityName observationContent t = [])
      /\ (forall t, In t tagNames ->
                    Kuzu.match_Tag d' t <> []
                    /\ tagged_owned d' entityName observationContent t <> [])
      /\ Plain.tagObservation entityName observationContent tagNames (quiet d' r)
         = (inr [], quiet d' r).
Proof.
  intros d r n c ts Hown.
  destruct (tagObservation_loop_owned n c ts [] d r Hown)
    as (added & d' & Hrun & W & Hadd & Hall).
  exists added, d'. unfold Plain.tagObservation. rewrite !rethrow_id.
  split; [exact Hrun |]. split; [exact W |]. split; [exact Hadd |].
  split; [exact Hall |]. apply tagObservation_loop_tagged, Hall.
Qed.

(** X16.  Tagging an observation the entity owns, on a connection without
    engine failures, the texts holding no backslash: [tagObservation]
    reports only tags no such observation was linked to; afterwards every
    listed name names a tag and an owned observation of that content is
    linked to it, while observations and their owners are as before; and
    the same call made again reports nothing and leaves the database as it
    is. *)
Theorem tagObservation_then_tagged :
  forall d r entityName observationContent tagNames,
    Text.plain entityName = true ->
    Text.plain observationContent = true ->
    forallb Text.plain tagNames = true ->
    Kuzu.match_owned d entityName observationContent <> [] ->
    exists added d',
      tagObservation entityName observationContent tagNames (quiet d r)
      = (inr added, quiet d' r)
      /\ labels_more d d'
      /\ (forall t, In t added ->
                    In t tagNames
                    /\ tagged_owned d entityName observationContent t = [])
      /\ (forall t, In t tagNames ->
                    Kuzu.match_Tag d' t <> []
                    /\ tagged_owned d' entityName observationContent t <> [])
      /\ tagObservation entityName observationContent tagNames (quiet d' r)
         = (inr [], quiet d' r).
Proof.
  intros d r n c ts Hn Hc Hts Hown.
  destruct (Plain_tagObservation_tagged d r n c ts Hown)
    as (added & d' & H1 & H2 & H3 & H4 & H5).
  exists added, d'. rewrite !(tagObservation_on_plain_text n c ts Hn Hc Hts). auto.
Qed.

Lemma tagObservation_then_tagged_witness :
  exists added d',
    tagObservation "John_Smith" "Speaks fluent Spanish" ["language"; "language"]
                   (quiet Sample.John_alone 0)
    = (inr added, quiet d' 0)
    /\ labels_more Sample.John_alone d'
    /\ (forall t, In t added ->
                  In t ["language"; "language"]
                  /\ tagged_owned Sample.John_alone "John_Smith" "Speaks fluent Spanish" t
                     = [])
    /\ (forall t, In t ["language"; "language"] ->
                  Kuzu.match_Tag d' t <> []
                  /\ tagged_owned d' "John_Smith" "Speaks fluent Spanish" t <> [])
    /\ tagObservation "John_Smith" "Speaks fluent Spanish" ["language"; "language"]
                      (quiet d' 0)
       = (inr [], quiet d' 0).
Proof.
  apply (tagObservation_then_tagged Sample.John_alone 0 "John_Smith"
           "Speaks fluent Spanish" ["language"; "language"]);
    [reflexivity | reflexivity | reflexivity | discriminate].
Defined.

(** *** Errors of the tag operations and of the queries *)

Lemma never_raises_rethrow {A} (m : M A) :
  never_raises m -> never_raises (try_catch m (fun error => throw error)).
Proof. intros Hm c. rewrite rethrow_id. apply Hm. Qed.

Ltac surfacing_query :=
  repeat first
    [ progress cbv beta zeta
    | apply propagates_rethrow
    | apply propagates_bind; [| intros ? ]
    | apply propagates_query
    | apply propagates_ret
    | apply propagates_throw
    | apply for_of_propagates; intros ? ?
    | match goal with
      | |- propagates (if ?b then _ else _) => destruct b
      | |- propagates (match ?o with Some _ => _ | None => _ end) => destruct o
      end ].

(** X17.  Errors of the operations outside the create and delete paths.
    [createTags] surfaces every error the engine throws and stops there.
    [tagObservation] returns normally on every connection, whatever the
    engine throws: each tag name is processed under a handler of its own
    and the outer handler has nothing left to rethrow.  The queries
    [readGraph], [searchNodes], [openNodes], [getEntitiesByTag],
    [getAllTags] and [getTagUsage] surface every error the engine throws:
    a result is returned only when no round trip failed. *)
Theorem tag_and_query_errors :
  ((forall tags, propagates (createTags tags)) /\ aborts_rest createTags)
  /\ (forall entityName observationContent tagNames,
        never_raises (tagObservation entityName observationContent tagNames))
  /\ propagates readGraph
  /\ (forall q, propagates (searchNodes q))
  /\ (forall names, propagates (openNodes names))
  /\ (forall tagName, propagates (getEntitiesByTag tagName))
  /\ propagates getAllTags
  /\ propagates getTagUsage.
Proof.
  repeat match goal with |- _ /\ _ => split end.
  - intros tags. apply for_of_propagates; intros s tag. surfacing_query.
  - intros l1 l2 c e c' H. apply for_of_aborts, H.
  - intros n c ts. apply never_raises_rethrow. cbv zeta.
    apply for_of_never_raises; intros s x. apply catch_all_never_raises.
  - unfold readGraph, getAllTags. surfacing_query.
  - intros q. unfold searchNodes. surfacing_query.
  - intros names. unfold openNodes. surfacing_query.
  - intros tagName. unfold getEntitiesByTag. surfacing_query.
  - unfold getAllTags. surfacing_query.
  - unfold getTagUsage. surfacing_query.
Qed.
